(** * Session-security core of the storefront: tokens, revocation, refresh

    A shallow embedding of the authentication code of the repository
    (backend/middleware/auth.js, backend/middleware/auth-enhanced.js,
    backend/routes/auth.js, backend/routes/auth-enhanced.js, the in-memory
    blacklist and the client-side AuthContext) together with the properties
    the specification states about it.

    Conventions.
    - [Date.now()] is an explicit argument [now : Z], in milliseconds.
    - A JavaScript exception is a value [Throw e] of [Result]; a rejected
      promise of an [async] function is modelled the same way.
    - The user collection is a list of documents, in insertion order.
    - Signed tokens are symbolic: a compact JWS is its payload together with
      the key its HMAC tag was computed under (see [Jwt]). *)

From Stdlib Require Import ZArith String Ascii List Bool Lia.
From stdpp Require Import base option list gmap strings.
Import ListNotations.

Local Open Scope Z_scope.
Local Open Scope string_scope.

(** ** JavaScript values *)

Record JsError := mkError { err_name : string; err_message : string }.

Inductive Result (A : Type) : Type :=
| Ok (a : A)
| Throw (e : JsError).
Arguments Ok {A} a.
Arguments Throw {A} e.

Definition bind {A B : Type} (r : Result A) (k : A -> Result B) : Result B :=
  match r with
  | Ok a => k a
  | Throw e => Throw e
  end.

Notation "'let!' x ':=' r 'in' k" := (bind r (fun x => k))
  (at level 10, x name, r at level 100, k at level 200).

(** [!s] for a string that may be [undefined]: falsy when absent or empty. *)
Definition truthy (s : option string) : bool :=
  match s with
  | None => false
  | Some EmptyString => false
  | Some _ => true
  end.

(** [a || d] on strings. *)
Definition or_default (a : option string) (d : string) : string :=
  match a with
  | Some (String c s) => String c s
  | _ => d
  end.

(** [s.includes(p)]. *)
Fixpoint includes (s p : string) : bool :=
  String.prefix p s ||
  match s with
  | EmptyString => false
  | String _ s' => includes s' p
  end.

Definition lower_ascii (c : ascii) : ascii :=
  let n := nat_of_ascii c in
  if (Nat.leb 65 n && Nat.leb n 90)%bool then ascii_of_nat (n + 32) else c.

(** [s.toLowerCase()] on the ASCII range. *)
Fixpoint toLowerCase (s : string) : string :=
  match s with
  | EmptyString => EmptyString
  | String c s' => String (lower_ascii c) (toLowerCase s')
  end.

(** ** The jsonwebtoken library, symbolically

    [jwt.sign], [jwt.verify] and [jwt.decode] belong to the jsonwebtoken
    package.  A token string is either text that is not a compact JWS, or a
    JWS made of a payload and an HS256 tag; the tag is represented by the
    key it was computed under, so that a tag verifies under a key exactly
    when it was produced with that key. *)

Module Jwt.

Record Payload := mkPayload {
  id : option nat;
  type : option string;
  fp : option string;
  iat : option Z;
  nbf : option Z;
  exp : option Z;
  iss : option string;
  aud : option string
}.

Inductive Wire :=
| Malformed (text : string)
| Jws (payload : Payload) (key : string).

Record SignOptions := mkSignOptions {
  issuer : option string;
  audience : option string;
  expiresIn : option string
}.

Record VerifyOptions := mkVerifyOptions {
  v_issuer : option string;
  v_audience : option string
}.

(** The time spans the repository uses, in seconds. *)
Definition timespan (s : string) : option Z :=
  if String.eqb s "15m" then Some 900
  else if String.eqb s "1h" then Some 3600
  else if String.eqb s "7d" then Some 604800
  else if String.eqb s "30d" then Some 2592000
  else None.

Definition JsonWebTokenError (m : string) : JsError := mkError "JsonWebTokenError" m.
Definition TokenExpiredError : JsError := mkError "TokenExpiredError" "jwt expired".
Definition NotBeforeError : JsError := mkError "NotBeforeError" "jwt not active".

(** [jwt.sign(payload, secret, options)] at clock [now] (ms). *)
Definition sign (p : Payload) (secret : option string) (o : SignOptions) (now : Z)
  : Result Wire :=
  match secret with
  | Some (String c k) =>
      let timestamp := match iat p with
                       | Some t => if Z.eqb t 0 then now / 1000 else t
                       | None => now / 1000
                       end in
      match expiresIn o with
      | Some span =>
          match timespan span with
          | Some d =>
              Ok (Jws {| id := id p; type := type p; fp := fp p;
                         iat := Some timestamp; nbf := nbf p;
                         exp := Some (timestamp + d);
                         iss := match issuer o with Some i => Some i | None => iss p end;
                         aud := match audience o with Some a => Some a | None => aud p end |}
                      (String c k))
          | None => Throw (mkError "Error" "invalid expiresIn option")
          end
      | None =>
          Ok (Jws {| id := id p; type := type p; fp := fp p;
                     iat := Some timestamp; nbf := nbf p; exp := exp p;
                     iss := match issuer o with Some i => Some i | None => iss p end;
                     aud := match audience o with Some a => Some a | None => aud p end |}
                  (String c k))
      end
  | _ => Throw (mkError "Error" "secretOrPrivateKey must have a value")
  end.

(** [jwt.verify(token, secret, options)] at clock [now] (ms): structure,
    signature, not-before, expiry, audience, issuer, in that order. *)
Definition verify (t : Wire) (secret : option string) (o : VerifyOptions) (now : Z)
  : Result Payload :=
  match t with
  | Malformed _ => Throw (JsonWebTokenError "jwt malformed")
  | Jws p k =>
      match secret with
      | Some (String c s) =>
          if negb (String.eqb k (String c s)) then
            Throw (JsonWebTokenError "invalid signature")
          else if match nbf p with Some n => Z.ltb (now / 1000) n | None => false end then
            Throw NotBeforeError
          else if match exp p with Some e => Z.leb e (now / 1000) | None => false end then
            Throw TokenExpiredError
          else if match v_audience o with
                  | Some (String c' a) =>
                      negb (match aud p with
                            | Some a' => String.eqb a' (String c' a)
                            | None => false
                            end)
                  | _ => false
                  end then
            Throw (JsonWebTokenError "jwt audience invalid")
          else if match v_issuer o with
                  | Some (String c' i) =>
                      negb (match iss p with
                            | Some i' => String.eqb i' (String c' i)
                            | None => false
                            end)
                  | _ => false
                  end then
            Throw (JsonWebTokenError "jwt issuer invalid")
          else Ok p
      | _ => Throw (JsonWebTokenError "secret or public key must be provided")
      end
  end.

(** [jwt.decode(token)]: the payload without any check, [null] on text
    that is not a JWS. *)
Definition decode (t : Wire) : option Payload :=
  match t with
  | Malformed _ => None
  | Jws p _ => Some p
  end.

(** [!token] for a token string. *)
Definition falsy (t : option Wire) : bool :=
  match t with
  | None => true
  | Some (Malformed EmptyString) => true
  | Some _ => false
  end.

#[global] Instance Payload_eq_dec : EqDecision Payload.
Proof. solve_decision. Defined.

#[global] Instance Wire_eq_dec : EqDecision Wire.
Proof. solve_decision. Defined.

End Jwt.

(** ** Process environment and SECURITY_CONFIG (middleware/auth.js) *)

Record Env := mkEnv {
  JWT_SECRET : option string;
  JWT_REFRESH_SECRET : option string;
  JWT_ISSUER : option string;
  JWT_AUDIENCE : option string
}.

(** The start-up check of middleware/auth.js: the process exits unless both
    secrets are set. *)
Definition env_ready (env : Env) : bool :=
  truthy (JWT_SECRET env) && truthy (JWT_REFRESH_SECRET env).

Definition config_issuer (env : Env) : string := or_default (JWT_ISSUER env) "marketsphere-api".
Definition config_audience (env : Env) : string := or_default (JWT_AUDIENCE env) "marketsphere-app".

Definition access_span (remember : bool) : string := if remember then "7d" else "15m".
Definition refresh_span (remember : bool) : string := if remember then "30d" else "7d".

(** ** Token Codec *)

Definition claims (userId : nat) (ty : string) (fingerprint : option string) (now : Z)
  : Jwt.Payload :=
  {| Jwt.id := Some userId; Jwt.type := Some ty; Jwt.fp := fingerprint;
     Jwt.iat := Some (now / 1000); Jwt.nbf := None; Jwt.exp := None;
     Jwt.iss := None; Jwt.aud := None |}.

(** middleware/auth.js, generateAccessToken. *)
Definition generateAccessToken (env : Env) (now : Z) (userId : nat) (remember : bool)
  : Result Jwt.Wire :=
  if negb (truthy (JWT_SECRET env)) then Throw (mkError "Error" "JWT_SECRET is not defined")
  else Jwt.sign (claims userId "access" None now) (JWT_SECRET env)
         {| Jwt.issuer := Some (config_issuer env);
            Jwt.audience := Some (config_audience env);
            Jwt.expiresIn := Some (access_span remember) |} now.

(** middleware/auth.js, generateRefreshToken. *)
Definition generateRefreshToken (env : Env) (now : Z) (userId : nat) (remember : bool)
  : Result Jwt.Wire :=
  if negb (truthy (JWT_REFRESH_SECRET env)) then
    Throw (mkError "Error" "JWT_REFRESH_SECRET is not defined")
  else Jwt.sign (claims userId "refresh" None now) (JWT_REFRESH_SECRET env)
         {| Jwt.issuer := Some (config_issuer env);
            Jwt.audience := Some (config_audience env);
            Jwt.expiresIn := Some (refresh_span remember) |} now.

(** middleware/auth.js, verifyToken. *)
Definition verifyToken (env : Env) (now : Z) (token : Jwt.Wire) (isRefresh : bool)
  : Result Jwt.Payload :=
  let secret := if isRefresh then JWT_REFRESH_SECRET env else JWT_SECRET env in
  if negb (truthy secret) then
    Throw (mkError "Error" (if isRefresh then "JWT_REFRESH_SECRET is not defined"
                            else "JWT_SECRET is not defined"))
  else Jwt.verify token secret
         {| Jwt.v_issuer := Some (config_issuer env);
            Jwt.v_audience := Some (config_audience env) |} now.

Record TokenPair := mkPair { accessToken : Jwt.Wire; refreshToken : Jwt.Wire }.

(** routes/auth.js, generateTokens. *)
Definition generateTokens (env : Env) (now : Z) (userId : nat) (remember : bool)
  : Result TokenPair :=
  let! a := Jwt.sign (claims userId "access" None now) (JWT_SECRET env)
              {| Jwt.issuer := Some (config_issuer env);
                 Jwt.audience := Some (config_audience env);
                 Jwt.expiresIn := Some (access_span remember) |} now in
  let! r := Jwt.sign (claims userId "refresh" None now) (JWT_REFRESH_SECRET env)
              {| Jwt.issuer := Some (config_issuer env);
                 Jwt.audience := Some (config_audience env);
                 Jwt.expiresIn := Some (refresh_span remember) |} now in
  Ok {| accessToken := a; refreshToken := r |}.

(** middleware/auth-enhanced.js, generateSecureTokens. *)
Definition generateSecureTokens (env : Env) (now : Z) (userId : nat) (remember : bool)
    (fingerprint : option string) : Result TokenPair :=
  let! a := Jwt.sign (claims userId "access" fingerprint now) (JWT_SECRET env)
              {| Jwt.issuer := None; Jwt.audience := None;
                 Jwt.expiresIn := Some (access_span remember) |} now in
  let! r := Jwt.sign (claims userId "refresh" fingerprint now) (JWT_REFRESH_SECRET env)
              {| Jwt.issuer := None; Jwt.audience := None;
                 Jwt.expiresIn := Some (refresh_span remember) |} now in
  Ok {| accessToken := a; refreshToken := r |}.

(** middleware/auth-enhanced.js, verifyTokenWithFingerprint. *)
Definition verifyTokenWithFingerprint (env : Env) (now : Z) (token : Jwt.Wire)
    (fingerprint : option string) (isRefresh : bool) : Result Jwt.Payload :=
  let secret := if isRefresh then JWT_REFRESH_SECRET env else JWT_SECRET env in
  let! decoded := Jwt.verify token secret
                    {| Jwt.v_issuer := None; Jwt.v_audience := None |} now in
  if negb (bool_decide (Jwt.fp decoded = fingerprint)) then
    Throw (mkError "Error" "Token fingerprint mismatch")
  else Ok decoded.

(** ** The user collection (models/User.js is consumed through Mongoose) *)

Module UserDoc.

Record User := mkUser {
  _id : nat;
  name : string;
  email : string;
  password : option string;
  role : string;
  avatar : option string;
  isVerified : bool;
  isSuspended : bool;
  refreshToken : option Jwt.Wire;
  googleId : option string;
  lastLogin : option Z;
  lastActive : option Z;
  loginCount : option Z;
  createdAt : option Z
}.

Definition set_refreshToken (u : User) (r : option Jwt.Wire) : User :=
  mkUser (_id u) (name u) (email u) (password u) (role u) (avatar u) (isVerified u)
         (isSuspended u) r (googleId u) (lastLogin u) (lastActive u) (loginCount u)
         (createdAt u).

Definition set_lastActive (u : User) (t : Z) : User :=
  mkUser (_id u) (name u) (email u) (password u) (role u) (avatar u) (isVerified u)
         (isSuspended u) (refreshToken u) (googleId u) (lastLogin u) (Some t)
         (loginCount u) (createdAt u).

(** [user.lastLogin = new Date(); user.loginCount = (user.loginCount || 0) + 1]. *)
Definition touch_login (u : User) (t : Z) : User :=
  mkUser (_id u) (name u) (email u) (password u) (role u) (avatar u) (isVerified u)
         (isSuspended u) (refreshToken u) (googleId u) (Some t) (lastActive u)
         (Some (match loginCount u with Some n => n | None => 0 end + 1))
         (createdAt u).

(** [.select('-password -refreshToken -otp').lean()]. *)
Definition select_safe (u : User) : User :=
  mkUser (_id u) (name u) (email u) None (role u) (avatar u) (isVerified u)
         (isSuspended u) None (googleId u) (lastLogin u) (lastActive u) (loginCount u)
         (createdAt u).

(** [User.findById(id)]; an absent id finds nothing. *)
Definition findById (db : list User) (i : option nat) : option User :=
  match i with
  | Some n => List.find (fun u => Nat.eqb (_id u) n) db
  | None => None
  end.

(** [User.findOne({ email })]: the first matching document. *)
Definition findOneByEmail (db : list User) (e : string) : option User :=
  List.find (fun u => String.eqb (email u) e) db.

(** [user.save()] on a loaded document: the stored document with the same
    [_id] is replaced. *)
Definition save (db : list User) (u : User) : list User :=
  List.map (fun v => if Nat.eqb (_id v) (_id u) then u else v) db.

(** [User.findByIdAndUpdate(id, { $unset: { refreshToken: 1 } })]. *)
Definition unsetRefreshToken (db : list User) (i : nat) : list User :=
  List.map (fun v => if Nat.eqb (_id v) i then set_refreshToken v None else v) db.

End UserDoc.

(** ** HTTP requests and responses *)

(** The Authorization header in parsed form: the code only applies
    [startsWith('Bearer ')] and [split(' ')[1]] to it, so a header that
    starts with 'Bearer ' is kept as its second space-separated segment. *)
Inductive AuthHeader :=
| Bearer (second : Jwt.Wire)
| OtherScheme (text : string).

Record Cookies := mkCookies {
  c_accessToken : option Jwt.Wire;
  c_refreshToken : option Jwt.Wire;
  c_rememberMe : option string
}.

Record Request := mkRequest {
  ip : option string;
  user_agent : option string;
  accept_language : option string;
  authorization : option AuthHeader;
  cookies : option Cookies
}.

Record SafeUser := mkSafeUser {
  s_id : nat;
  s_name : string;
  s_email : string;
  s_role : string;
  s_avatar : option string;
  s_isVerified : bool;
  s_createdAt : option Z
}.

(** routes/auth.js, buildSafeUser. *)
Definition buildSafeUser (u : UserDoc.User) : SafeUser :=
  {| s_id := UserDoc._id u; s_name := UserDoc.name u; s_email := UserDoc.email u;
     s_role := UserDoc.role u; s_avatar := UserDoc.avatar u;
     s_isVerified := UserDoc.isVerified u; s_createdAt := UserDoc.createdAt u |}.

(** The JSON bodies the handlers send ([csrfToken] fields, produced by the
    csurf package, are left out). *)
Inductive Json :=
| JError (error : string) (code : option string) (message : option string)
| JSession (message : option string) (user : SafeUser) (tokens : TokenPair)
           (expiresIn : string) (isNewUser : option bool)
| JRefreshed (access refresh : Jwt.Wire) (expiresIn : string)
| JUser (user : SafeUser)
| JAccess (access : Jwt.Wire).

Inductive CookieEffect :=
| NoCookies
| SetAuthCookies (tokens : TokenPair) (remember : bool)
| ClearAuthCookies.

Record Response := mkResponse { status : Z; json : Json; cookie_effect : CookieEffect }.

Definition reply (st : Z) (error : string) (code : option string) (message : option string)
  : Response :=
  {| status := st; json := JError error code message; cookie_effect := NoCookies |}.

(** Whether a response delivers freshly minted tokens to the client. *)
Definition mints (r : Response) : bool :=
  match json r, cookie_effect r with
  | JSession _ _ _ _ _, _ => true
  | JRefreshed _ _ _, _ => true
  | JAccess _, _ => true
  | _, SetAuthCookies _ _ => true
  | _, _ => false
  end.

(** ** Redis client and its availability flag (module state of auth.js) *)

Record RedisClient := mkRedis {
  redis_exists : string -> Result Z;
  redis_set_px : string -> string -> Z -> Result unit
}.

Record RedisState := mkRedisState {
  redisAvailable : bool;
  redis : option RedisClient
}.

(** ** In-memory blacklist (class MemoryBlacklist) *)

Module MemoryBlacklist.

Definition t := gmap string Z.

Inductive Op :=
| Add (token : Jwt.Wire) (ttl : Z)
| Has (token : Jwt.Wire)
| Cleanup.

End MemoryBlacklist.

(** ** Client side: AuthContext (token storage, Refresh Coordinator,
    response interceptor)

    On the client a token is an opaque string.  JavaScript runs each piece
    of code between two [await]s without interruption, so the coordinator
    is a machine with two kinds of events: a caller invoking
    [refreshAccessToken], and the response to a pending
    POST /api/auth/refresh arriving.  React reducer dispatches and toasts
    change no state the coordinator reads and are left out. *)

Module Client.

Record WebStorage := mkWebStorage {
  marketsphereToken : option string;
  marketsphereRefreshToken : option string;
  marketsphereRememberMe : option string
}.

Record Browser := mkBrowser {
  localStorage : WebStorage;
  sessionStorage : WebStorage;
  defaultAuthorization : option string
}.

Definition removeTokens (w : WebStorage) : WebStorage :=
  mkWebStorage None None (marketsphereRememberMe w).

(** setAuthTokens. *)
Definition setAuthTokens (b : Browser) (accessToken refreshToken : option string)
    (remember : bool) : Browser :=
  let chosen0 := if remember then localStorage b else sessionStorage b in
  let opposite := mkWebStorage None None None in
  let chosen1 :=
    if truthy accessToken
    then mkWebStorage accessToken (marketsphereRefreshToken chosen0)
                      (marketsphereRememberMe chosen0)
    else mkWebStorage None (marketsphereRefreshToken chosen0)
                      (marketsphereRememberMe chosen0) in
  let chosen2 :=
    if truthy refreshToken
    then mkWebStorage (marketsphereToken chosen1) refreshToken
                      (marketsphereRememberMe chosen1)
    else mkWebStorage (marketsphereToken chosen1) None (marketsphereRememberMe chosen1) in
  let header :=
    match accessToken with
    | Some (String c t) => Some ("Bearer " +:+ String c t)
    | _ => None
    end in
  if remember then
    {| localStorage := mkWebStorage (marketsphereToken chosen2)
                                    (marketsphereRefreshToken chosen2) (Some "true");
       sessionStorage := opposite;
       defaultAuthorization := header |}
  else
    {| localStorage := opposite;
       sessionStorage := chosen2;
       defaultAuthorization := header |}.

(** getStoredTokens: (accessToken, refreshToken, remember). *)
Definition getStoredTokens (b : Browser) : option string * option string * bool :=
  let remember := bool_decide (marketsphereRememberMe (localStorage b) = Some "true") in
  let storage := if remember then localStorage b else sessionStorage b in
  (marketsphereToken storage, marketsphereRefreshToken storage, remember).

(** clearAllTokens. *)
Definition clearAllTokens (b : Browser) : Browser :=
  {| localStorage := mkWebStorage None None None;
     sessionStorage := removeTokens (sessionStorage b);
     defaultAuthorization := None |}.

(** How a promise handed to a caller ends. *)
Inductive Settlement :=
| Resolved (token : option string)
| Rejected (e : JsError).

(** A POST /api/auth/refresh awaiting its response, with the values its
    continuation captured. *)
Record Pending := mkPending {
  owner : nat;
  sentRefreshToken : string;
  sentRemember : bool
}.

Record Coordinator := mkCoordinator {
  isRefreshing : bool;
  failedQueue : list nat;
  inflight : list Pending;
  refreshCalls : nat;
  logoutCalls : nat;
  logoutsPending : nat;
  browser : Browser;
  settled : list (nat * Settlement)
}.

Inductive HttpResult :=
| HttpOk (accessToken refreshToken : option string)
| HttpError (e : JsError).

Inductive Event :=
| Invoke (caller : nat)
| Settle (caller : nat) (r : HttpResult)
| LogoutDone.

(** processQueue(error, token): every queued promise is settled, then the
    queue is emptied. *)
Definition processQueue (queue : list nat) (error : option JsError) (token : option string)
  : list (nat * Settlement) :=
  List.map (fun prom => match error with
                        | Some e => (prom, Rejected e)
                        | None => (prom, Resolved token)
                        end) queue.

(** refreshAccessToken up to its [await]. *)
Definition invoke (s : Coordinator) (caller : nat) : Coordinator :=
  if isRefreshing s then
    mkCoordinator true (failedQueue s ++ [caller])%list (inflight s) (refreshCalls s)
                  (logoutCalls s) (logoutsPending s) (browser s) (settled s)
  else
    let '(_, refreshToken, remember) := getStoredTokens (browser s) in
    match refreshToken with
    | Some (String c r) =>
        mkCoordinator true (failedQueue s)
                      (inflight s ++ [mkPending caller (String c r) remember])%list
                      (S (refreshCalls s)) (logoutCalls s) (logoutsPending s) (browser s)
                      (settled s)
    | _ =>
        mkCoordinator false [] (inflight s) (refreshCalls s) (S (logoutCalls s))
                      (S (logoutsPending s)) (browser s)
                      (settled s
                       ++ processQueue (failedQueue s)
                            (Some (mkError "Error" "No refresh token available.")) None
                       ++ [(caller, Resolved None)])%list
    end.

(** refreshAccessToken after its [await], for the pending call [p]. *)
Definition resume (s : Coordinator) (p : Pending) (rest : list Pending) (r : HttpResult)
  : Coordinator :=
  match r with
  | HttpOk (Some (String c a)) newRefresh =>
      let access := Some (String c a) in
      let kept := if truthy newRefresh then newRefresh else Some (sentRefreshToken p) in
      mkCoordinator false [] rest (refreshCalls s) (logoutCalls s) (logoutsPending s)
                    (setAuthTokens (browser s) access kept (sentRemember p))
                    (settled s ++ processQueue (failedQueue s) None access
                     ++ [(owner p, Resolved access)])%list
  | HttpOk _ _ =>
      mkCoordinator false [] rest (refreshCalls s) (logoutCalls s) (logoutsPending s) (browser s)
                    (settled s
                     ++ processQueue (failedQueue s)
                          (Some (mkError "Error" "Refresh token was invalid.")) None
                     ++ [(owner p, Resolved None)])%list
  | HttpError e =>
      mkCoordinator false [] rest (refreshCalls s) (logoutCalls s) (logoutsPending s)
                    (clearAllTokens (browser s))
                    (settled s ++ processQueue (failedQueue s) (Some e) None
                     ++ [(owner p, Resolved None)])%list
  end.

(** The pending call of [caller], and the others. *)
Fixpoint take_pending (caller : nat) (l : list Pending) : option (Pending * list Pending) :=
  match l with
  | [] => None
  | p :: rest =>
      if Nat.eqb (owner p) caller then Some (p, rest)
      else match take_pending caller rest with
           | Some (q, rest') => Some (q, p :: rest')
           | None => None
           end
  end.

(** [logout()], started by refreshAccessToken when no refresh token is
    stored, after its own [await]: the stored credentials are cleared. *)
Definition logout_done (s : Coordinator) : Coordinator :=
  mkCoordinator (isRefreshing s) (failedQueue s) (inflight s) (refreshCalls s)
                (logoutCalls s) (Nat.pred (logoutsPending s))
                (clearAllTokens (browser s)) (settled s).

(** One event; a response can only arrive for a call that is pending. *)
Definition step (s : Coordinator) (e : Event) : option Coordinator :=
  match e with
  | Invoke caller => Some (invoke s caller)
  | Settle caller r =>
      match take_pending caller (inflight s) with
      | Some (p, rest) => Some (resume s p rest r)
      | None => None
      end
  | LogoutDone =>
      match logoutsPending s with
      | O => None
      | S _ => Some (logout_done s)
      end
  end.

Fixpoint run (s : Coordinator) (es : list Event) : option Coordinator :=
  match es with
  | [] => Some s
  | e :: rest =>
      match step s e with
      | Some s' => run s' rest
      | None => None
      end
  end.

(** The coordinator of a freshly mounted AuthProvider. *)
Definition idle (b : Browser) : Coordinator :=
  mkCoordinator false [] [] 0 0 0 b [].

(** *** Response interceptor *)

Record AxiosConfig := mkConfig {
  url : string;
  _retry : bool;
  Authorization : option string
}.

Definition isExcludedPath (u : string) : bool :=
  includes u "/logout" || includes u "/login" || includes u "/refresh"
  || includes u "/payment/intent".

(** What [await refreshAccessToken()] gives the interceptor. *)
Inductive RefreshOutcome :=
| Returned (token : option string)
| Raised (e : JsError).

Inductive Action :=
| Resend (config : AxiosConfig)
| Fail (config : AxiosConfig).

Record Handling := mkHandling {
  action : Action;
  refreshRequested : bool;
  toastShown : bool
}.

(** The rejection handler of the interceptor, for an error whose response
    status is [st] ([None]: no response) on request [config]; [outcome] is
    only consulted when refreshAccessToken is called. *)
Definition onRejected (st : option Z) (config : AxiosConfig) (outcome : RefreshOutcome)
  : Handling :=
  if bool_decide (st = Some 401) then
    if negb (_retry config) && negb (isExcludedPath (url config)) then
      let marked := mkConfig (url config) true (Authorization config) in
      match outcome with
      | Returned (Some (String c t)) =>
          mkHandling (Resend (mkConfig (url config) true
                                       (Some ("Bearer " +:+ String c t)))) true false
      | Returned _ => mkHandling (Fail marked) true false
      | Raised _ => mkHandling (Fail marked) true true
      end
    else mkHandling (Fail config) false false
  else mkHandling (Fail config) false false.

Record Exchange := mkExchange {
  finalStatus : option Z;
  transmissions : nat;
  refreshes : nat
}.

Definition is_2xx (st : option Z) : bool :=
  match st with
  | Some n => Z.leb 200 n && Z.ltb n 300
  | None => false
  end.

(** [axios(config)] with the interceptor installed: [server k config] is
    the status of the k-th transmission, [refresh k] the outcome of the
    k-th call of refreshAccessToken. *)
Fixpoint axios (fuel : nat) (server : nat -> AxiosConfig -> option Z)
    (refresh : nat -> RefreshOutcome) (sent asked : nat) (config : AxiosConfig)
  : option Exchange :=
  match fuel with
  | O => None
  | S fuel' =>
      let st := server sent config in
      if is_2xx st then Some (mkExchange st (S sent) asked)
      else
        let h := onRejected st config (refresh asked) in
        let asked' := if refreshRequested h then S asked else asked in
        match action h with
        | Resend config' => axios fuel' server refresh (S sent) asked' config'
        | Fail _ => Some (mkExchange st (S sent) asked')
        end
  end.

End Client.

(** ** A Redis server with expiring keys

    ioredis and the server behind it are external.  The blacklist only
    issues [SET key '1' PX ttl] and [EXISTS key], so the server is a map
    from keys to the instant their entry stops existing: a key set at
    [now] with [PX ttl] exists at the instants before [now + ttl]. *)

Module Redis.

(** The client as seen at clock [now] over the server state [store]. *)
Definition client (store : gmap string Z) (now : Z) : RedisClient :=
  mkRedis (fun key => Ok (match store !! key with
                          | Some until => if Z.ltb now until then 1 else 0
                          | None => 0
                          end))
          (fun _ _ _ => Ok tt).

(** A connected client. *)
Definition connected (store : gmap string Z) (now : Z) : RedisState :=
  mkRedisState true (Some (client store now)).

(** The effect of the command a handler issued at [now], if any, given as
    (key, PX ttl). *)
Definition apply (store : gmap string Z) (now : Z) (command : option (string * Z))
  : gmap string Z :=
  match command with
  | Some (key, px) => <[key := now + px]> store
  | None => store
  end.

End Redis.

(** ** Cookies (middleware/auth-enhanced.js) *)

Module Cookie.

Record Options := mkOptions {
  httpOnly : bool;
  secure : bool;
  sameSite : string;
  path : string;
  domain : string;
  maxAge : option Z
}.

Inductive Value :=
| Token (t : Jwt.Wire)
| Text (s : string).

Inductive Op :=
| Set_ (name : string) (value : Value) (o : Options)
| Clear (name : string) (o : Options).

(** COOKIE_CONFIG, from [NODE_ENV] and [COOKIE_DOMAIN]. *)
Definition COOKIE_CONFIG (nodeEnv cookieDomain : option string) : Options :=
  {| httpOnly := true;
     secure := bool_decide (nodeEnv = Some "production");
     sameSite := "strict";
     path := "/";
     domain := or_default cookieDomain "localhost";
     maxAge := None |}.

Definition with_maxAge (o : Options) (age : Z) : Options :=
  mkOptions (httpOnly o) (secure o) (sameSite o) (path o) (domain o) (Some age).

Definition readable (o : Options) : Options :=
  mkOptions false (secure o) (sameSite o) (path o) (domain o) (maxAge o).

(** setAuthCookies. *)
Definition setAuthCookies (config : Options) (tokens : TokenPair) (remember : bool)
  : list Op :=
  let accessTokenMaxAge := if remember then 7 * 24 * 60 * 60 * 1000 else 15 * 60 * 1000 in
  let refreshTokenMaxAge :=
    if remember then 30 * 24 * 60 * 60 * 1000 else 7 * 24 * 60 * 60 * 1000 in
  [ Set_ "accessToken" (Token (accessToken tokens)) (with_maxAge config accessTokenMaxAge);
    Set_ "refreshToken" (Token (refreshToken tokens)) (with_maxAge config refreshTokenMaxAge);
    Set_ "rememberMe" (Text (if remember then "true" else "false"))
         (readable (with_maxAge config refreshTokenMaxAge)) ].

(** clearAuthCookies. *)
Definition clearAuthCookies (config : Options) : list Op :=
  [ Clear "accessToken" config; Clear "refreshToken" config;
    Clear "rememberMe" (readable config) ].

(** The life time, in milliseconds, the operations give the cookie [n]. *)
Definition maxAge_of (n : string) (ops : list Op) : option Z :=
  match List.find (fun op => match op with
                             | Set_ m _ _ => String.eqb m n
                             | Clear _ _ => false
                             end) ops with
  | Some (Set_ _ _ o) => maxAge o
  | _ => None
  end.

End Cookie.

(** ** Client side: authReducer *)

Module Reducer.

Record Tokens := mkTokens {
  accessToken : option string;
  refreshToken : option string
}.

Record State := mkState {
  user : option (gmap string string);
  tokens : option Tokens;
  isAuthenticated : bool;
  rememberMe : bool;
  loading : bool;
  error : option string
}.

Record LoginPayload := mkLoginPayload {
  p_user : option (gmap string string);
  p_tokens : option Tokens;
  p_rememberMe : option bool
}.

Inductive Action :=
| LOGIN_START
| LOGIN_SUCCESS (payload : option LoginPayload)
| LOGIN_FAIL (payload : option string)
| LOGOUT
| CLEAR_ERROR
| UPDATE_USER (payload : gmap string string)
| SET_REMEMBER_ME (payload : bool)
| FORGOT_PASSWORD_START
| FORGOT_PASSWORD_SUCCESS
| FORGOT_PASSWORD_FAIL (payload : option string)
| RESET_PASSWORD_START
| RESET_PASSWORD_SUCCESS
| RESET_PASSWORD_FAIL (payload : option string)
| Other (type : string).

Definition initialState : State := mkState None None false false false None.

Definition authReducer (state : State) (action : Action) : State :=
  match action with
  | LOGIN_START | FORGOT_PASSWORD_START | RESET_PASSWORD_START =>
      mkState (user state) (tokens state) (isAuthenticated state) (rememberMe state)
              true None
  | LOGIN_SUCCESS payload =>
      mkState (match payload with Some p => p_user p | None => None end)
              (match payload with Some p => p_tokens p | None => None end)
              (match payload with
               | Some p => match p_tokens p with Some _ => true | None => false end
               | None => false
               end)
              (match payload with
               | Some p => match p_rememberMe p with Some b => b | None => false end
               | None => false
               end)
              false None
  | LOGIN_FAIL payload =>
      mkState None (tokens state) false (rememberMe state) false payload
  | LOGOUT => mkState None None false false (loading state) None
  | CLEAR_ERROR =>
      mkState (user state) (tokens state) (isAuthenticated state) (rememberMe state)
              (loading state) None
  | UPDATE_USER payload =>
      mkState (Some (payload ∪ match user state with Some u => u | None => ∅ end))
              (tokens state) (isAuthenticated state) (rememberMe state)
              (loading state) (error state)
  | SET_REMEMBER_ME payload =>
      mkState (user state) (tokens state) (isAuthenticated state) payload
              (loading state) (error state)
  | FORGOT_PASSWORD_SUCCESS | RESET_PASSWORD_SUCCESS =>
      mkState (user state) (tokens state) (isAuthenticated state) (rememberMe state)
              false None
  | FORGOT_PASSWORD_FAIL payload | RESET_PASSWORD_FAIL payload =>
      mkState (user state) (tokens state) (isAuthenticated state) (rememberMe state)
              false payload
  | Other _ => state
  end.

Definition dispatch_all (state : State) (actions : list Action) : State :=
  fold_left authReducer actions state.

End Reducer.

Section Core.

(** Primitives of the platform and methods of the User model that the
    code calls: SHA-256 in hex, the text of a token string, and the two
    bcrypt password checks of the model. *)
Variable sha256 : string -> string.
Variable serialize : Jwt.Wire -> string.
Variable correctPassword : string -> option string -> bool.
Variable comparePassword : UserDoc.User -> string -> bool.

(** [crypto.createHash('sha256').update(token).digest('hex')]. *)
Definition hashToken (token : Jwt.Wire) : string := sha256 (serialize token).

(** *** MemoryBlacklist methods, at clock [now] *)

Definition mb_add (now : Z) (tokens : gmap string Z) (token : Jwt.Wire) (ttl : Z)
  : gmap string Z * bool :=
  let expiresAt := now + ttl in
  (<[hashToken token := expiresAt]> tokens, true).

Definition mb_has (now : Z) (tokens : gmap string Z) (token : Jwt.Wire)
  : gmap string Z * bool :=
  match tokens !! hashToken token with
  | None => (tokens, false)
  | Some expiresAt =>
      if Z.eqb expiresAt 0 then (tokens, false)
      else if Z.ltb expiresAt now then (delete (hashToken token) tokens, false)
      else (tokens, true)
  end.

Definition mb_cleanup (now : Z) (tokens : gmap string Z) : gmap string Z :=
  filter (fun kv => negb (Z.ltb (snd kv) now) = true) tokens.

Definition mb_size (tokens : gmap string Z) : nat := size tokens.

(** One timed operation on the singleton instance. *)
Definition mb_step (tokens : gmap string Z) (e : Z * MemoryBlacklist.Op) : gmap string Z :=
  match snd e with
  | MemoryBlacklist.Add token ttl => fst (mb_add (fst e) tokens token ttl)
  | MemoryBlacklist.Has token => fst (mb_has (fst e) tokens token)
  | MemoryBlacklist.Cleanup => mb_cleanup (fst e) tokens
  end.

Definition mb_run (tokens : gmap string Z) (es : list (Z * MemoryBlacklist.Op))
  : gmap string Z :=
  fold_left mb_step es tokens.

(** *** Redis-backed blacklist (middleware/auth.js) *)

Definition blacklist_key (token : Jwt.Wire) : string :=
  "jwt-blacklist:" +:+ hashToken token.

(** addToBlacklist: the SET command it issues, if any, as (key, PX ttl). *)
Definition addToBlacklist (rs : RedisState) (now : Z) (token : Jwt.Wire)
  : option (string * Z) :=
  match redisAvailable rs, redis rs with
  | true, Some client =>
      let tokenHash := hashToken token in
      let decoded := Jwt.decode token in
      match match decoded with
            | Some d => match Jwt.exp d with
                        | Some e => if Z.eqb e 0 then None else Some e
                        | None => None
                        end
            | None => None
            end with
      | None => Some (blacklist_key token, 5 * 60 * 1000)
      | Some e =>
          let nowInSeconds := now / 1000 in
          let remainingTimeMs := (e - nowInSeconds) * 1000 in
          if Z.ltb 0 remainingTimeMs then Some (blacklist_key token, remainingTimeMs)
          else None
      end
  | _, _ => None
  end.

(** isTokenBlacklisted. *)
Definition isTokenBlacklisted (rs : RedisState) (token : Jwt.Wire) : Result bool :=
  match redisAvailable rs, redis rs with
  | true, Some client =>
      match redis_exists client (blacklist_key token) with
      | Ok n => Ok (Z.eqb n 1)
      | Throw _ => Ok false
      end
  | _, _ => Ok false
  end.

(** *** Fingerprint Generator (middleware/auth-enhanced.js) *)

Definition join_bar (l : list string) : string :=
  match l with
  | [] => ""
  | x :: r => fold_left (fun acc y => acc +:+ "|" +:+ y) r x
  end.

Definition generateRequestFingerprint (req : Request) : string :=
  let components :=
    join_bar (omap (fun c => if truthy c then c else None)
                   [ip req; user_agent req; accept_language req]) in
  sha256 components.

(** *** Request Gate (middleware/auth.js, auth) *)

Inductive AuthOutcome :=
| Next (user : UserDoc.User) (token : Jwt.Wire)
| Reply (r : Response).

Definition extract_token (req : Request) : option Jwt.Wire :=
  let token := match authorization req with
               | Some (Bearer t) => Some t
               | _ => None
               end in
  if Jwt.falsy token then
    match cookies req with
    | Some c => if Jwt.falsy (c_accessToken c) then token else c_accessToken c
    | None => token
    end
  else token.

(** The [catch] block of [auth]. *)
Definition auth_catch (e : JsError) : Response :=
  if String.eqb (err_name e) "TokenExpiredError" then
    reply 401 "Token expired" (Some "TOKEN_EXPIRED")
          (Some "Your session has expired. Please log in again.")
  else if String.eqb (err_name e) "JsonWebTokenError" then
    reply 401 "Invalid token" (Some "INVALID_TOKEN")
          (Some "The provided token is invalid or malformed")
  else if String.eqb (err_name e) "NotBeforeError" then
    reply 401 "Token not yet valid" (Some "TOKEN_NOT_ACTIVE")
          (Some "This token is not yet valid for use")
  else if includes (err_message e) "is not defined" then
    reply 500 "Server configuration error" (Some "SERVER_ERROR")
          (Some "Authentication service is temporarily unavailable")
  else
    reply 401 "Authentication failed" (Some "AUTH_FAILED")
          (Some "Unable to authenticate with the provided credentials").

Definition auth (env : Env) (now : Z) (rs : RedisState) (db : list UserDoc.User)
    (req : Request) : AuthOutcome :=
  match extract_token req with
  | Some token =>
      if Jwt.falsy (Some token) then
        Reply (reply 401 "Authentication required" (Some "NO_TOKEN")
                     (Some "Please provide a valid authentication token"))
      else
        let isBlacklisted := match isTokenBlacklisted rs token with
                             | Ok b => b
                             | Throw _ => false
                             end in
        if isBlacklisted then
          Reply (reply 401 "Token has been invalidated" (Some "TOKEN_INVALIDATED")
                       (Some "This token is no longer valid. Please log in again."))
        else
          match verifyToken env now token false with
          | Throw e => Reply (auth_catch e)
          | Ok decoded =>
              if negb (bool_decide (Jwt.type decoded = Some "access")) then
                Reply (reply 401 "Invalid token type" (Some "INVALID_TOKEN_TYPE")
                             (Some "Expected access token but received different token type"))
              else
                match UserDoc.findById db (Jwt.id decoded) with
                | None =>
                    Reply (reply 401 "User not found" (Some "USER_NOT_FOUND")
                                 (Some "The user associated with this token no longer exists"))
                | Some user =>
                    if UserDoc.isSuspended user then
                      Reply (reply 403 "Account suspended" (Some "ACCOUNT_SUSPENDED")
                                   (Some "Your account has been suspended. Please contact support."))
                    else Next (UserDoc.select_safe user) token
                end
          end
  | None =>
      Reply (reply 401 "Authentication required" (Some "NO_TOKEN")
                   (Some "Please provide a valid authentication token"))
  end.

(** *** Session Issuer: routes/auth.js *)

Record LoginBody := mkLoginBody {
  l_email : option string;
  l_password : option string;
  l_remember : option bool
}.

Definition default_false (b : option bool) : bool :=
  match b with Some x => x | None => false end.

(** router.post('/login') of routes/auth.js. *)
Definition login (env : Env) (now : Z) (db : list UserDoc.User) (body : LoginBody)
  : Response * list UserDoc.User :=
  let remember := default_false (l_remember body) in
  match l_email body, l_password body with
  | Some (String c e), Some (String c' p) =>
      match UserDoc.findOneByEmail db (toLowerCase (String c e)) with
      | None => (reply 401 "Invalid credentials" None None, db)
      | Some user =>
          if negb (UserDoc.isVerified user) then
            (reply 401 "Please verify your email first" None None, db)
          else if negb (correctPassword (String c' p) (UserDoc.password user)) then
            (reply 401 "Invalid credentials" None None, db)
          else
            match generateTokens env now (UserDoc._id user) remember with
            | Throw _ => (reply 500 "Login failed" None None, db)
            | Ok issued =>
                let user' := UserDoc.touch_login
                               (UserDoc.set_refreshToken user (Some (refreshToken issued)))
                               now in
                ({| status := 200;
                    json := JSession None (buildSafeUser user') issued
                                     (access_span remember) None;
                    cookie_effect := NoCookies |},
                 UserDoc.save db user')
            end
      end
  | _, _ => (reply 400 "Email and password are required" None None, db)
  end.

Record RefreshBody := mkRefreshBody {
  r_refreshToken : option Jwt.Wire;
  r_remember : option bool
}.

(** router.post('/refresh') of routes/auth.js. *)
Definition refresh (env : Env) (now : Z) (db : list UserDoc.User) (body : RefreshBody)
  : Response * list UserDoc.User :=
  let remember := default_false (r_remember body) in
  match r_refreshToken body with
  | Some presented =>
      if Jwt.falsy (Some presented) then
        (reply 400 "Refresh token required" (Some "REFRESH_TOKEN_REQUIRED") None, db)
      else
        match Jwt.verify presented (JWT_REFRESH_SECRET env)
                {| Jwt.v_issuer := Some (config_issuer env);
                   Jwt.v_audience := Some (config_audience env) |} now with
        | Throw err =>
            if String.eqb (err_name err) "TokenExpiredError" then
              (reply 401 "Refresh token expired" (Some "REFRESH_TOKEN_EXPIRED") None, db)
            else
              (reply 401 "Invalid refresh token" (Some "INVALID_REFRESH_TOKEN") None, db)
        | Ok decoded =>
            if negb (bool_decide (Jwt.type decoded = Some "refresh")) then
              (reply 401 "Invalid token type" (Some "INVALID_TOKEN_TYPE") None, db)
            else
              match UserDoc.findById db (Jwt.id decoded) with
              | None => (reply 401 "User not found" (Some "USER_NOT_FOUND") None, db)
              | Some user =>
                  if Jwt.falsy (UserDoc.refreshToken user)
                     || negb (bool_decide (UserDoc.refreshToken user = Some presented)) then
                    (reply 401 "Refresh token mismatch" (Some "REFRESH_TOKEN_MISMATCH") None,
                     db)
                  else if UserDoc.isSuspended user then
                    (reply 403 "Account suspended" (Some "ACCOUNT_SUSPENDED") None, db)
                  else
                    match generateTokens env now (UserDoc._id user) remember with
                    | Throw _ =>
                        (reply 500 "Token refresh failed" (Some "REFRESH_FAILED") None, db)
                    | Ok issued =>
                        let user' := UserDoc.set_lastActive
                                       (UserDoc.set_refreshToken user
                                          (Some (refreshToken issued))) now in
                        ({| status := 200;
                            json := JRefreshed (accessToken issued) (refreshToken issued)
                                               (access_span remember);
                            cookie_effect := NoCookies |},
                         UserDoc.save db user')
                    end
              end
        end
  | None => (reply 400 "Refresh token required" (Some "REFRESH_TOKEN_REQUIRED") None, db)
  end.

(** *** Session Issuer: helpers of middleware/auth.js *)

(** refreshTokens: the new pair and the collection after [user.save()]. *)
Definition refreshTokens (env : Env) (now : Z) (db : list UserDoc.User)
    (presented : option Jwt.Wire) (remember : bool)
  : Result (TokenPair * list UserDoc.User) :=
  match presented with
  | Some tok =>
      if Jwt.falsy (Some tok) then Throw (mkError "Error" "Refresh token required")
      else
        let! decoded := verifyToken env now tok true in
        if negb (bool_decide (Jwt.type decoded = Some "refresh")) then
          Throw (mkError "Error" "Invalid refresh token")
        else
          match UserDoc.findById db (Jwt.id decoded) with
          | None => Throw (mkError "Error" "User not found")
          | Some user =>
              if negb (bool_decide (UserDoc.refreshToken user = Some tok)) then
                Throw (mkError "Error" "Refresh token mismatch")
              else if UserDoc.isSuspended user then
                Throw (mkError "Error" "Account suspended")
              else
                let! newAccessToken :=
                  generateAccessToken env now (UserDoc._id user) remember in
                let! newRefreshToken :=
                  generateRefreshToken env now (UserDoc._id user) remember in
                let user' := UserDoc.set_lastActive
                               (UserDoc.set_refreshToken user (Some newRefreshToken)) now in
                Ok ({| accessToken := newAccessToken; refreshToken := newRefreshToken |},
                    UserDoc.save db user')
          end
  | None => Throw (mkError "Error" "Refresh token required")
  end.

(** *** Session Issuer: routes/auth-enhanced.js *)

(** router.post('/login') of routes/auth-enhanced.js. *)
Definition login_enhanced (env : Env) (now : Z) (db : list UserDoc.User) (req : Request)
    (body : LoginBody) : Response * list UserDoc.User :=
  let remember := default_false (l_remember body) in
  match l_email body, l_password body with
  | Some (String c e), Some (String c' p) =>
      match UserDoc.findOneByEmail db (toLowerCase (String c e)) with
      | None => (reply 401 "Invalid credentials" (Some "INVALID_CREDENTIALS") None, db)
      | Some user =>
          if negb (comparePassword user (String c' p)) then
            (reply 401 "Invalid credentials" (Some "INVALID_CREDENTIALS") None, db)
          else if UserDoc.isSuspended user then
            (reply 403 "Account suspended" (Some "ACCOUNT_SUSPENDED") None, db)
          else
            let fingerprint := generateRequestFingerprint req in
            match generateSecureTokens env now (UserDoc._id user) remember
                    (Some fingerprint) with
            | Throw _ => (reply 500 "Login failed" (Some "LOGIN_ERROR") None, db)
            | Ok tokens =>
                let user' := UserDoc.touch_login
                               (UserDoc.set_refreshToken user (Some (refreshToken tokens)))
                               now in
                ({| status := 200;
                    json := JUser {| s_id := UserDoc._id user'; s_name := UserDoc.name user';
                                     s_email := UserDoc.email user';
                                     s_role := UserDoc.role user';
                                     s_avatar := UserDoc.avatar user';
                                     s_isVerified := UserDoc.isVerified user';
                                     s_createdAt := None |};
                    cookie_effect := SetAuthCookies tokens remember |},
                 UserDoc.save db user')
            end
      end
  | _, _ => (reply 400 "Email and password required" (Some "MISSING_CREDENTIALS") None, db)
  end.

(** *** OAuth login: one step per database operation

    Each [await] on the user collection is a point where another request
    may run, so a handler is a small machine whose steps are its database
    operations.  [client.verifyIdToken] is Google's; its outcome for the
    presented token is part of the request. *)

(** Whether the missing schema declares [email] unique, and its default
    role. *)
Variable emailUnique : bool.
Variable defaultRole : string.

Record GooglePayload := mkGooglePayload {
  g_email : option string;
  g_email_verified : bool;
  g_name : option string;
  g_sub : string;
  g_picture : option string
}.

Record GoogleReq := mkGoogleReq {
  g_token : option string;
  g_remember : bool;
  g_ticket : Result (option GooglePayload);
  g_randomPassword : string
}.

Definition is_space (c : ascii) : bool :=
  let n := nat_of_ascii c in
  (Nat.eqb n 32 || (Nat.leb 9 n && Nat.leb n 13))%bool.

Fixpoint ltrim (s : string) : string :=
  match s with
  | String c s' => if is_space c then ltrim s' else s
  | EmptyString => EmptyString
  end.

Fixpoint rtrim (s : string) : string :=
  match s with
  | EmptyString => EmptyString
  | String c s' =>
      match rtrim s' with
      | EmptyString => if is_space c then EmptyString else String c EmptyString
      | r => String c r
      end
  end.

Definition trim (s : string) : string := rtrim (ltrim s).

Definition fresh_id (db : list UserDoc.User) : nat :=
  S (list_max (List.map UserDoc._id db)).

(** Inserting a new document; a unique index on [email] rejects a second
    document with the same address. *)
Definition insert (db : list UserDoc.User) (u : UserDoc.User) : Result (list UserDoc.User) :=
  if emailUnique && existsb (fun v => String.eqb (UserDoc.email v) (UserDoc.email u)) db then
    Throw (mkError "MongoServerError" "E11000 duplicate key error")
  else Ok (db ++ [u])%list.

Definition new_google_user (now : Z) (db : list UserDoc.User) (nm em gid : string)
    (picture : option string) (pw : string) : UserDoc.User :=
  {| UserDoc._id := fresh_id db; UserDoc.name := nm; UserDoc.email := em;
     UserDoc.password := Some pw; UserDoc.role := defaultRole;
     UserDoc.avatar := picture; UserDoc.isVerified := true;
     UserDoc.isSuspended := false; UserDoc.refreshToken := None;
     UserDoc.googleId := Some gid; UserDoc.lastLogin := Some now;
     UserDoc.lastActive := None; UserDoc.loginCount := Some 1;
     UserDoc.createdAt := Some now |}.

Definition with_google (u : UserDoc.User) (gid : option string) (av : option string)
  : UserDoc.User :=
  UserDoc.mkUser (UserDoc._id u) (UserDoc.name u) (UserDoc.email u) (UserDoc.password u)
                 (UserDoc.role u) av true (UserDoc.isSuspended u)
                 (UserDoc.refreshToken u) gid (UserDoc.lastLogin u)
                 (UserDoc.lastActive u) (UserDoc.loginCount u) (UserDoc.createdAt u).

(** [User.findByIdAndUpdate(id, { refreshToken, lastActive })]. *)
Definition store_session (now : Z) (db : list UserDoc.User) (i : nat) (r : Jwt.Wire)
  : list UserDoc.User :=
  List.map (fun v => if Nat.eqb (UserDoc._id v) i
                     then UserDoc.set_lastActive (UserDoc.set_refreshToken v (Some r)) now
                     else v) db.

(** router.post('/google') of routes/auth.js. *)
Inductive GoogleRoute :=
| GR_start (req : GoogleReq)
| GR_found (req : GoogleReq) (em nm gid : string) (picture : option string)
           (user : option UserDoc.User)
| GR_saved (req : GoogleReq) (user : UserDoc.User) (isNewUser : bool)
| GR_done (r : Response).

Definition google_route_step (env : Env) (now : Z) (db : list UserDoc.User)
    (t : GoogleRoute) : GoogleRoute * list UserDoc.User :=
  match t with
  | GR_start req =>
      if negb (truthy (g_token req)) then
        (GR_done (reply 400 "Google token is required" None None), db)
      else
        match g_ticket req with
        | Throw _ => (GR_done (reply 401 "Invalid Google token" None None), db)
        | Ok None => (GR_done (reply 400 "Google token missing email" None None), db)
        | Ok (Some payload) =>
            match g_email payload with
            | Some (String c e) =>
                let em := toLowerCase (String c e) in
                (GR_found req em (or_default (g_name payload) "") (g_sub payload)
                          (g_picture payload) (UserDoc.findOneByEmail db em), db)
            | _ => (GR_done (reply 400 "Google token missing email" None None), db)
            end
        end
  | GR_found req em nm gid picture None =>
      let user := new_google_user now db nm em gid picture (g_randomPassword req) in
      match insert db user with
      | Throw _ => (GR_done (reply 500 "Google login failed" None None), db)
      | Ok db' => (GR_saved req user true, db')
      end
  | GR_found req em nm gid picture (Some user) =>
      let user' :=
        UserDoc.touch_login
          (with_google user
             (if truthy (UserDoc.googleId user) then UserDoc.googleId user else Some gid)
             (if truthy picture then picture else UserDoc.avatar user)) now in
      (GR_saved req user' false, UserDoc.save db user')
  | GR_saved req user isNewUser =>
      match generateTokens env now (UserDoc._id user) (g_remember req) with
      | Throw _ => (GR_done (reply 500 "Google login failed" None None), db)
      | Ok issued =>
          (GR_done {| status := 200;
                      json := JSession (Some "Google login successful") (buildSafeUser user)
                                       issued (access_span (g_remember req))
                                       (Some isNewUser);
                      cookie_effect := NoCookies |},
           store_session now db (UserDoc._id user) (refreshToken issued))
      end
  | GR_done r => (GR_done r, db)
  end.

(** [User.findOne({ googleId })]. *)
Definition findOneByGoogleId (db : list UserDoc.User) (gid : string) : option UserDoc.User :=
  List.find (fun u => bool_decide (UserDoc.googleId u = Some gid)) db.

(** googleLogin of middleware/auth.js.  The lookup by email runs before
    the session is started and the lookup by [googleId] is issued without
    the session, so only [User.create] and [user.save] are operations of
    the transaction. *)
Inductive GoogleHelper :=
| GH_start (req : GoogleReq)
| GH_email (req : GoogleReq) (payload : GooglePayload) (em : string)
           (user : option UserDoc.User)
| GH_google (req : GoogleReq) (payload : GooglePayload) (em : string)
            (user : option UserDoc.User)
| GH_saved (req : GoogleReq) (user : UserDoc.User) (createdUser : bool)
| GH_done (r : Result Json).

Definition google_helper_write (now : Z) (db : list UserDoc.User) (req : GoogleReq)
    (payload : GooglePayload) (em : string) (user : option UserDoc.User)
  : GoogleHelper * list UserDoc.User :=
  match user with
  | None =>
      match g_name payload with
      | None => (GH_done (Throw (mkError "TypeError" "Cannot read properties of undefined")),
                 db)
      | Some nm =>
          let created := new_google_user now db (trim nm) em (g_sub payload)
                           (g_picture payload) (g_randomPassword req) in
          match insert db created with
          | Throw e => (GH_done (Throw e), db)
          | Ok db' => (GH_saved req created true, db')
          end
      end
  | Some u =>
      let u' := UserDoc.touch_login
                  (with_google u (Some (g_sub payload)) (g_picture payload)) now in
      (GH_saved req u' false, UserDoc.save db u')
  end.

Definition google_helper_step (env : Env) (now : Z) (db : list UserDoc.User)
    (t : GoogleHelper) : GoogleHelper * list UserDoc.User :=
  match t with
  | GH_start req =>
      if negb (truthy (g_token req)) then
        (GH_done (Throw (mkError "Error" "Google token is required")), db)
      else
        match g_ticket req with
        | Throw _ => (GH_done (Throw (mkError "Error" "Invalid Google token")), db)
        | Ok None =>
            (GH_done (Throw (mkError "TypeError" "Cannot read properties of undefined")), db)
        | Ok (Some payload) =>
            if negb (g_email_verified payload) then
              (GH_done (Throw (mkError "Error" "Google email not verified")), db)
            else
              match g_email payload with
              | None =>
                  (GH_done (Throw (mkError "TypeError" "Cannot read properties of undefined")),
                   db)
              | Some e =>
                  let em := toLowerCase e in
                  (GH_email req payload em (UserDoc.findOneByEmail db em), db)
              end
        end
  | GH_email req payload em None =>
      (GH_google req payload em (findOneByGoogleId db (g_sub payload)), db)
  | GH_email req payload em (Some u) => google_helper_write now db req payload em (Some u)
  | GH_google req payload em user => google_helper_write now db req payload em user
  | GH_saved req user createdUser =>
      match generateAccessToken env now (UserDoc._id user) (g_remember req) with
      | Throw e => (GH_done (Throw e), db)
      | Ok a =>
          match generateRefreshToken env now (UserDoc._id user) (g_remember req) with
          | Throw e => (GH_done (Throw e), db)
          | Ok r =>
              (GH_done (Ok (JSession None (buildSafeUser user)
                                     {| accessToken := a; refreshToken := r |}
                                     (access_span (g_remember req)) (Some createdUser))),
               store_session now db (UserDoc._id user) r)
          end
      end
  | GH_done r => (GH_done r, db)
  end.

(** Two requests in flight; a schedule says whose next database operation
    runs ([false]: the first request, [true]: the second). *)
Fixpoint interleave {T : Type} (step : list UserDoc.User -> T -> T * list UserDoc.User)
    (schedule : list bool) (db : list UserDoc.User) (a b : T)
  : T * T * list UserDoc.User :=
  match schedule with
  | [] => (a, b, db)
  | false :: rest => let '(a', db') := step db a in interleave step rest db' a' b
  | true :: rest => let '(b', db') := step db b in interleave step rest db' a b'
  end.

Definition count_email (db : list UserDoc.User) (em : string) : nat :=
  length (List.filter (fun u => String.eqb (UserDoc.email u) em) db).

(** *** Request Gate: optionalAuth and admin (middleware/auth.js) *)

(** *** The gate over a collection whose lookup may fail

    [auth] with the outcome of [await User.findById(decoded.id)] made
    explicit: the lookup sits inside the [try], so a rejection reaches the
    [catch] block like an error of verifyToken. *)
Definition auth_with_lookup (lookup : option nat -> Result (option UserDoc.User))
    (env : Env) (now : Z) (rs : RedisState) (req : Request) : AuthOutcome :=
  match extract_token req with
  | Some token =>
      if Jwt.falsy (Some token) then
        Reply (reply 401 "Authentication required" (Some "NO_TOKEN")
                     (Some "Please provide a valid authentication token"))
      else
        let isBlacklisted := match isTokenBlacklisted rs token with
                             | Ok b => b
                             | Throw _ => false
                             end in
        if isBlacklisted then
          Reply (reply 401 "Token has been invalidated" (Some "TOKEN_INVALIDATED")
                       (Some "This token is no longer valid. Please log in again."))
        else
          match verifyToken env now token false with
          | Throw e => Reply (auth_catch e)
          | Ok decoded =>
              if negb (bool_decide (Jwt.type decoded = Some "access")) then
                Reply (reply 401 "Invalid token type" (Some "INVALID_TOKEN_TYPE")
                             (Some "Expected access token but received different token type"))
              else
                match lookup (Jwt.id decoded) with
                | Throw e => Reply (auth_catch e)
                | Ok None =>
                    Reply (reply 401 "User not found" (Some "USER_NOT_FOUND")
                                 (Some "The user associated with this token no longer exists"))
                | Ok (Some user) =>
                    if UserDoc.isSuspended user then
                      Reply (reply 403 "Account suspended" (Some "ACCOUNT_SUSPENDED")
                                   (Some "Your account has been suspended. Please contact support."))
                    else Next (UserDoc.select_safe user) token
                end
          end
  | None =>
      Reply (reply 401 "Authentication required" (Some "NO_TOKEN")
                   (Some "Please provide a valid authentication token"))
  end.

(** optionalAuth always continues; the result is what it attaches to the
    request ([req.user], [req.token]), if anything. *)
Definition optionalAuth (env : Env) (now : Z) (rs : RedisState) (db : list UserDoc.User)
    (req : Request) : option (UserDoc.User * Jwt.Wire) :=
  match extract_token req with
  | Some token =>
      if Jwt.falsy (Some token) then None
      else
        match isTokenBlacklisted rs token with
        | Throw _ => None
        | Ok true => None
        | Ok false =>
            match verifyToken env now token false with
            | Throw _ => None
            | Ok decoded =>
                if negb (bool_decide (Jwt.type decoded = Some "access")) then None
                else
                  match UserDoc.findById db (Jwt.id decoded) with
                  | Some user =>
                      if negb (UserDoc.isSuspended user)
                      then Some (UserDoc.select_safe user, token)
                      else None
                  | None => None
                  end
            end
        end
  | None => None
  end.

Inductive AdminOutcome :=
| AdminNext
| AdminReply (r : Response).

(** admin, on the user the gate attached. *)
Definition admin (user : option UserDoc.User) : AdminOutcome :=
  match user with
  | None =>
      AdminReply (reply 401 "Authentication required" (Some "NO_USER")
                        (Some "Please log in to access this resource"))
  | Some u =>
      if negb (String.eqb (UserDoc.role u) "admin") then
        AdminReply (reply 403 "Admin access required" (Some "ADMIN_REQUIRED")
                          (Some "This action requires administrator privileges"))
      else AdminNext
  end.

(** A route mounted as [auth, admin, handler], up to the handler. *)
Definition auth_then_admin (env : Env) (now : Z) (rs : RedisState) (db : list UserDoc.User)
    (req : Request) : AuthOutcome :=
  match auth env now rs db req with
  | Next user token =>
      match admin (Some user) with
      | AdminNext => Next user token
      | AdminReply r => Reply r
      end
  | Reply r => Reply r
  end.

(** *** Logout *)

(** An answer that is a plain message. *)
Inductive Handled :=
| Refused (r : Response)
| Done (st : Z) (message : string).

(** logout of middleware/auth.js: the SET command issued for the access
    token, if any, and the collection afterwards. *)
Definition logout (rs : RedisState) (now : Z) (db : list UserDoc.User)
    (accessToken refreshToken : option Jwt.Wire) (userId : option nat)
  : option (string * Z) * list UserDoc.User :=
  (match accessToken with
   | Some a => if Jwt.falsy (Some a) then None else addToBlacklist rs now a
   | None => None
   end,
   match userId with
   | Some i => UserDoc.unsetRefreshToken db i
   | None => db
   end).

(** router.post('/logout') of routes/auth.js. *)
Definition logout_route (env : Env) (now : Z) (rs : RedisState) (db : list UserDoc.User)
    (req : Request) : Handled * list UserDoc.User :=
  match auth env now rs db req with
  | Reply r => (Refused r, db)
  | Next user _ =>
      (Done 200 "Logged out successfully", UserDoc.unsetRefreshToken db (UserDoc._id user))
  end.

(** *** Password reset (routes/auth.js) *)

Record Mail := mkMail {
  mail_to : string;
  mail_subject : string;
  mail_resetToken : Jwt.Wire
}.

Definition reset_link_sent : Handled :=
  Done 200 "If the email exists, a reset link has been sent".

(** router.post('/forgot-password'): the answer and the mail handed to
    sendEmail, whose own failure is swallowed. *)
Definition forgot_password (env : Env) (now : Z) (db : list UserDoc.User)
    (email : option string) : Handled * option Mail :=
  match email with
  | Some (String c e) =>
      match UserDoc.findOneByEmail db (toLowerCase (String c e)) with
      | None => (reset_link_sent, None)
      | Some user =>
          match Jwt.sign {| Jwt.id := Some (UserDoc._id user); Jwt.type := None;
                            Jwt.fp := None; Jwt.iat := None; Jwt.nbf := None;
                            Jwt.exp := None; Jwt.iss := None; Jwt.aud := None |}
                         (JWT_SECRET env)
                         {| Jwt.issuer := Some (config_issuer env);
                            Jwt.audience := Some (config_audience env);
                            Jwt.expiresIn := Some "1h" |} now with
          | Throw _ =>
              (Refused (reply 500 "Server error while processing request" None None), None)
          | Ok resetToken =>
              (reset_link_sent,
               Some (mkMail (String c e) "MarketSphere - Reset Your Password" resetToken))
          end
      end
  | _ => (Refused (reply 400 "Email is required" None None), None)
  end.

Definition with_password (u : UserDoc.User) (p : string) : UserDoc.User :=
  UserDoc.mkUser (UserDoc._id u) (UserDoc.name u) (UserDoc.email u) (Some p)
                 (UserDoc.role u) (UserDoc.avatar u) (UserDoc.isVerified u)
                 (UserDoc.isSuspended u) (UserDoc.refreshToken u) (UserDoc.googleId u)
                 (UserDoc.lastLogin u) (UserDoc.lastActive u) (UserDoc.loginCount u)
                 (UserDoc.createdAt u).

(** router.post('/reset-password'); [user.password = password] is what the
    handler assigns before [save()]. *)
Definition reset_password (env : Env) (now : Z) (db : list UserDoc.User)
    (token : option Jwt.Wire) (password : option string) : Handled * list UserDoc.User :=
  match token, password with
  | Some tok, Some (String c p) =>
      if Jwt.falsy (Some tok) then
        (Refused (reply 400 "Token and password are required" None None), db)
      else
        match Jwt.verify tok (JWT_SECRET env)
                {| Jwt.v_issuer := Some (config_issuer env);
                   Jwt.v_audience := Some (config_audience env) |} now with
        | Throw err =>
            if String.eqb (err_name err) "TokenExpiredError" then
              (Refused (reply 400 "Reset token has expired" None None), db)
            else (Refused (reply 400 "Invalid reset token" None None), db)
        | Ok decoded =>
            match UserDoc.findById db (Jwt.id decoded) with
            | None => (Refused (reply 400 "Invalid or expired reset token" None None), db)
            | Some user =>
                (Done 200 "Password reset successfully",
                 UserDoc.save db (with_password user (String c p)))
            end
        end
  | _, _ => (Refused (reply 400 "Token and password are required" None None), db)
  end.

(** *** Password rules (middleware/auth.js, validatePasswordStrength) *)

Definition is_upper (c : ascii) : bool :=
  let n := nat_of_ascii c in (Nat.leb 65 n && Nat.leb n 90)%bool.

Definition is_lower (c : ascii) : bool :=
  let n := nat_of_ascii c in (Nat.leb 97 n && Nat.leb n 122)%bool.

Definition is_digit (c : ascii) : bool :=
  let n := nat_of_ascii c in (Nat.leb 48 n && Nat.leb n 57)%bool.

(** The characters of the special-character class of the source, by
    code: the punctuation of a US keyboard except backquote and tilde,
    space excluded. *)
Definition special_codes : list nat :=
  [33; 64; 35; 36; 37; 94; 38; 42; 40; 41; 95; 43; 45; 61; 91; 93; 123; 125; 59; 39; 58;
   34; 92; 124; 44; 46; 60; 62; 47; 63]%nat.

Definition is_special (c : ascii) : bool :=
  existsb (Nat.eqb (nat_of_ascii c)) special_codes.

(** [/(?=.*[class])/.test(s)]: some character of [s] is in the class. *)
Fixpoint has_char (f : ascii -> bool) (s : string) : bool :=
  match s with
  | EmptyString => false
  | String c s' => f c || has_char f s'
  end.

Record Strength := mkStrength { isValid : bool; issues : list string }.

Definition validatePasswordStrength (password : string) : Strength :=
  let issues :=
    ((if Nat.ltb (String.length password) 8
      then ["Password must be at least 8 characters long"] else [])
     ++ (if negb (has_char is_upper password)
         then ["Password must contain at least one uppercase letter"] else [])
     ++ (if negb (has_char is_lower password)
         then ["Password must contain at least one lowercase letter"] else [])
     ++ (if negb (has_char is_digit password)
         then ["Password must contain at least one number"] else [])
     ++ (if negb (has_char is_special password)
         then ["Password must contain at least one special character"] else []))%list in
  {| isValid := Nat.eqb (length issues) 0; issues := issues |}.

(** *** Redis reconnection policy (initializeRedis) *)

(** retryStrategy: the delay before the next attempt ([None]: give up) and
    the availability flag afterwards. *)
Definition retryStrategy (available : bool) (times : Z) : option Z * bool :=
  if Z.ltb 3 times then (None, false)
  else (Some (Z.min (times * 1000) 5000), available).

(** retryDelay. *)
Definition retryDelay (times : Z) : Z := Z.min (times * 50) 2000.

(** *** OAuth login, one request at a time *)

Fixpoint steps {T : Type} (step : list UserDoc.User -> T -> T * list UserDoc.User)
    (n : nat) (db : list UserDoc.User) (t : T) : T * list UserDoc.User :=
  match n with
  | O => (t, db)
  | S n' => let '(t', db') := step db t in steps step n' db' t'
  end.

(** router.post('/google') run to its answer with no other request in
    between. *)
Definition google_route (env : Env) (now : Z) (db : list UserDoc.User) (req : GoogleReq)
  : GoogleRoute * list UserDoc.User :=
  steps (google_route_step env now) 3 db (GR_start req).

(** ** Vocabulary of the properties *)

(** Life times of the two expiry profiles, in seconds. *)
Definition access_ttl (remember : bool) : Z := if remember then 604800 else 900.
Definition refresh_ttl (remember : bool) : Z := if remember then 2592000 else 604800.

(** The payload of a token minted at [now] with issuer and audience
    stamped. *)
Definition stamped (env : Env) (userId : nat) (ty : string) (now ttl : Z) : Jwt.Payload :=
  {| Jwt.id := Some userId; Jwt.type := Some ty; Jwt.fp := None;
     Jwt.iat := Some (now / 1000); Jwt.nbf := None;
     Jwt.exp := Some (now / 1000 + ttl);
     Jwt.iss := Some (config_issuer env); Jwt.aud := Some (config_audience env) |}.

(** The machine-readable code of an error response. *)
Definition code_of (r : Response) : option string :=
  match json r with
  | JError _ c _ => c
  | _ => None
  end.

(** The revocation store cannot answer for [token]: the availability flag
    is down, no client exists, or the EXISTS command fails. *)
Definition store_down (rs : RedisState) (token : Jwt.Wire) : Prop :=
  redisAvailable rs = false \/ redis rs = None \/
  exists client e, redis rs = Some client
                   /\ redis_exists client (blacklist_key token) = Throw e.

(** A reachable store that holds no entry at all. *)
Definition empty_store : RedisState :=
  mkRedisState true (Some (mkRedis (fun _ => Ok 0) (fun _ _ _ => Ok tt))).

(** A deployment with both secrets set and the default issuer and
    audience. *)
Definition sample_env : Env :=
  mkEnv (Some "access-secret") (Some "refresh-secret") None None.

(** The operations [es] run at non-decreasing times from [t0] on, and none
    later than [t]. *)
Fixpoint timed (t0 : Z) (es : list (Z * MemoryBlacklist.Op)) (t : Z) : Prop :=
  match es with
  | [] => t0 <= t
  | e :: rest => t0 <= fst e /\ timed (fst e) rest t
  end.

(** The operation does not add a token stored under key [h] again. *)
Definition keeps (h : string) (e : Z * MemoryBlacklist.Op) : Prop :=
  match snd e with
  | MemoryBlacklist.Add token' _ => hashToken token' <> h
  | _ => True
  end.

(** A reachable store whose commands succeed. *)
Definition live_store : RedisState :=
  mkRedisState true (Some (mkRedis (fun _ => Ok 1) (fun _ _ _ => Ok tt))).

(** The verification options of the refresh endpoint. *)
Definition refresh_options (env : Env) : Jwt.VerifyOptions :=
  {| Jwt.v_issuer := Some (config_issuer env);
     Jwt.v_audience := Some (config_audience env) |}.

Definition mismatch_reply : Response :=
  reply 401 "Refresh token mismatch" (Some "REFRESH_TOKEN_MISMATCH") None.

Definition invalid_credentials : Response := reply 401 "Invalid credentials" None None.

Definition verify_email_first : Response :=
  reply 401 "Please verify your email first" None None.

Definition invalid_credentials_enhanced : Response :=
  reply 401 "Invalid credentials" (Some "INVALID_CREDENTIALS") None.

Definition account_suspended : Response :=
  reply 403 "Account suspended" (Some "ACCOUNT_SUSPENDED") None.

(** The refusals of the refresh endpoint of routes/auth.js. *)
Definition refresh_required_reply : Response :=
  reply 400 "Refresh token required" (Some "REFRESH_TOKEN_REQUIRED") None.

Definition refresh_expired_reply : Response :=
  reply 401 "Refresh token expired" (Some "REFRESH_TOKEN_EXPIRED") None.

Definition invalid_refresh_reply : Response :=
  reply 401 "Invalid refresh token" (Some "INVALID_REFRESH_TOKEN") None.

Definition invalid_type_reply : Response :=
  reply 401 "Invalid token type" (Some "INVALID_TOKEN_TYPE") None.

Definition user_not_found_reply : Response :=
  reply 401 "User not found" (Some "USER_NOT_FOUND") None.

(** Whether the [exp] a token carries has been reached at clock [t] (ms). *)
Definition expired_at (w : Jwt.Wire) (t : Z) : bool :=
  match Jwt.decode w with
  | Some p => match Jwt.exp p with Some e => Z.leb e (t / 1000) | None => false end
  | None => false
  end.

(** The coordinator is Refreshing exactly when one refresh call awaits its
    response, and nobody waits while it is Idle. *)
Definition coherent (s : Client.Coordinator) : Prop :=
  (Client.isRefreshing s = true -> exists p, Client.inflight s = [p]) /\
  (Client.isRefreshing s = false ->
   Client.inflight s = [] /\ Client.failedQueue s = []).

(** What the queued callers get when the refresh call settles with [r]. *)
Definition verdict (r : Client.HttpResult) : Client.Settlement :=
  match r with
  | Client.HttpOk (Some (String c a)) _ => Client.Resolved (Some (String c a))
  | Client.HttpOk _ _ => Client.Rejected (mkError "Error" "Refresh token was invalid.")
  | Client.HttpError e => Client.Rejected e
  end.

(** What the caller that issued the refresh call gets. *)
Definition owner_result (r : Client.HttpResult) : Client.Settlement :=
  match r with
  | Client.HttpOk (Some (String c a)) _ => Client.Resolved (Some (String c a))
  | _ => Client.Resolved None
  end.

(** A request to one of the payment endpoints of routes/payment.js, as
    pages/checkout/Payment.jsx sends it. *)
Definition payment_verify : Client.AxiosConfig :=
  Client.mkConfig "/api/payment/verify" false (Some "Bearer old").

(** Two sign-ins with the same Google account, whose address no user has
    yet. *)
Definition newcomer : GooglePayload :=
  mkGooglePayload (Some "New@x.com") true (Some "New User") "google-sub-1" None.

Definition first_login : GoogleReq :=
  mkGoogleReq (Some "id-token") false (Ok (Some newcomer)) "random-1".

Definition second_login : GoogleReq :=
  mkGoogleReq (Some "id-token") false (Ok (Some newcomer)) "random-2".

(** Both requests look the user up before either writes. *)
Definition both_look_first : list bool := [false; true; false; true; false; true].

(** The first request completes before the second starts. *)
Definition one_after_the_other : list bool := [false; false; false; true; true; true].

(** For googleLogin, which has one more lookup. *)
Definition both_look_first_helper : list bool :=
  [false; true; false; true; false; true; false; true].

(** ** Sample data *)

Definition alice : UserDoc.User :=
  {| UserDoc._id := 7%nat; UserDoc.name := "Alice"; UserDoc.email := "a@x.com";
     UserDoc.password := Some "correct"; UserDoc.role := "user"; UserDoc.avatar := None;
     UserDoc.isVerified := true; UserDoc.isSuspended := false;
     UserDoc.refreshToken :=
       Some (Jwt.Jws (stamped sample_env 7 "refresh" 1000 (refresh_ttl false))
                     "refresh-secret");
     UserDoc.googleId := None; UserDoc.lastLogin := Some 1000;
     UserDoc.lastActive := None; UserDoc.loginCount := Some 1;
     UserDoc.createdAt := Some 0 |}.

(** An account that has not confirmed its address yet. *)
Definition bob : UserDoc.User :=
  {| UserDoc._id := 8%nat; UserDoc.name := "Bob"; UserDoc.email := "b@x.com";
     UserDoc.password := Some "secret"; UserDoc.role := "user"; UserDoc.avatar := None;
     UserDoc.isVerified := false; UserDoc.isSuspended := false;
     UserDoc.refreshToken := None;
     UserDoc.googleId := None; UserDoc.lastLogin := None;
     UserDoc.lastActive := None; UserDoc.loginCount := None;
     UserDoc.createdAt := Some 0 |}.

(** A verified account that has been suspended. *)
Definition carol : UserDoc.User :=
  {| UserDoc._id := 9%nat; UserDoc.name := "Carol"; UserDoc.email := "c@x.com";
     UserDoc.password := Some "hunter2"; UserDoc.role := "user"; UserDoc.avatar := None;
     UserDoc.isVerified := true; UserDoc.isSuspended := true;
     UserDoc.refreshToken := None;
     UserDoc.googleId := None; UserDoc.lastLogin := None;
     UserDoc.lastActive := None; UserDoc.loginCount := None;
     UserDoc.createdAt := Some 0 |}.

Definition users : list UserDoc.User := [alice; bob; carol].

(** The refresh token [alice] holds, minted at second 1. *)
Definition alice_refresh : Jwt.Wire :=
  Jwt.Jws (stamped sample_env 7 "refresh" 1000 (refresh_ttl false)) "refresh-secret".

(** A token whose [exp] is second 10. *)
Definition expiring_at_10 : Jwt.Wire :=
  Jwt.Jws (stamped sample_env 7 "access" 1000 9) "access-secret".

(** A browser holding a session-scoped token pair. *)
Definition signed_in : Client.Browser :=
  Client.mkBrowser (Client.mkWebStorage None None None)
                   (Client.mkWebStorage (Some "old-access") (Some "old-refresh") None)
                   (Some "Bearer old-access").

(** Plain stand-ins for the platform primitives, used to run the model. *)
Definition plain_sha256 (s : string) : string := s.

Definition plain_serialize (w : Jwt.Wire) : string :=
  match w with
  | Jwt.Malformed text => text
  | Jwt.Jws p k =>
      k +:+ match Jwt.type p with Some ty => "." +:+ ty | None => "" end
  end.

Definition plain_correctPassword (candidate : string) (stored : option string) : bool :=
  bool_decide (stored = Some candidate).

Definition plain_comparePassword (u : UserDoc.User) (candidate : string) : bool :=
  bool_decide (UserDoc.password u = Some candidate).

(** [alice] refreshes at 2.5 s with the token she holds. *)
Definition rotated : Response * list UserDoc.User :=
  refresh sample_env 2500 users (mkRefreshBody (Some alice_refresh) None).

(** One caller has issued the refresh call and two more are queued. *)
Definition three_callers : list Client.Event :=
  [Client.Invoke 1; Client.Invoke 2; Client.Invoke 3].

Definition two_waiting : Client.Coordinator :=
  Eval vm_compute in
    match Client.run (Client.idle signed_in) three_callers with
    | Some s => s
    | None => Client.idle signed_in
    end.

(** A request that presents [alice]'s access token in its header. *)
Definition alice_request : Request :=
  mkRequest (Some "10.0.0.1") (Some "Mozilla/5.0") (Some "en")
            (Some (Bearer (Jwt.Jws (stamped sample_env 7 "access" 1000 (access_ttl false))
                                   "access-secret")))
            None.

(** A store whose connection is down. *)
Definition unreachable_store : RedisState := mkRedisState false None.

(** A token bound to the client context of [bound_request], stamped so
    that the gate accepts it, and the same token presented from another
    address. *)
Definition bound_token : Jwt.Wire :=
  Jwt.Jws {| Jwt.id := Some 7%nat; Jwt.type := Some "access";
             Jwt.fp := Some "10.0.0.1|Mozilla/5.0|en";
             Jwt.iat := Some 1; Jwt.nbf := None; Jwt.exp := Some 901;
             Jwt.iss := Some "marketsphere-api"; Jwt.aud := Some "marketsphere-app" |}
          "access-secret".

Definition bound_request : Request :=
  mkRequest (Some "10.0.0.1") (Some "Mozilla/5.0") (Some "en") (Some (Bearer bound_token))
            None.

(** The codes the gate answers with when the access secret is configured. *)
Definition gate_codes : list string :=
  ["NO_TOKEN"; "TOKEN_INVALIDATED"; "TOKEN_EXPIRED"; "INVALID_TOKEN"; "TOKEN_NOT_ACTIVE";
   "INVALID_TOKEN_TYPE"; "USER_NOT_FOUND"; "ACCOUNT_SUSPENDED"].


(** A collection that answers every lookup. *)
Definition answering (db : list UserDoc.User) (i : option nat)
  : Result (option UserDoc.User) :=
  Ok (UserDoc.findById db i).

(** A request that carries [token] in its Authorization header. *)
Definition bearing (token : Jwt.Wire) (c : option Cookies) : Request :=
  mkRequest None None None (Some (Bearer token)) c.

(** A header the gate takes no token from. *)
Definition no_bearer (h : option AuthHeader) : Prop :=
  match h with
  | Some (Bearer t) => Jwt.falsy (Some t) = true
  | _ => True
  end.

Definition suspended_reply : Response :=
  reply 403 "Account suspended" (Some "ACCOUNT_SUSPENDED")
        (Some "Your account has been suspended. Please contact support.").

Definition expired_reply : Response :=
  reply 401 "Token expired" (Some "TOKEN_EXPIRED")
        (Some "Your session has expired. Please log in again.").

Definition invalid_token_reply : Response :=
  reply 401 "Invalid token" (Some "INVALID_TOKEN")
        (Some "The provided token is invalid or malformed").

Definition invalidated_reply : Response :=
  reply 401 "Token has been invalidated" (Some "TOKEN_INVALIDATED")
        (Some "This token is no longer valid. Please log in again.").

(** The life time a token carries: [exp - iat], in seconds. *)
Definition lifetime (w : Jwt.Wire) : option Z :=
  match Jwt.decode w with
  | Some p =>
      match Jwt.exp p, Jwt.iat p with
      | Some e, Some i => Some (e - i)
      | _, _ => None
      end
  | None => None
  end.

(** The payload generateSecureTokens signs. *)
Definition unstamped (userId : nat) (ty : string) (fingerprint : option string)
    (now ttl : Z) : Jwt.Payload :=
  {| Jwt.id := Some userId; Jwt.type := Some ty; Jwt.fp := fingerprint;
     Jwt.iat := Some (now / 1000); Jwt.nbf := None;
     Jwt.exp := Some (now / 1000 + ttl);
     Jwt.iss := None; Jwt.aud := None |}.

(** The payload of the token forgot-password mails. *)
Definition reset_claims (env : Env) (userId : nat) (now : Z) : Jwt.Payload :=
  {| Jwt.id := Some userId; Jwt.type := None; Jwt.fp := None;
     Jwt.iat := Some (now / 1000); Jwt.nbf := None;
     Jwt.exp := Some (now / 1000 + 3600);
     Jwt.iss := Some (config_issuer env); Jwt.aud := Some (config_audience env) |}.

Definition password_reset_done : Handled := Done 200 "Password reset successfully".

(** The request with Google's [email_verified] flag replaced. *)
Definition with_email_verified (req : GoogleReq) (flag : bool) : GoogleReq :=
  mkGoogleReq (g_token req) (g_remember req)
    (match g_ticket req with
     | Ok (Some p) =>
         Ok (Some (mkGooglePayload (g_email p) flag (g_name p) (g_sub p) (g_picture p)))
     | other => other
     end)
    (g_randomPassword req).

(** How often [c] occurs among the callers [l]. *)
Definition times (c : nat) (l : list nat) : nat := length (List.filter (Nat.eqb c) l).

(** The callers that invoked refreshAccessToken during [es], in order. *)
Fixpoint invoked (es : list Client.Event) : list nat :=
  match es with
  | [] => []
  | Client.Invoke c :: rest => c :: invoked rest
  | _ :: rest => invoked rest
  end.

(** The callers that hold a promise not yet settled, or already have their
    answer. *)
Definition accounted (s : Client.Coordinator) : list nat :=
  (List.map fst (Client.settled s) ++ Client.failedQueue s
   ++ List.map Client.owner (Client.inflight s))%list.

(** The invariant of the reducer. *)
Definition honest (s : Reducer.State) : Prop :=
  Reducer.isAuthenticated s = true -> Reducer.tokens s <> None.

(** * Properties *)

(** ** Token Codec *)

Lemma or_default_nonempty (a : option string) (c : ascii) (d : string) :
  exists c' s', or_default a (String c d) = String c' s'.
Proof. destruct a as [[|c0 s0]|]; simpl; eauto. Qed.

Lemma config_issuer_nonempty (env : Env) : exists c s, config_issuer env = String c s.
Proof. apply or_default_nonempty. Qed.

Lemma config_audience_nonempty (env : Env) : exists c s, config_audience env = String c s.
Proof. apply or_default_nonempty. Qed.

Lemma truthy_Some (o : option string) :
  truthy o = true -> exists c s, o = Some (String c s).
Proof. destruct o as [[|c s]|]; simpl; intros H; try discriminate; eauto. Qed.

Lemma access_span_ttl (remember : bool) :
  Jwt.timespan (access_span remember) = Some (access_ttl remember).
Proof. destruct remember; reflexivity. Qed.

Lemma refresh_span_ttl (remember : bool) :
  Jwt.timespan (refresh_span remember) = Some (refresh_ttl remember).
Proof. destruct remember; reflexivity. Qed.

Lemma generateAccessToken_ok (env : Env) (now : Z) (userId : nat) (remember : bool)
    (c : ascii) (s : string) :
  JWT_SECRET env = Some (String c s) ->
  generateAccessToken env now userId remember
  = Ok (Jwt.Jws (stamped env userId "access" now (access_ttl remember)) (String c s)).
Proof.
  intros Hs. unfold generateAccessToken, Jwt.sign. rewrite Hs. simpl.
  rewrite access_span_ttl. unfold stamped.
  destruct (Z.eqb (now / 1000) 0); reflexivity.
Qed.

Lemma generateRefreshToken_ok (env : Env) (now : Z) (userId : nat) (remember : bool)
    (c : ascii) (s : string) :
  JWT_REFRESH_SECRET env = Some (String c s) ->
  generateRefreshToken env now userId remember
  = Ok (Jwt.Jws (stamped env userId "refresh" now (refresh_ttl remember)) (String c s)).
Proof.
  intros Hs. unfold generateRefreshToken, Jwt.sign. rewrite Hs. simpl.
  rewrite refresh_span_ttl. unfold stamped.
  destruct (Z.eqb (now / 1000) 0); reflexivity.
Qed.

Lemma generateTokens_ok (env : Env) (now : Z) (userId : nat) (remember : bool)
    (c c' : ascii) (s s' : string) :
  JWT_SECRET env = Some (String c s) ->
  JWT_REFRESH_SECRET env = Some (String c' s') ->
  generateTokens env now userId remember
  = Ok {| accessToken := Jwt.Jws (stamped env userId "access" now (access_ttl remember))
                                 (String c s);
          refreshToken := Jwt.Jws (stamped env userId "refresh" now (refresh_ttl remember))
                                  (String c' s') |}.
Proof.
  intros Ha Hr. unfold generateTokens, Jwt.sign. rewrite Ha, Hr. simpl.
  rewrite access_span_ttl, refresh_span_ttl. unfold stamped.
  destruct (Z.eqb (now / 1000) 0); reflexivity.
Qed.

(** A stamped payload passes [jwt.verify] under its own key until its
    expiry second. *)
Lemma verify_stamped (env : Env) (userId : nat) (ty : string) (now ttl t : Z)
    (c : ascii) (s : string) :
  t / 1000 < now / 1000 + ttl ->
  Jwt.verify (Jwt.Jws (stamped env userId ty now ttl) (String c s)) (Some (String c s))
             {| Jwt.v_issuer := Some (config_issuer env);
                Jwt.v_audience := Some (config_audience env) |} t
  = Ok (stamped env userId ty now ttl).
Proof.
  intros Ht. unfold Jwt.verify.
  rewrite String.eqb_refl. cbn [negb].
  destruct (config_issuer_nonempty env) as (ci & si & Hi).
  destruct (config_audience_nonempty env) as (ca & sa & Ha).
  cbn [Jwt.nbf Jwt.exp Jwt.aud Jwt.iss Jwt.v_audience Jwt.v_issuer stamped].
  rewrite Hi, Ha.
  rewrite !String.eqb_refl. cbn [negb].
  destruct (Z.leb (now / 1000 + ttl) (t / 1000)) eqn:E.
  - apply Z.leb_le in E. lia.
  - reflexivity.
Qed.

(** A token signed under one key never passes [jwt.verify] under another. *)
Lemma verify_wrong_key (p : Jwt.Payload) (k : string) (secret : option string)
    (o : Jwt.VerifyOptions) (t : Z) :
  secret <> Some k ->
  exists e, Jwt.verify (Jwt.Jws p k) secret o t = Throw e.
Proof.
  intros Hne. unfold Jwt.verify.
  destruct secret as [[|c s]|]; eauto.
  destruct (String.eqb k (String c s)) eqn:E.
  - apply String.eqb_eq in E. subst. congruence.
  - simpl. eauto.
Qed.

Lemma verifyToken_Malformed (env : Env) (t : Z) (text : string) (isRefresh : bool)
    (d : Jwt.Payload) :
  verifyToken env t (Jwt.Malformed text) isRefresh = Ok d -> False.
Proof.
  unfold verifyToken.
  destruct (negb (truthy (if isRefresh then JWT_REFRESH_SECRET env else JWT_SECRET env)));
    simpl; discriminate.
Qed.

(** The gate never lets a verified token of another type through. *)
Lemma auth_rejects_other_type (env : Env) (t : Z) (rs : RedisState)
    (db : list UserDoc.User) (req : Request) (tok : Jwt.Wire) (decoded : Jwt.Payload) :
  extract_token req = Some tok ->
  verifyToken env t tok false = Ok decoded ->
  Jwt.type decoded <> Some "access" ->
  exists r, auth env t rs db req = Reply r /\ status r = 401.
Proof.
  intros Hx Hv Hty. unfold auth. rewrite Hx.
  destruct tok as [text|p k].
  - exfalso. eapply verifyToken_Malformed; eauto.
  - cbn [Jwt.falsy].
    destruct (match isTokenBlacklisted rs (Jwt.Jws p k) with Ok b => b | Throw _ => false end).
    + eexists; split; [reflexivity|reflexivity].
    + rewrite Hv. rewrite bool_decide_eq_false_2 by exact Hty. cbn [negb].
      eexists; split; reflexivity.
Qed.

(** The refresh endpoint never accepts a verified token of another type. *)
Lemma refresh_rejects_other_type (env : Env) (t : Z) (db : list UserDoc.User)
    (tok : Jwt.Wire) (decoded : Jwt.Payload) (remember : option bool) :
  Jwt.verify tok (JWT_REFRESH_SECRET env)
             {| Jwt.v_issuer := Some (config_issuer env);
                Jwt.v_audience := Some (config_audience env) |} t = Ok decoded ->
  Jwt.type decoded <> Some "refresh" ->
  refresh env t db (mkRefreshBody (Some tok) remember)
  = (reply 401 "Invalid token type" (Some "INVALID_TOKEN_TYPE") None, db).
Proof.
  intros Hv Hty. unfold refresh. cbn [r_refreshToken r_remember].
  destruct tok as [text|p k]; [discriminate Hv|].
  cbn [Jwt.falsy]. rewrite Hv.
  rewrite bool_decide_eq_false_2 by exact Hty. reflexivity.
Qed.

(** C3. For every subject id and expiry profile, the token minted as type
    'access' (by generateAccessToken, and identically by generateTokens)
    verifies under the access secret, until its expiry, to the same subject
    id and type 'access'; under the refresh secret, distinct from the
    access secret, its verification fails at every time; and a verified
    token whose embedded type is not the one the endpoint expects is
    rejected by the gate (401) and by the refresh endpoint
    (INVALID_TOKEN_TYPE). *)
Theorem codec_access_roundtrip (env : Env) (now t : Z) (userId : nat) (remember : bool) :
  env_ready env = true ->
  JWT_SECRET env <> JWT_REFRESH_SECRET env ->
  t / 1000 < now / 1000 + access_ttl remember ->
  exists token,
    generateAccessToken env now userId remember = Ok token /\
    (exists issued, generateTokens env now userId remember = Ok issued
                    /\ accessToken issued = token) /\
    (exists decoded, verifyToken env t token false = Ok decoded
                     /\ Jwt.id decoded = Some userId
                     /\ Jwt.type decoded = Some "access") /\
    (forall t', exists e, verifyToken env t' token true = Throw e) /\
    (forall rs db req tok decoded,
        extract_token req = Some tok ->
        verifyToken env t tok false = Ok decoded ->
        Jwt.type decoded <> Some "access" ->
        exists r, auth env t rs db req = Reply r /\ status r = 401) /\
    (forall db tok decoded remember',
        Jwt.verify tok (JWT_REFRESH_SECRET env)
                   {| Jwt.v_issuer := Some (config_issuer env);
                      Jwt.v_audience := Some (config_audience env) |} t = Ok decoded ->
        Jwt.type decoded <> Some "refresh" ->
        refresh env t db (mkRefreshBody (Some tok) remember')
        = (reply 401 "Invalid token type" (Some "INVALID_TOKEN_TYPE") None, db)).
Proof.
  intros Hready Hne Ht.
  unfold env_ready in Hready. apply andb_true_iff in Hready as [Ha Hr].
  destruct (truthy_Some _ Ha) as (c & s & Hs).
  destruct (truthy_Some _ Hr) as (c' & s' & Hs').
  exists (Jwt.Jws (stamped env userId "access" now (access_ttl remember)) (String c s)).
  split; [apply generateAccessToken_ok; exact Hs|].
  split.
  { eexists. split; [apply (generateTokens_ok env now userId remember c c' s s' Hs Hs')|].
    reflexivity. }
  split.
  { exists (stamped env userId "access" now (access_ttl remember)).
    split; [|split; reflexivity].
    unfold verifyToken. rewrite Hs. cbn [truthy negb].
    apply verify_stamped. exact Ht. }
  split.
  { intros t'. unfold verifyToken. rewrite Hs'. cbn [truthy negb].
    apply verify_wrong_key. intros Heq. apply Hne. rewrite Hs, Hs'. 
    inversion Heq. reflexivity. }
  split.
  { intros rs db req tok decoded. apply auth_rejects_other_type. }
  { intros db tok decoded remember'. apply refresh_rejects_other_type. }
Qed.

(** ** Revocation check *)

Lemma isTokenBlacklisted_total (rs : RedisState) (token : Jwt.Wire) :
  exists b, isTokenBlacklisted rs token = Ok b.
Proof.
  unfold isTokenBlacklisted.
  destruct (redisAvailable rs); [|eauto].
  destruct (redis rs) as [client|]; [|eauto].
  destruct (redis_exists client (blacklist_key token)); eauto.
Qed.

Lemma isTokenBlacklisted_down (rs : RedisState) (token : Jwt.Wire) :
  store_down rs token -> isTokenBlacklisted rs token = Ok false.
Proof.
  unfold store_down, isTokenBlacklisted.
  intros [H|[H|(client & e & H & He)]].
  - rewrite H. reflexivity.
  - rewrite H. destruct (redisAvailable rs); reflexivity.
  - rewrite H, He. destruct (redisAvailable rs); reflexivity.
Qed.

(** C6. When the revocation store is unavailable or the lookup errors,
    isTokenBlacklisted returns false instead of failing (it never fails at
    all), and the gate proceeds: its outcome for the request is the one it
    gives with a working store that holds no entry, so it is never the
    TOKEN_INVALIDATED rejection. *)
Theorem revocation_check_fails_open (env : Env) (now : Z) (rs : RedisState)
    (db : list UserDoc.User) (req : Request) (token : Jwt.Wire) :
  store_down rs token ->
  isTokenBlacklisted rs token = Ok false /\
  (forall rs' token', exists b, isTokenBlacklisted rs' token' = Ok b) /\
  (extract_token req = Some token ->
   auth env now rs db req = auth env now empty_store db req /\
   forall r, auth env now rs db req = Reply r -> code_of r <> Some "TOKEN_INVALIDATED").
Proof.
  intros Hdown.
  pose proof (isTokenBlacklisted_down rs token Hdown) as Hb.
  split; [exact Hb|].
  split; [intros; apply isTokenBlacklisted_total|].
  intros Hx.
  assert (Heq : auth env now rs db req = auth env now empty_store db req).
  { unfold auth. rewrite Hx, Hb. reflexivity. }
  split; [exact Heq|].
  intros r. unfold auth. rewrite Hx, Hb.
  destruct (Jwt.falsy (Some token)).
  { intros H; inversion H; subst; simpl; discriminate. }
  destruct (verifyToken env now token false) as [decoded|e].
  - destruct (negb (bool_decide (Jwt.type decoded = Some "access"))).
    { intros H; inversion H; subst; simpl; discriminate. }
    destruct (UserDoc.findById db (Jwt.id decoded)) as [user|].
    + destruct (UserDoc.isSuspended user); intros H; inversion H; subst; simpl; discriminate.
    + intros H; inversion H; subst; simpl; discriminate.
  - unfold auth_catch.
    repeat match goal with
           | |- context [if ?b then _ else _] => destruct b
           end; intros H; inversion H; subst; simpl; discriminate.
Qed.

(** ** Fingerprint binding *)

(** C10. The gate verifies with verifyToken and reads only the
    Authorization header and the accessToken cookie: replacing the client
    address, user-agent and accept-language of a request by any others
    leaves its outcome unchanged.  This holds in particular for a token that
    embeds the fingerprint of the first request, although
    verifyTokenWithFingerprint, which the gate does not call, accepts that
    token with the first request's fingerprint and refuses it with the
    second's whenever the two fingerprints differ. *)
Theorem gate_ignores_client_context (env : Env) (now : Z) (rs : RedisState)
    (db : list UserDoc.User) (req : Request)
    (ip' user_agent' accept_language' : option string) :
  let req' :=
    mkRequest ip' user_agent' accept_language' (authorization req) (cookies req) in
  auth env now rs db req = auth env now rs db req' /\
  (forall token decoded,
      extract_token req = Some token ->
      Jwt.verify token (JWT_SECRET env)
                 {| Jwt.v_issuer := None; Jwt.v_audience := None |} now = Ok decoded ->
      Jwt.fp decoded = Some (generateRequestFingerprint req) ->
      generateRequestFingerprint req' <> generateRequestFingerprint req ->
      extract_token req' = Some token /\
      auth env now rs db req' = auth env now rs db req /\
      verifyTokenWithFingerprint env now token (Some (generateRequestFingerprint req)) false
      = Ok decoded /\
      verifyTokenWithFingerprint env now token (Some (generateRequestFingerprint req')) false
      = Throw (mkError "Error" "Token fingerprint mismatch")).
Proof.
  intros req'. split; [reflexivity|].
  intros token decoded Hx Hv Hfp Hdiff.
  split; [exact Hx|]. split; [reflexivity|].
  unfold verifyTokenWithFingerprint. rewrite Hv. cbn [bind]. rewrite Hfp. split.
  - rewrite bool_decide_eq_true_2 by reflexivity. reflexivity.
  - rewrite bool_decide_eq_false_2; [reflexivity|].
    intros Heq. apply Hdiff. inversion Heq. reflexivity.
Qed.

(** verifyTokenWithFingerprint, which the gate does not call, is where the
    binding is enforced. *)
Lemma verifyTokenWithFingerprint_binds (env : Env) (now : Z) (token : Jwt.Wire)
    (decoded : Jwt.Payload) (fingerprint : option string) (isRefresh : bool) :
  Jwt.verify token (if isRefresh then JWT_REFRESH_SECRET env else JWT_SECRET env)
             {| Jwt.v_issuer := None; Jwt.v_audience := None |} now = Ok decoded ->
  Jwt.fp decoded <> fingerprint ->
  verifyTokenWithFingerprint env now token fingerprint isRefresh
  = Throw (mkError "Error" "Token fingerprint mismatch").
Proof.
  intros Hv Hfp. unfold verifyTokenWithFingerprint. rewrite Hv. simpl.
  rewrite bool_decide_eq_false_2 by exact Hfp. reflexivity.
Qed.

(** ** Issuer and audience *)

(** C4, at the failing input. generateSecureTokens mints without issuer and
    audience: its access token carries neither claim and is refused by
    verifyToken ("jwt audience invalid"), while verifyTokenWithFingerprint
    accepts a token stamped for another deployment. *)
Theorem secure_mint_unstamped :
  exists issued p k,
    generateSecureTokens sample_env 1000 7 false (Some "fp") = Ok issued /\
    accessToken issued = Jwt.Jws p k /\
    Jwt.iss p = None /\ Jwt.aud p = None /\
    verifyToken sample_env 1000 (accessToken issued) false
    = Throw (Jwt.JsonWebTokenError "jwt audience invalid") /\
    verifyTokenWithFingerprint sample_env 1000
      (Jwt.Jws {| Jwt.id := Some 7%nat; Jwt.type := Some "access"; Jwt.fp := Some "fp";
                  Jwt.iat := Some 1; Jwt.nbf := None; Jwt.exp := Some 901;
                  Jwt.iss := Some "other-api"; Jwt.aud := Some "other-app" |}
               "access-secret")
      (Some "fp") false
    = Ok {| Jwt.id := Some 7%nat; Jwt.type := Some "access"; Jwt.fp := Some "fp";
            Jwt.iat := Some 1; Jwt.nbf := None; Jwt.exp := Some 901;
            Jwt.iss := Some "other-api"; Jwt.aud := Some "other-app" |}.
Proof.
  eexists. eexists. eexists.
  split; [reflexivity|].
  split; [reflexivity|].
  repeat split; reflexivity.
Qed.

(** ** Revocation entries and their expiry *)

Lemma timed_le (es : list (Z * MemoryBlacklist.Op)) (t0 t : Z) :
  timed t0 es t -> t0 <= t.
Proof.
  revert t0. induction es as [|e rest IH]; intros t0; simpl.
  - tauto.
  - intros [H1 H2]. apply IH in H2. lia.
Qed.

(** The entry written by [add] survives every later operation until a
    lookup or a sweep finds it expired. *)
Lemma mb_run_entry (h : string) (e t : Z) (es : list (Z * MemoryBlacklist.Op)) :
  forall (m : gmap string Z) (tc : Z),
    (m !! h = Some e \/ (m !! h = None /\ e < tc)) ->
    timed tc es t ->
    Forall (keeps h) es ->
    mb_run m es !! h = Some e \/ (mb_run m es !! h = None /\ e < t).
Proof.
  induction es as [|[te op] rest IH]; intros m tc Hm Ht Hk.
  - simpl in *. destruct Hm as [Hm|[Hm Hlt]]; [left; exact Hm|right; split; [exact Hm|lia]].
  - simpl in Ht. destruct Ht as [Hle Ht].
    inversion Hk as [|? ? Hk1 Hk2]; subst.
    unfold mb_run. simpl. fold (mb_run (mb_step m (te, op)) rest).
    apply (IH _ te); [|exact Ht|exact Hk2].
    unfold mb_step. simpl.
    destruct op as [token' ttl'|token'|].
    + unfold keeps in Hk1. simpl in Hk1.
      rewrite lookup_insert_ne by exact Hk1.
      destruct Hm as [Hm|[Hm Hlt]]; [left; exact Hm|right; split; [exact Hm|lia]].
    + unfold mb_has.
      destruct (m !! hashToken token') as [x|] eqn:Hx; simpl.
      * destruct (Z.eqb x 0); simpl.
        { destruct Hm as [Hm|[Hm Hlt]]; [left; exact Hm|right; split; [exact Hm|lia]]. }
        destruct (Z.ltb x te) eqn:Hxt; simpl.
        { destruct (decide (hashToken token' = h)) as [Heq|Hneq].
          - subst h. rewrite lookup_delete_eq.
            destruct Hm as [Hm|[Hm Hlt]].
            + rewrite Hx in Hm. inversion Hm; subst x.
              apply Z.ltb_lt in Hxt. right. split; [reflexivity|lia].
            + right. split; [reflexivity|lia].
          - rewrite lookup_delete_ne by exact Hneq.
            destruct Hm as [Hm|[Hm Hlt]]; [left; exact Hm|right; split; [exact Hm|lia]]. }
        { destruct Hm as [Hm|[Hm Hlt]]; [left; exact Hm|right; split; [exact Hm|lia]]. }
      * destruct Hm as [Hm|[Hm Hlt]]; [left; exact Hm|right; split; [exact Hm|lia]].
    + unfold mb_cleanup.
      destruct Hm as [Hm|[Hm Hlt]].
      * destruct (Z.ltb e te) eqn:Het.
        { right. pose proof (proj1 (Z.ltb_lt _ _) Het) as Hlt. split; [|lia].
          apply map_lookup_filter_None. right. intros x Hx.
          rewrite Hm in Hx. inversion Hx; subst x. simpl. rewrite Het. simpl. discriminate. }
        { left. apply map_lookup_filter_Some. split; [exact Hm|].
          simpl. rewrite Het. reflexivity. }
      * right. split; [|lia].
        apply map_lookup_filter_None. left. exact Hm.
Qed.

Lemma addToBlacklist_window (rs : RedisState) (client : RedisClient) (now e : Z)
    (p : Jwt.Payload) (k : string) :
  redisAvailable rs = true -> redis rs = Some client ->
  0 <= now -> Jwt.exp p = Some e -> now / 1000 < e ->
  exists px,
    addToBlacklist rs now (Jwt.Jws p k) = Some (blacklist_key (Jwt.Jws p k), px)
    /\ e * 1000 <= now + px < e * 1000 + 1000.
Proof.
  intros Hav Hcl Hnow He Hlt.
  assert (H0 : 0 <= now / 1000) by (apply Z.div_pos; lia).
  exists ((e - now / 1000) * 1000).
  unfold addToBlacklist. rewrite Hav, Hcl. simpl. rewrite He.
  destruct (Z.eqb e 0) eqn:E0; [apply Z.eqb_eq in E0; lia|].
  destruct (Z.ltb 0 ((e - now / 1000) * 1000)) eqn:E1.
  - split; [reflexivity|].
    pose proof (Z.div_mod now 1000 ltac:(lia)) as Hdm.
    pose proof (Z.mod_pos_bound now 1000 ltac:(lia)) as Hmod.
    lia.
  - apply Z.ltb_ge in E1. lia.
Qed.

(** C7, as amended. A token added to the in-memory store at [t0 > 0] with
    a non-negative [ttl] is reported by [has] at every later lookup up to
    its recorded expiry [t0 + ttl], whatever lookups, sweeps and additions
    of other tokens happen in between, and is reported absent and purged at
    every lookup strictly after it.  In the Redis path the recorded
    lifetime is the token's [exp] minus the revocation time rounded down to
    whole seconds: the entry expires at or after the token's natural
    expiry, and less than one second after it. *)
Theorem revocation_window (tokens : gmap string Z) (token : Jwt.Wire) (ttl t0 t : Z)
    (es : list (Z * MemoryBlacklist.Op)) :
  0 < t0 -> 0 <= ttl ->
  timed t0 es t ->
  Forall (keeps (hashToken token)) es ->
  (t <= t0 + ttl ->
   snd (mb_has t (mb_run (fst (mb_add t0 tokens token ttl)) es) token) = true) /\
  (t0 + ttl < t ->
   snd (mb_has t (mb_run (fst (mb_add t0 tokens token ttl)) es) token) = false /\
   fst (mb_has t (mb_run (fst (mb_add t0 tokens token ttl)) es) token)
     !! hashToken token = None) /\
  (forall rs client now e p k,
      redisAvailable rs = true -> redis rs = Some client ->
      0 <= now -> Jwt.exp p = Some e -> now / 1000 < e ->
      exists px,
        addToBlacklist rs now (Jwt.Jws p k) = Some (blacklist_key (Jwt.Jws p k), px)
        /\ e * 1000 <= now + px < e * 1000 + 1000).
Proof.
  intros Ht0 Httl Htimed Hkeeps.
  assert (Hentry :
    mb_run (fst (mb_add t0 tokens token ttl)) es !! hashToken token = Some (t0 + ttl)
    \/ (mb_run (fst (mb_add t0 tokens token ttl)) es !! hashToken token = None
        /\ t0 + ttl < t)).
  { apply (mb_run_entry _ _ _ es _ t0); [|exact Htimed|exact Hkeeps].
    left. unfold mb_add. simpl. apply lookup_insert_eq. }
  split; [|split].
  - intros Hle. unfold mb_has.
    destruct Hentry as [Hm|[Hm Hlt]]; [|lia].
    rewrite Hm.
    destruct (Z.eqb (t0 + ttl) 0) eqn:E0; [apply Z.eqb_eq in E0; lia|].
    destruct (Z.ltb (t0 + ttl) t) eqn:E1; [apply Z.ltb_lt in E1; lia|].
    reflexivity.
  - intros Hlt. unfold mb_has.
    destruct Hentry as [Hm|[Hm _]].
    + rewrite Hm.
      destruct (Z.eqb (t0 + ttl) 0) eqn:E0; [apply Z.eqb_eq in E0; lia|].
      destruct (Z.ltb (t0 + ttl) t) eqn:E1; [|apply Z.ltb_ge in E1; lia].
      simpl. split; [reflexivity|apply lookup_delete_eq].
    + rewrite Hm. simpl. split; [reflexivity|exact Hm].
  - intros rs client now e p k. apply addToBlacklist_window.
Qed.

(** ** Refresh-token rotation *)

Lemma sign_Ok_secret (p : Jwt.Payload) (secret : option string) (o : Jwt.SignOptions)
    (now : Z) (w : Jwt.Wire) :
  Jwt.sign p secret o now = Ok w -> exists c s, secret = Some (String c s).
Proof.
  unfold Jwt.sign. destruct secret as [[|c s]|]; try discriminate. eauto.
Qed.

Lemma generateTokens_inv (env : Env) (now : Z) (userId : nat) (remember : bool)
    (issued : TokenPair) :
  generateTokens env now userId remember = Ok issued ->
  exists c s c' s',
    JWT_SECRET env = Some (String c s) /\
    JWT_REFRESH_SECRET env = Some (String c' s') /\
    issued = {| accessToken :=
                  Jwt.Jws (stamped env userId "access" now (access_ttl remember))
                          (String c s);
                refreshToken :=
                  Jwt.Jws (stamped env userId "refresh" now (refresh_ttl remember))
                          (String c' s') |}.
Proof.
  intros H. assert (H' := H). unfold generateTokens in H'.
  destruct (Jwt.sign (claims userId "access" None now) (JWT_SECRET env) _ now)
    as [a|e] eqn:Ha; [|discriminate].
  destruct (Jwt.sign (claims userId "refresh" None now) (JWT_REFRESH_SECRET env) _ now)
    as [r|e] eqn:Hr; [|discriminate].
  apply sign_Ok_secret in Ha as (c & s & Hs).
  apply sign_Ok_secret in Hr as (c' & s' & Hs').
  exists c, s, c', s'. split; [exact Hs|]. split; [exact Hs'|].
  rewrite (generateTokens_ok env now userId remember c c' s s' Hs Hs') in H.
  inversion H. reflexivity.
Qed.

Lemma verify_payload (p d : Jwt.Payload) (k : string) (secret : option string)
    (o : Jwt.VerifyOptions) (t : Z) :
  Jwt.verify (Jwt.Jws p k) secret o t = Ok d -> d = p.
Proof.
  unfold Jwt.verify. destruct secret as [[|c s]|]; try discriminate.
  repeat match goal with
         | |- context [if ?b then _ else _] => destruct b; try discriminate
         end.
  intros H. inversion H. reflexivity.
Qed.

Lemma findById_id (db : list UserDoc.User) (n : nat) (user : UserDoc.User) :
  UserDoc.findById db (Some n) = Some user -> UserDoc._id user = n.
Proof.
  unfold UserDoc.findById. intros H. apply find_some in H as [_ H].
  apply Nat.eqb_eq in H. exact H.
Qed.

Lemma findById_save (db : list UserDoc.User) (n : nat) (user user' : UserDoc.User) :
  UserDoc.findById db (Some n) = Some user ->
  UserDoc._id user' = n ->
  UserDoc.findById (UserDoc.save db user') (Some n) = Some user'.
Proof.
  unfold UserDoc.findById, UserDoc.save. intros Hf Hid. subst n.
  induction db as [|v db IH]; simpl in *; [discriminate|].
  destruct (Nat.eqb (UserDoc._id v) (UserDoc._id user')) eqn:E.
  - simpl. rewrite Nat.eqb_refl. reflexivity.
  - simpl. rewrite E. apply IH. exact Hf.
Qed.

(** What a 200 from the refresh endpoint tells. *)
Lemma refresh_ok_inv (env : Env) (now : Z) (db db' : list UserDoc.User)
    (body : RefreshBody) (r : Response) :
  refresh env now db body = (r, db') -> status r = 200 ->
  exists presented decoded user issued,
    r_refreshToken body = Some presented /\
    Jwt.verify presented (JWT_REFRESH_SECRET env) (refresh_options env) now = Ok decoded /\
    Jwt.type decoded = Some "refresh" /\
    UserDoc.findById db (Jwt.id decoded) = Some user /\
    UserDoc.refreshToken user = Some presented /\
    UserDoc.isSuspended user = false /\
    generateTokens env now (UserDoc._id user) (default_false (r_remember body)) = Ok issued /\
    json r = JRefreshed (accessToken issued) (refreshToken issued)
                        (access_span (default_false (r_remember body))) /\
    db' = UserDoc.save db
            (UserDoc.set_lastActive
               (UserDoc.set_refreshToken user (Some (refreshToken issued))) now).
Proof.
  unfold refresh, refresh_options.
  destruct (r_refreshToken body) as [presented|] eqn:Hbody;
    [|intros H Hs; inversion H; subst; discriminate Hs].
  destruct (Jwt.falsy (Some presented));
    [intros H Hs; inversion H; subst; discriminate Hs|].
  destruct (Jwt.verify presented (JWT_REFRESH_SECRET env) _ now) as [decoded|err] eqn:Hv.
  2:{ destruct (String.eqb (err_name err) "TokenExpiredError");
        intros H Hs; inversion H; subst; discriminate Hs. }
  destruct (bool_decide (Jwt.type decoded = Some "refresh")) eqn:Hty;
    [|intros H Hs; inversion H; subst; discriminate Hs].
  apply bool_decide_eq_true in Hty. cbn [negb].
  destruct (UserDoc.findById db (Jwt.id decoded)) as [user|] eqn:Hf;
    [|intros H Hs; inversion H; subst; discriminate Hs].
  destruct (Jwt.falsy (UserDoc.refreshToken user)); cbn [orb];
    [intros H Hs; inversion H; subst; discriminate Hs|].
  destruct (bool_decide (UserDoc.refreshToken user = Some presented)) eqn:Hst;
    [|intros H Hs; inversion H; subst; discriminate Hs].
  apply bool_decide_eq_true in Hst. cbn [negb].
  destruct (UserDoc.isSuspended user) eqn:Hsus;
    [intros H Hs; inversion H; subst; discriminate Hs|].
  destruct (generateTokens env now (UserDoc._id user) (default_false (r_remember body)))
    as [issued|e] eqn:Hgen;
    [|intros H Hs; inversion H; subst; discriminate Hs].
  intros H _. inversion H; subst.
  exists presented, decoded, user, issued. repeat split; auto.
Qed.

(** The comparison with the stored token. *)
Lemma refresh_mismatch (env : Env) (now : Z) (db : list UserDoc.User)
    (presented : Jwt.Wire) (decoded : Jwt.Payload) (user : UserDoc.User)
    (remember : option bool) :
  Jwt.verify presented (JWT_REFRESH_SECRET env) (refresh_options env) now = Ok decoded ->
  Jwt.type decoded = Some "refresh" ->
  UserDoc.findById db (Jwt.id decoded) = Some user ->
  UserDoc.refreshToken user <> Some presented ->
  refresh env now db (mkRefreshBody (Some presented) remember) = (mismatch_reply, db).
Proof.
  intros Hv Hty Hf Hne. unfold refresh, refresh_options in *.
  cbn [r_refreshToken r_remember].
  destruct presented as [text|p k]; [discriminate Hv|].
  cbn [Jwt.falsy]. rewrite Hv.
  rewrite bool_decide_eq_true_2 by exact Hty. cbn [negb]. rewrite Hf.
  rewrite (bool_decide_eq_false_2 _ Hne). cbn [negb]. rewrite orb_true_r. reflexivity.
Qed.

(** A string other than the stored token of its subject obtains nothing. *)
Lemma refresh_other_string (env : Env) (now : Z) (db : list UserDoc.User)
    (presented : Jwt.Wire) (user : UserDoc.User) (remember : option bool) :
  UserDoc.findById db (Some (UserDoc._id user)) = Some user ->
  UserDoc.refreshToken user <> Some presented ->
  (forall p k, presented = Jwt.Jws p k -> Jwt.id p = Some (UserDoc._id user)) ->
  mints (fst (refresh env now db (mkRefreshBody (Some presented) remember))) = false
  /\ snd (refresh env now db (mkRefreshBody (Some presented) remember)) = db.
Proof.
  intros Hf Hne Hsub. unfold refresh. cbn [r_refreshToken r_remember].
  destruct (Jwt.falsy (Some presented)); [split; reflexivity|].
  destruct (Jwt.verify presented (JWT_REFRESH_SECRET env) _ now) as [decoded|err] eqn:Hv.
  2:{ destruct (String.eqb (err_name err) "TokenExpiredError"); split; reflexivity. }
  destruct (negb (bool_decide (Jwt.type decoded = Some "refresh"))); [split; reflexivity|].
  destruct presented as [text|p k]; [discriminate Hv|].
  apply verify_payload in Hv. subst decoded.
  rewrite (Hsub p k eq_refl), Hf.
  rewrite (bool_decide_eq_false_2 _ Hne). cbn [negb]. rewrite orb_true_r.
  split; reflexivity.
Qed.

(** The answer of the refresh endpoint to a string that is not the stored
    token of the user it names: the refusal of the first check it fails. *)
Lemma refresh_not_stored (env : Env) (now : Z) (db : list UserDoc.User)
    (presented : Jwt.Wire) (user : UserDoc.User) (remember : option bool) :
  UserDoc.findById db (Some (UserDoc._id user)) = Some user ->
  UserDoc.refreshToken user <> Some presented ->
  (forall p k, presented = Jwt.Jws p k ->
               Jwt.id p = Some (UserDoc._id user) \/ UserDoc.findById db (Jwt.id p) = None) ->
  refresh env now db (mkRefreshBody (Some presented) remember)
  = (if Jwt.falsy (Some presented) then refresh_required_reply
     else match Jwt.verify presented (JWT_REFRESH_SECRET env) (refresh_options env) now with
          | Throw err =>
              if String.eqb (err_name err) "TokenExpiredError" then refresh_expired_reply
              else invalid_refresh_reply
          | Ok decoded =>
              if bool_decide (Jwt.type decoded = Some "refresh") then
                if bool_decide (Jwt.id decoded = Some (UserDoc._id user)) then mismatch_reply
                else user_not_found_reply
              else invalid_type_reply
          end,
     db).
Proof.
  intros Hf Hne Hsub. unfold refresh, refresh_options. cbn [r_refreshToken r_remember].
  destruct (Jwt.falsy (Some presented)); [reflexivity|].
  destruct (Jwt.verify presented (JWT_REFRESH_SECRET env) _ now) as [decoded|err] eqn:Hv.
  2:{ destruct (String.eqb (err_name err) "TokenExpiredError"); reflexivity. }
  destruct (bool_decide (Jwt.type decoded = Some "refresh")); cbn [negb]; [|reflexivity].
  destruct presented as [text|p k]; [discriminate Hv|].
  apply verify_payload in Hv. subst decoded.
  destruct (Hsub p k eq_refl) as [Hid|Hnone].
  - rewrite (bool_decide_eq_true_2 _ Hid). rewrite Hid, Hf.
    rewrite (bool_decide_eq_false_2 _ Hne). cbn [negb]. rewrite orb_true_r. reflexivity.
  - assert (Hid : Jwt.id p <> Some (UserDoc._id user)).
    { intros Hid. rewrite Hid, Hf in Hnone. discriminate Hnone. }
    rewrite (bool_decide_eq_false_2 _ Hid), Hnone. reflexivity.
Qed.

(** A token that verified once verifies at every later time until its
    expiry, and fails with TokenExpiredError from then on. *)
Lemma verify_later (p d : Jwt.Payload) (k : string) (secret : option string)
    (o : Jwt.VerifyOptions) (now now' : Z) :
  Jwt.verify (Jwt.Jws p k) secret o now = Ok d -> now <= now' ->
  Jwt.verify (Jwt.Jws p k) secret o now'
  = if expired_at (Jwt.Jws p k) now' then Throw Jwt.TokenExpiredError else Ok p.
Proof.
  intros Hv Hle.
  assert (Hdiv : now / 1000 <= now' / 1000) by (apply Z.div_le_mono; lia).
  unfold expired_at. cbn [Jwt.decode].
  unfold Jwt.verify in *. destruct secret as [[|c s]|]; try discriminate Hv.
  destruct (negb (String.eqb k (String c s))); [discriminate Hv|].
  destruct (Jwt.nbf p) as [n|].
  - destruct (Z.ltb (now / 1000) n) eqn:En; [discriminate Hv|].
    apply Z.ltb_ge in En.
    assert (En' : Z.ltb (now' / 1000) n = false) by (apply Z.ltb_ge; lia).
    rewrite En'.
    destruct (match Jwt.exp p with Some e => Z.leb e (now / 1000) | None => false end);
      [discriminate Hv|].
    destruct (match Jwt.exp p with Some e => Z.leb e (now' / 1000) | None => false end);
      [reflexivity|].
    repeat match type of Hv with
           | (if ?b then _ else _) = _ => destruct b; [discriminate Hv|]
           end.
    reflexivity.
  - destruct (match Jwt.exp p with Some e => Z.leb e (now / 1000) | None => false end);
      [discriminate Hv|].
    destruct (match Jwt.exp p with Some e => Z.leb e (now' / 1000) | None => false end);
      [reflexivity|].
    repeat match type of Hv with
           | (if ?b then _ else _) = _ => destruct b; [discriminate Hv|]
           end.
    reflexivity.
Qed.

(** C1, as amended. A successful call of the refresh endpoint at [now]
    answers with the pair generateTokens mints at [now] for the user and
    overwrites the user's stored refresh token with the new refresh token,
    which carries iat [now / 1000]; nothing else but lastActive changes.
    From then on a presented string other than the stored token, be it
    text, a token naming that user or a token naming no stored user,
    obtains no tokens and leaves the collection unchanged, and is answered
    with the refusal of the first check it fails: REFRESH_TOKEN_REQUIRED
    (400) when empty, REFRESH_TOKEN_EXPIRED or INVALID_REFRESH_TOKEN (401)
    when verification fails, INVALID_TOKEN_TYPE (401) when its type is not
    refresh, USER_NOT_FOUND (401) when it names no stored user, and
    REFRESH_TOKEN_MISMATCH (401) when it passes verification as a refresh
    token of that user.  The rotated-out token differs from the new one
    whenever it was minted in another second, and is then answered
    REFRESH_TOKEN_MISMATCH until its own expiry and REFRESH_TOKEN_EXPIRED
    from then on. *)
Theorem refresh_rotation (env : Env) (now : Z) (db db' : list UserDoc.User)
    (body : RefreshBody) (r : Response) :
  refresh env now db body = (r, db') -> status r = 200 ->
  exists old user issued key,
    r_refreshToken body = Some old /\
    UserDoc.findById db (Some (UserDoc._id user)) = Some user /\
    UserDoc.refreshToken user = Some old /\
    JWT_REFRESH_SECRET env = Some key /\
    generateTokens env now (UserDoc._id user) (default_false (r_remember body))
    = Ok issued /\
    refreshToken issued
    = Jwt.Jws (stamped env (UserDoc._id user) "refresh" now
                       (refresh_ttl (default_false (r_remember body)))) key /\
    json r = JRefreshed (accessToken issued) (refreshToken issued)
                        (access_span (default_false (r_remember body))) /\
    db' = UserDoc.save db
            (UserDoc.set_lastActive
               (UserDoc.set_refreshToken user (Some (refreshToken issued))) now) /\
    (exists user', UserDoc.findById db' (Some (UserDoc._id user)) = Some user'
                   /\ UserDoc.refreshToken user' = Some (refreshToken issued)) /\
    (forall now' presented remember',
        presented <> refreshToken issued ->
        (forall p k, presented = Jwt.Jws p k ->
                     Jwt.id p = Some (UserDoc._id user)
                     \/ UserDoc.findById db' (Jwt.id p) = None) ->
        refresh env now' db' (mkRefreshBody (Some presented) remember')
        = (if Jwt.falsy (Some presented) then refresh_required_reply
           else match Jwt.verify presented (JWT_REFRESH_SECRET env) (refresh_options env)
                        now' with
                | Throw err =>
                    if String.eqb (err_name err) "TokenExpiredError"
                    then refresh_expired_reply else invalid_refresh_reply
                | Ok decoded =>
                    if bool_decide (Jwt.type decoded = Some "refresh") then
                      if bool_decide (Jwt.id decoded = Some (UserDoc._id user))
                      then mismatch_reply else user_not_found_reply
                    else invalid_type_reply
                end,
           db')
        /\ mints (fst (refresh env now' db' (mkRefreshBody (Some presented) remember')))
           = false) /\
    (forall now' remember',
        now <= now' -> old <> refreshToken issued ->
        refresh env now' db' (mkRefreshBody (Some old) remember')
        = (if expired_at old now' then refresh_expired_reply else mismatch_reply, db')) /\
    (forall p k, old = Jwt.Jws p k -> Jwt.iat p <> Some (now / 1000) ->
                 old <> refreshToken issued).
Proof.
  intros Hrun Hst.
  destruct (refresh_ok_inv env now db db' body r Hrun Hst)
    as (old & decoded & user & issued & Hbody & Hv & Hty & Hf & Hstored & Hsus & Hgen
        & Hjson & Hdb).
  destruct (Jwt.id decoded) as [n|] eqn:Hid; [|discriminate Hf].
  pose proof (findById_id db n user Hf) as Hn. subst n.
  set (user' := UserDoc.set_lastActive
                  (UserDoc.set_refreshToken user (Some (refreshToken issued))) now) in *.
  assert (Hf' : UserDoc.findById db' (Some (UserDoc._id user)) = Some user').
  { rewrite Hdb. apply (findById_save db (UserDoc._id user) user user' Hf). reflexivity. }
  assert (Hr' : UserDoc.refreshToken user' = Some (refreshToken issued)) by reflexivity.
  pose proof Hgen as Hgen'.
  apply generateTokens_inv in Hgen' as (c0 & s0 & c1 & s1 & _ & Hkey & Hissued).
  assert (Hfresh : refreshToken issued
                   = Jwt.Jws (stamped env (UserDoc._id user) "refresh" now
                                      (refresh_ttl (default_false (r_remember body))))
                             (String c1 s1)) by (rewrite Hissued; reflexivity).
  assert (Htable : forall now' presented remember',
             presented <> refreshToken issued ->
             (forall p k, presented = Jwt.Jws p k ->
                          Jwt.id p = Some (UserDoc._id user)
                          \/ UserDoc.findById db' (Jwt.id p) = None) ->
             refresh env now' db' (mkRefreshBody (Some presented) remember')
             = (if Jwt.falsy (Some presented) then refresh_required_reply
                else match Jwt.verify presented (JWT_REFRESH_SECRET env)
                             (refresh_options env) now' with
                     | Throw err =>
                         if String.eqb (err_name err) "TokenExpiredError"
                         then refresh_expired_reply else invalid_refresh_reply
                     | Ok decoded =>
                         if bool_decide (Jwt.type decoded = Some "refresh") then
                           if bool_decide (Jwt.id decoded = Some (UserDoc._id user))
                           then mismatch_reply else user_not_found_reply
                         else invalid_type_reply
                     end,
                db')).
  { intros now' presented remember' Hne Hsub.
    apply (refresh_not_stored env now' db' presented user' remember' Hf').
    - rewrite Hr'. congruence.
    - exact Hsub. }
  exists old, user, issued, (String c1 s1).
  split; [exact Hbody|]. split; [exact Hf|]. split; [exact Hstored|].
  split; [exact Hkey|]. split; [exact Hgen|]. split; [exact Hfresh|].
  split; [exact Hjson|]. split; [exact Hdb|].
  split; [exists user'; split; assumption|].
  split; [|split].
  - intros now' presented remember' Hne Hsub. split; [apply Htable; assumption|].
    rewrite (Htable now' presented remember' Hne Hsub). cbn [fst].
    destruct (Jwt.falsy (Some presented)); [reflexivity|].
    destruct (Jwt.verify presented (JWT_REFRESH_SECRET env) (refresh_options env) now')
      as [d|err].
    + destruct (bool_decide (Jwt.type d = Some "refresh")); [|reflexivity].
      destruct (bool_decide (Jwt.id d = Some (UserDoc._id user))); reflexivity.
    + destruct (String.eqb (err_name err) "TokenExpiredError"); reflexivity.
  - intros now' remember' Hle Hne.
    destruct old as [text|p k]; [discriminate Hv|].
    pose proof (verify_payload _ _ _ _ _ _ Hv) as Hd. subst decoded.
    rewrite (Htable now' (Jwt.Jws p k) remember' Hne)
      by (intros p0 k0 H0; inversion H0; subst; left; exact Hid).
    cbn [Jwt.falsy]. rewrite (verify_later p p k _ _ now now' Hv Hle).
    destruct (expired_at (Jwt.Jws p k) now'); [reflexivity|].
    rewrite bool_decide_eq_true_2 by exact Hty.
    rewrite bool_decide_eq_true_2 by exact Hid. reflexivity.
  - intros p k Hold Hiat Heq. rewrite Hfresh in Heq. rewrite Hold in Heq.
    inversion Heq; subst p. apply Hiat. reflexivity.
Qed.

(** The helper refreshTokens performs the same rotation and comparison; it
    signals the mismatch by an exception. *)
Lemma refreshTokens_mismatch (env : Env) (now : Z) (db : list UserDoc.User)
    (presented : Jwt.Wire) (decoded : Jwt.Payload) (user : UserDoc.User) (remember : bool) :
  verifyToken env now presented true = Ok decoded ->
  Jwt.type decoded = Some "refresh" ->
  UserDoc.findById db (Jwt.id decoded) = Some user ->
  UserDoc.refreshToken user <> Some presented ->
  refreshTokens env now db (Some presented) remember
  = Throw (mkError "Error" "Refresh token mismatch").
Proof.
  intros Hv Hty Hf Hne. unfold refreshTokens.
  destruct presented as [text|p k]; [exfalso; eapply verifyToken_Malformed; eauto|].
  cbn [Jwt.falsy]. rewrite Hv. cbn [bind].
  rewrite bool_decide_eq_true_2 by exact Hty. cbn [negb]. rewrite Hf.
  rewrite (bool_decide_eq_false_2 _ Hne). reflexivity.
Qed.

(** ** Login failures *)

(** C5, as amended. With an email and a password given, the login of
    routes/auth.js answers an unknown email and a wrong password of a
    verified account with the same 401 "Invalid credentials", and an
    unverified account with a 401 of its own, "Please verify your email
    first"; the login of routes/auth-enhanced.js answers an unknown email
    and a wrong password with the same 401 INVALID_CREDENTIALS, and a
    suspended account whose password matches with 403 ACCOUNT_SUSPENDED.
    Each of these answers is given before any token is minted and leaves
    the collection, and so the stored refresh token, unchanged. *)
Theorem login_rejections (env : Env) (now : Z) (db : list UserDoc.User) (req : Request)
    (c c' : ascii) (e p : string) (remember : option bool) :
  let body := mkLoginBody (Some (String c e)) (Some (String c' p)) remember in
  let found := UserDoc.findOneByEmail db (toLowerCase (String c e)) in
  (found = None -> login env now db body = (invalid_credentials, db)) /\
  (forall user, found = Some user -> UserDoc.isVerified user = false ->
                login env now db body = (verify_email_first, db)) /\
  (forall user, found = Some user -> UserDoc.isVerified user = true ->
                correctPassword (String c' p) (UserDoc.password user) = false ->
                login env now db body = (invalid_credentials, db)) /\
  (found = None -> login_enhanced env now db req body = (invalid_credentials_enhanced, db)) /\
  (forall user, found = Some user -> comparePassword user (String c' p) = false ->
                login_enhanced env now db req body = (invalid_credentials_enhanced, db)) /\
  (forall user, found = Some user -> comparePassword user (String c' p) = true ->
                UserDoc.isSuspended user = true ->
                login_enhanced env now db req body = (account_suspended, db)) /\
  mints invalid_credentials = false /\ mints verify_email_first = false /\
  mints invalid_credentials_enhanced = false /\ mints account_suspended = false.
Proof.
  intros body found. subst body found.
  unfold login, login_enhanced. cbn [l_email l_password l_remember].
  repeat split.
  - intros H. rewrite H. reflexivity.
  - intros user H Hv. rewrite H, Hv. reflexivity.
  - intros user H Hv Hp. rewrite H, Hv, Hp. reflexivity.
  - intros H. rewrite H. reflexivity.
  - intros user H Hp. rewrite H, Hp. reflexivity.
  - intros user H Hp Hs. rewrite H, Hp, Hs. reflexivity.
Qed.

(** ** Refresh Coordinator *)

Lemma coherent_idle (b : Client.Browser) : coherent (Client.idle b).
Proof. split; simpl; [discriminate|auto]. Qed.

Lemma invoke_refreshing (s : Client.Coordinator) (c : nat) :
  Client.isRefreshing s = true ->
  Client.invoke s c
  = Client.mkCoordinator true (Client.failedQueue s ++ [c])%list (Client.inflight s)
      (Client.refreshCalls s) (Client.logoutCalls s) (Client.logoutsPending s)
      (Client.browser s) (Client.settled s).
Proof. intros H. unfold Client.invoke. rewrite H. reflexivity. Qed.

Lemma processQueue_verdict (queue : list nat) (r : Client.HttpResult) :
  Client.processQueue queue
    (match verdict r with Client.Rejected e => Some e | Client.Resolved _ => None end)
    (match verdict r with Client.Resolved t => t | Client.Rejected _ => None end)
  = List.map (fun q => (q, verdict r)) queue.
Proof.
  unfold Client.processQueue.
  destruct r as [[[|c a]|] nr|e]; simpl; reflexivity.
Qed.

Lemma resume_spec (s : Client.Coordinator) (p : Client.Pending) (rest : list Client.Pending)
    (r : Client.HttpResult) :
  Client.isRefreshing (Client.resume s p rest r) = false /\
  Client.failedQueue (Client.resume s p rest r) = [] /\
  Client.inflight (Client.resume s p rest r) = rest /\
  Client.refreshCalls (Client.resume s p rest r) = Client.refreshCalls s /\
  Client.settled (Client.resume s p rest r)
  = (Client.settled s ++ List.map (fun q => (q, verdict r)) (Client.failedQueue s)
     ++ [(Client.owner p, owner_result r)])%list.
Proof.
  destruct r as [[[|c a]|] nr|e]; simpl; repeat split; reflexivity.
Qed.

Lemma take_pending_single (c : nat) (p q : Client.Pending) (rest : list Client.Pending) :
  Client.take_pending c [p] = Some (q, rest) -> q = p /\ rest = [] /\ Client.owner p = c.
Proof.
  simpl. destruct (Nat.eqb (Client.owner p) c) eqn:E; [|discriminate].
  intros H. inversion H; subst. apply Nat.eqb_eq in E. repeat split; auto.
Qed.

Lemma step_coherent (s s' : Client.Coordinator) (e : Client.Event) :
  coherent s -> Client.step s e = Some s' -> coherent s'.
Proof.
  intros [Hon Hoff] Hstep. destruct e as [c|c r|]; simpl in Hstep.
  - inversion Hstep; subst s'; clear Hstep.
    unfold Client.invoke.
    destruct (Client.isRefreshing s) eqn:Hr.
    + split; simpl; [intros _; apply Hon; reflexivity|discriminate].
    + destruct (Hoff eq_refl) as [Hin Hq].
      destruct (Client.getStoredTokens (Client.browser s)) as [[a rt] rem].
      destruct rt as [[|c0 t]|]; split; simpl; try discriminate;
        try (intros _; split; [exact Hin|reflexivity]).
      intros _. rewrite Hin. eexists. reflexivity.
  - destruct (Client.take_pending c (Client.inflight s)) as [[p rest]|] eqn:Ht;
      [|discriminate].
    inversion Hstep; subst s'; clear Hstep.
    destruct (Client.isRefreshing s) eqn:Hr.
    + destruct (Hon eq_refl) as [p0 Hp0]. rewrite Hp0 in Ht.
      apply take_pending_single in Ht as (-> & -> & _).
      destruct (resume_spec s p0 [] r) as (H1 & H2 & H3 & _).
      split; [rewrite H1; discriminate|intros _; split; assumption].
    + destruct (Hoff eq_refl) as [Hin _]. rewrite Hin in Ht. discriminate Ht.
  - destruct (Client.logoutsPending s); [discriminate|].
    inversion Hstep; subst s'. split; simpl; [exact Hon|exact Hoff].
Qed.

Lemma run_coherent (es : list Client.Event) :
  forall s s', coherent s -> Client.run s es = Some s' -> coherent s'.
Proof.
  induction es as [|e rest IH]; intros s s' Hc Hrun; simpl in Hrun.
  - inversion Hrun; subst; exact Hc.
  - destruct (Client.step s e) as [s1|] eqn:Hs; [|discriminate].
    apply (IH s1 s'); [eapply step_coherent; eauto|exact Hrun].
Qed.

(** Callers arriving while the coordinator is Refreshing only join the
    queue. *)
Lemma run_invokes (cs : list nat) :
  forall (s : Client.Coordinator) (rest : list Client.Event),
    Client.isRefreshing s = true ->
    Client.run s (List.map Client.Invoke cs ++ rest)%list
    = Client.run
        (Client.mkCoordinator true (Client.failedQueue s ++ cs)%list (Client.inflight s)
           (Client.refreshCalls s) (Client.logoutCalls s) (Client.logoutsPending s)
           (Client.browser s) (Client.settled s)) rest.
Proof.
  induction cs as [|c cs IH]; intros s rest Hr.
  - simpl. rewrite app_nil_r. destruct s; simpl in *; subst; reflexivity.
  - change (List.map Client.Invoke (c :: cs) ++ rest)%list
      with (Client.Invoke c :: (List.map Client.Invoke cs ++ rest))%list.
    cbn [Client.run Client.step]. rewrite (invoke_refreshing s c Hr).
    rewrite IH by reflexivity. simpl. rewrite <- app_assoc. reflexivity.
Qed.

(** N callers during one refresh: one call, one verdict for all. *)
Lemma one_refresh_for_all (b : Client.Browser) (c0 : nat) (cs : list nat)
    (r : Client.HttpResult) (a : option string) (c : ascii) (t : string) (rem : bool) :
  Client.getStoredTokens b = (a, Some (String c t), rem) ->
  exists s',
    Client.run (Client.idle b)
      (Client.Invoke c0 :: List.map Client.Invoke cs ++ [Client.Settle c0 r])%list
    = Some s' /\
    Client.refreshCalls s' = 1%nat /\
    Client.isRefreshing s' = false /\
    Client.inflight s' = [] /\
    Client.settled s'
    = (List.map (fun q => (q, verdict r)) cs ++ [(c0, owner_result r)])%list.
Proof.
  intros Hst.
  cbn [Client.run Client.step]. unfold Client.invoke at 1.
  cbn [Client.idle Client.isRefreshing Client.browser]. rewrite Hst.
  rewrite run_invokes by reflexivity.
  cbn [Client.run Client.step Client.inflight Client.failedQueue Client.refreshCalls
       Client.logoutCalls Client.logoutsPending Client.browser Client.settled
       Client.idle app Client.take_pending Client.owner].
  rewrite Nat.eqb_refl.
  eexists. split; [reflexivity|].
  match goal with
  | |- context [Client.resume ?s ?p ?rest r] =>
      destruct (resume_spec s p rest r) as (H1 & H2 & H3 & H4 & H5)
  end.
  rewrite H1, H3, H4, H5. simpl. repeat split; reflexivity.
Qed.

(** C2. In every state the coordinator reaches from Idle, at most one
    refresh call is in flight, and one is in flight exactly while the
    coordinator is Refreshing.  While it is, a further caller is only
    appended to the queue: no call is issued and nobody is settled.  When
    the response arrives, every queued caller is resolved with the new
    access token, or every one is rejected with the failure, the queue is
    emptied, nothing remains in flight and the coordinator is Idle again.
    In particular N callers arriving during one refresh cause one refresh
    call in total. *)
Theorem single_flight (b : Client.Browser) (es : list Client.Event)
    (s : Client.Coordinator) :
  Client.run (Client.idle b) es = Some s ->
  (length (Client.inflight s) <= 1)%nat /\
  (Client.isRefreshing s = true <-> length (Client.inflight s) = 1%nat) /\
  (Client.isRefreshing s = false -> Client.failedQueue s = []) /\
  (Client.isRefreshing s = true ->
   forall c, exists s',
     Client.step s (Client.Invoke c) = Some s' /\
     Client.isRefreshing s' = true /\
     Client.inflight s' = Client.inflight s /\
     Client.refreshCalls s' = Client.refreshCalls s /\
     Client.failedQueue s' = (Client.failedQueue s ++ [c])%list /\
     Client.settled s' = Client.settled s) /\
  (forall c r s',
      Client.step s (Client.Settle c r) = Some s' ->
      Client.isRefreshing s' = false /\
      Client.inflight s' = [] /\
      Client.failedQueue s' = [] /\
      Client.refreshCalls s' = Client.refreshCalls s /\
      Client.settled s'
      = (Client.settled s ++ List.map (fun q => (q, verdict r)) (Client.failedQueue s)
         ++ [(c, owner_result r)])%list) /\
  (forall b0 c0 cs r a c t rem,
      Client.getStoredTokens b0 = (a, Some (String c t), rem) ->
      exists s',
        Client.run (Client.idle b0)
          (Client.Invoke c0 :: List.map Client.Invoke cs ++ [Client.Settle c0 r])%list
        = Some s' /\
        Client.refreshCalls s' = 1%nat /\
        Client.isRefreshing s' = false /\
        Client.inflight s' = [] /\
        Client.settled s'
        = (List.map (fun q => (q, verdict r)) cs ++ [(c0, owner_result r)])%list).
Proof.
  intros Hrun.
  pose proof (run_coherent es _ _ (coherent_idle b) Hrun) as [Hon Hoff].
  split; [|split; [|split; [|split; [|split]]]].
  - destruct (Client.isRefreshing s).
    + destruct (Hon eq_refl) as [p Hp]. rewrite Hp. simpl. lia.
    + destruct (Hoff eq_refl) as [Hin _]. rewrite Hin. simpl. lia.
  - split.
    + intros Hr. destruct (Hon Hr) as [p Hp]. rewrite Hp. reflexivity.
    + intros Hlen. destruct (Client.isRefreshing s); [reflexivity|].
      destruct (Hoff eq_refl) as [Hin _]. rewrite Hin in Hlen. discriminate Hlen.
  - intros Hr. apply Hoff. exact Hr.
  - intros Hr c. eexists. split; [reflexivity|].
    rewrite (invoke_refreshing s c Hr). simpl. repeat split; reflexivity.
  - intros c r s' Hstep. simpl in Hstep.
    destruct (Client.take_pending c (Client.inflight s)) as [[p rest]|] eqn:Ht;
      [|discriminate].
    inversion Hstep; subst s'; clear Hstep.
    destruct (Client.isRefreshing s) eqn:Hr.
    + destruct (Hon eq_refl) as [p0 Hp0]. rewrite Hp0 in Ht.
      apply take_pending_single in Ht as (-> & -> & Hown).
      destruct (resume_spec s p0 [] r) as (H1 & H2 & H3 & H4 & H5).
      rewrite H1, H2, H3, H4, H5, Hown. repeat split; reflexivity.
    + destruct (Hoff eq_refl) as [Hin _]. rewrite Hin in Ht. discriminate Ht.
  - intros b0 c0 cs r a c t rem. apply one_refresh_for_all.
Qed.

(** ** Response interceptor *)

Lemma onRejected_no_refresh (st : option Z) (config : Client.AxiosConfig)
    (outcome : Client.RefreshOutcome) :
  Client._retry config = true \/ Client.isExcludedPath (Client.url config) = true ->
  Client.onRejected st config outcome = Client.mkHandling (Client.Fail config) false false.
Proof.
  intros H. unfold Client.onRejected.
  destruct (bool_decide (st = Some 401)); [|reflexivity].
  destruct H as [H|H]; rewrite H; simpl; [reflexivity|].
  rewrite andb_false_r. reflexivity.
Qed.

Lemma onRejected_resend (st : option Z) (config config' : Client.AxiosConfig)
    (outcome : Client.RefreshOutcome) :
  Client.action (Client.onRejected st config outcome) = Client.Resend config' ->
  Client._retry config = false /\ Client._retry config' = true
  /\ Client.url config' = Client.url config
  /\ Client.refreshRequested (Client.onRejected st config outcome) = true.
Proof.
  unfold Client.onRejected.
  destruct (bool_decide (st = Some 401)); [|discriminate].
  destruct (Client._retry config); [discriminate|].
  destruct (Client.isExcludedPath (Client.url config)); [discriminate|].
  simpl. destruct outcome as [[[|c t]|]|e]; simpl; try discriminate.
  intros H. inversion H. auto.
Qed.

Lemma onRejected_asks_once (st : option Z) (config : Client.AxiosConfig)
    (outcome : Client.RefreshOutcome) :
  Client.refreshRequested (Client.onRejected st config outcome) = true ->
  Client._retry config = false /\ Client.isExcludedPath (Client.url config) = false.
Proof.
  unfold Client.onRejected.
  destruct (bool_decide (st = Some 401)); [|discriminate].
  destruct (Client._retry config); [discriminate|].
  destruct (Client.isExcludedPath (Client.url config)); [discriminate|].
  auto.
Qed.

(** A request that is marked, or whose path is excluded, is transmitted
    once and asks for no refresh. *)
Lemma axios_final (fuel : nat) (server : nat -> Client.AxiosConfig -> option Z)
    (refresh : nat -> Client.RefreshOutcome) (sent asked : nat)
    (config : Client.AxiosConfig) :
  Client._retry config = true \/ Client.isExcludedPath (Client.url config) = true ->
  Client.axios (S fuel) server refresh sent asked config
  = Some (Client.mkExchange (server sent config) (S sent) asked).
Proof.
  intros H. simpl.
  destruct (Client.is_2xx (server sent config)); [reflexivity|].
  rewrite (onRejected_no_refresh _ _ _ H). reflexivity.
Qed.

Lemma axios_S (fuel : nat) (server : nat -> Client.AxiosConfig -> option Z)
    (refresh : nat -> Client.RefreshOutcome) (sent asked : nat)
    (config : Client.AxiosConfig) :
  Client.axios (S fuel) server refresh sent asked config
  = if Client.is_2xx (server sent config)
    then Some (Client.mkExchange (server sent config) (S sent) asked)
    else
      match Client.action (Client.onRejected (server sent config) config (refresh asked)) with
      | Client.Resend config' =>
          Client.axios fuel server refresh (S sent)
            (if Client.refreshRequested
                  (Client.onRejected (server sent config) config (refresh asked))
             then S asked else asked) config'
      | Client.Fail _ =>
          Some (Client.mkExchange (server sent config) (S sent)
                  (if Client.refreshRequested
                        (Client.onRejected (server sent config) config (refresh asked))
                   then S asked else asked))
      end.
Proof. reflexivity. Qed.

(** Every request ends after at most two transmissions and one refresh:
    it is retried at most once. *)
Lemma retry_at_most_once (fuel : nat) (server : nat -> Client.AxiosConfig -> option Z)
    (refresh : nat -> Client.RefreshOutcome) (sent asked : nat)
    (config : Client.AxiosConfig) :
  exists x,
    Client.axios (S (S fuel)) server refresh sent asked config = Some x
    /\ (Client.transmissions x <= sent + 2)%nat
    /\ (Client.refreshes x <= asked + 1)%nat.
Proof.
  rewrite axios_S.
  destruct (Client.is_2xx (server sent config)).
  { eexists. split; [reflexivity|]. simpl. lia. }
  destruct (Client.action (Client.onRejected (server sent config) config (refresh asked)))
    as [config'|config'] eqn:Hact.
  - destruct (onRejected_resend _ _ _ _ Hact) as (_ & Hmark & _ & Hreq).
    rewrite Hreq.
    rewrite (axios_final fuel server refresh (S sent) (S asked) config' (or_introl Hmark)).
    eexists. split; [reflexivity|]. simpl. lia.
  - eexists. split; [reflexivity|]. simpl.
    destruct (Client.refreshRequested _); lia.
Qed.

(** C8, at the failing input. A 401 on POST /api/payment/verify is not
    excluded by the interceptor: it asks for a refresh and re-sends the
    request. *)
Theorem payment_endpoint_is_retried :
  Client.isExcludedPath (Client.url payment_verify) = false /\
  Client.onRejected (Some 401) payment_verify (Client.Returned (Some "new"))
  = Client.mkHandling
      (Client.Resend (Client.mkConfig "/api/payment/verify" true (Some "Bearer new")))
      true false /\
  Client.axios 2 (fun k _ => if Nat.eqb k 0 then Some 401 else Some 200)
    (fun _ => Client.Returned (Some "new")) 0 0 payment_verify
  = Some (Client.mkExchange (Some 200) 2 1).
Proof. repeat split; reflexivity. Qed.

(** ** Further properties of the Request Gate *)

Lemma auth_by_token (env : Env) (now : Z) (rs : RedisState) (db : list UserDoc.User)
    (req req' : Request) :
  extract_token req = extract_token req' ->
  auth env now rs db req = auth env now rs db req'.
Proof. intros H. unfold auth. rewrite H. reflexivity. Qed.

Lemma auth_not_listed (env : Env) (now : Z) (rs : RedisState) (db : list UserDoc.User)
    (req : Request) (token : Jwt.Wire) :
  extract_token req = Some token ->
  Jwt.falsy (Some token) = false ->
  isTokenBlacklisted rs token = Ok false ->
  auth env now rs db req
  = match verifyToken env now token false with
    | Throw e => Reply (auth_catch e)
    | Ok decoded =>
        if negb (bool_decide (Jwt.type decoded = Some "access")) then
          Reply (reply 401 "Invalid token type" (Some "INVALID_TOKEN_TYPE")
                       (Some "Expected access token but received different token type"))
        else
          match UserDoc.findById db (Jwt.id decoded) with
          | None =>
              Reply (reply 401 "User not found" (Some "USER_NOT_FOUND")
                           (Some "The user associated with this token no longer exists"))
          | Some user =>
              if UserDoc.isSuspended user then Reply suspended_reply
              else Next (UserDoc.select_safe user) token
          end
    end.
Proof. intros Hx Hf Hb. unfold auth. rewrite Hx, Hf, Hb. reflexivity. Qed.

Lemma auth_Next_inv (env : Env) (now : Z) (rs : RedisState) (db : list UserDoc.User)
    (req : Request) (user : UserDoc.User) (token : Jwt.Wire) :
  auth env now rs db req = Next user token ->
  extract_token req = Some token /\
  Jwt.falsy (Some token) = false /\
  isTokenBlacklisted rs token = Ok false /\
  exists decoded stored,
    verifyToken env now token false = Ok decoded /\
    Jwt.type decoded = Some "access" /\
    UserDoc.findById db (Jwt.id decoded) = Some stored /\
    UserDoc.isSuspended stored = false /\
    user = UserDoc.select_safe stored /\
    UserDoc.password user = None /\
    UserDoc.refreshToken user = None.
Proof.
  unfold auth.
  destruct (extract_token req) as [tok|] eqn:Hx; [|discriminate].
  destruct (Jwt.falsy (Some tok)) eqn:Hf; [discriminate|].
  destruct (isTokenBlacklisted_total rs tok) as [b Hb]. rewrite Hb.
  destruct b; [discriminate|].
  destruct (verifyToken env now tok false) as [decoded|e] eqn:Hv; [|discriminate].
  destruct (bool_decide (Jwt.type decoded = Some "access")) eqn:Hty; [|discriminate].
  apply bool_decide_eq_true in Hty. cbn [negb].
  destruct (UserDoc.findById db (Jwt.id decoded)) as [stored|] eqn:Hfind; [|discriminate].
  destruct (UserDoc.isSuspended stored) eqn:Hs; [discriminate|].
  intros H. inversion H; subst.
  repeat split; auto. exists decoded, stored. repeat split; auto.
Qed.

Lemma auth_Next_intro (env : Env) (now : Z) (rs : RedisState) (db : list UserDoc.User)
    (req : Request) (token : Jwt.Wire) (decoded : Jwt.Payload) (stored : UserDoc.User) :
  extract_token req = Some token ->
  Jwt.falsy (Some token) = false ->
  isTokenBlacklisted rs token = Ok false ->
  verifyToken env now token false = Ok decoded ->
  Jwt.type decoded = Some "access" ->
  UserDoc.findById db (Jwt.id decoded) = Some stored ->
  UserDoc.isSuspended stored = false ->
  auth env now rs db req = Next (UserDoc.select_safe stored) token.
Proof.
  intros Hx Hf Hb Hv Hty Hfind Hs.
  rewrite (auth_not_listed env now rs db req token Hx Hf Hb), Hv.
  rewrite bool_decide_eq_true_2 by exact Hty. cbn [negb].
  rewrite Hfind, Hs. reflexivity.
Qed.

(** The gate lets a request through exactly when its token is present, not
    listed as revoked, verifies as an access token and names a stored user
    who is not suspended; what it attaches is that user without password
    and refresh token. *)
Theorem gate_accepts_iff (env : Env) (now : Z) (rs : RedisState) (db : list UserDoc.User)
    (req : Request) (user : UserDoc.User) (token : Jwt.Wire) :
  auth env now rs db req = Next user token <->
  (extract_token req = Some token /\
   Jwt.falsy (Some token) = false /\
   isTokenBlacklisted rs token = Ok false /\
   exists decoded stored,
     verifyToken env now token false = Ok decoded /\
     Jwt.type decoded = Some "access" /\
     UserDoc.findById db (Jwt.id decoded) = Some stored /\
     UserDoc.isSuspended stored = false /\
     user = UserDoc.select_safe stored /\
     UserDoc.password user = None /\
     UserDoc.refreshToken user = None).
Proof.
  split; [apply auth_Next_inv|].
  intros (Hx & Hf & Hb & decoded & stored & Hv & Hty & Hfind & Hs & -> & _).
  eapply auth_Next_intro; eauto.
Qed.



Lemma auth_answering (env : Env) (now : Z) (rs : RedisState) (db : list UserDoc.User)
    (req : Request) :
  auth env now rs db req = auth_with_lookup (answering db) env now rs req.
Proof. reflexivity. Qed.


(** A usable Bearer header makes the cookies irrelevant, and without one
    (no header, another scheme, or an empty Bearer value) the accessToken
    cookie is treated exactly as a Bearer header would be.  A Bearer value
    that is non-empty text but no token, the literal null included, counts
    as usable: the cookie is not consulted and the answer is INVALID_TOKEN
    whatever the cookies hold. *)
Theorem gate_token_source (env : Env) (now : Z) (rs : RedisState) (db : list UserDoc.User)
    (token : Jwt.Wire) (ip0 ua al : option string) :
  Jwt.falsy (Some token) = false ->
  (forall c c',
      auth env now rs db (mkRequest ip0 ua al (Some (Bearer token)) c)
      = auth env now rs db (mkRequest ip0 ua al (Some (Bearer token)) c')) /\
  (forall h refreshCookie rememberCookie,
      no_bearer h ->
      auth env now rs db
           (mkRequest ip0 ua al h
                      (Some (mkCookies (Some token) refreshCookie rememberCookie)))
      = auth env now rs db (bearing token None)) /\
  (forall c0 text c,
      truthy (JWT_SECRET env) = true ->
      isTokenBlacklisted rs (Jwt.Malformed (String c0 text)) = Ok false ->
      auth env now rs db
           (mkRequest ip0 ua al (Some (Bearer (Jwt.Malformed (String c0 text)))) c)
      = Reply invalid_token_reply).
Proof.
  intros Hf.
  assert (Hb : forall i u l c, extract_token (mkRequest i u l (Some (Bearer token)) c)
                               = Some token).
  { intros i u l c. unfold extract_token. cbn [authorization]. rewrite Hf. reflexivity. }
  split; [|split].
  - intros c c'. apply auth_by_token. rewrite !Hb. reflexivity.
  - intros h rc mc Hh. apply auth_by_token. unfold bearing. rewrite Hb.
    unfold extract_token. cbn [authorization cookies c_accessToken].
    destruct h as [[t|text]|]; cbn [no_bearer] in Hh.
    + rewrite Hh, Hf. reflexivity.
    + change (Jwt.falsy None) with true. rewrite Hf. reflexivity.
    + change (Jwt.falsy None) with true. rewrite Hf. reflexivity.
  - intros c0 text c Hsec Hlist.
    rewrite (auth_not_listed env now rs db
               (mkRequest ip0 ua al (Some (Bearer (Jwt.Malformed (String c0 text)))) c)
               (Jwt.Malformed (String c0 text)) eq_refl eq_refl Hlist).
    unfold verifyToken. rewrite Hsec. reflexivity.
Qed.

(** optionalAuth attaches a user exactly when the gate would let the
    request through, and then the same user and token. *)
Theorem optionalAuth_agrees (env : Env) (now : Z) (rs : RedisState)
    (db : list UserDoc.User) (req : Request) :
  optionalAuth env now rs db req
  = match auth env now rs db req with
    | Next user token => Some (user, token)
    | Reply _ => None
    end.
Proof.
  unfold optionalAuth, auth.
  destruct (extract_token req) as [tok|]; [|reflexivity].
  destruct (Jwt.falsy (Some tok)); [reflexivity|].
  destruct (isTokenBlacklisted_total rs tok) as [b Hb]. rewrite Hb.
  destruct b; [reflexivity|].
  destruct (verifyToken env now tok false) as [decoded|e]; [|reflexivity].
  destruct (negb (bool_decide (Jwt.type decoded = Some "access"))); [reflexivity|].
  destruct (UserDoc.findById db (Jwt.id decoded)) as [stored|]; [|reflexivity].
  destruct (UserDoc.isSuspended stored); reflexivity.
Qed.

Lemma find_In (db : list UserDoc.User) (i : option nat) (u : UserDoc.User) :
  UserDoc.findById db i = Some u -> In u db.
Proof.
  unfold UserDoc.findById. destruct i as [n|]; [|discriminate].
  intros H. apply find_some in H. exact (proj1 H).
Qed.

(** A route behind [auth, admin] is reached only with the token of a stored
    user whose role is admin and who is not suspended; every other stored
    user with a good token gets 403 ADMIN_REQUIRED. *)
Theorem admin_gate (env : Env) (now : Z) (rs : RedisState) (db : list UserDoc.User)
    (req : Request) :
  (forall user token,
      auth_then_admin env now rs db req = Next user token ->
      exists stored, In stored db /\ UserDoc.role stored = "admin"
                     /\ UserDoc.isSuspended stored = false
                     /\ user = UserDoc.select_safe stored) /\
  (forall user token,
      auth env now rs db req = Next user token ->
      UserDoc.role user <> "admin" ->
      auth_then_admin env now rs db req
      = Reply (reply 403 "Admin access required" (Some "ADMIN_REQUIRED")
                     (Some "This action requires administrator privileges"))).
Proof.
  split.
  - intros user token. unfold auth_then_admin.
    destruct (auth env now rs db req) as [u t|r] eqn:Ha; [|discriminate].
    unfold admin. destruct (String.eqb (UserDoc.role u) "admin") eqn:Hrole;
      cbn [negb]; [|discriminate].
    intros H. inversion H; subst.
    apply auth_Next_inv in Ha
      as (_ & _ & _ & decoded & stored & _ & _ & Hfind & Hs & Hu & _).
    exists stored. split; [eapply find_In; eauto|].
    apply String.eqb_eq in Hrole. subst user. simpl in Hrole. auto.
  - intros user token Ha Hrole. unfold auth_then_admin. rewrite Ha. unfold admin.
    destruct (String.eqb (UserDoc.role user) "admin") eqn:E; [|reflexivity].
    apply String.eqb_eq in E. contradiction.
Qed.

(** ** Token life times *)

Lemma generateAccessToken_inv (env : Env) (now : Z) (userId : nat) (remember : bool)
    (w : Jwt.Wire) :
  generateAccessToken env now userId remember = Ok w ->
  exists c s, JWT_SECRET env = Some (String c s)
              /\ w = Jwt.Jws (stamped env userId "access" now (access_ttl remember))
                             (String c s).
Proof.
  intros H. assert (H' := H). unfold generateAccessToken in H'.
  destruct (negb (truthy (JWT_SECRET env))); [discriminate|].
  apply sign_Ok_secret in H' as (c & s & Hs).
  exists c, s. split; [exact Hs|].
  rewrite (generateAccessToken_ok env now userId remember c s Hs) in H.
  inversion H. reflexivity.
Qed.

Lemma generateRefreshToken_inv (env : Env) (now : Z) (userId : nat) (remember : bool)
    (w : Jwt.Wire) :
  generateRefreshToken env now userId remember = Ok w ->
  exists c s, JWT_REFRESH_SECRET env = Some (String c s)
              /\ w = Jwt.Jws (stamped env userId "refresh" now (refresh_ttl remember))
                             (String c s).
Proof.
  intros H. assert (H' := H). unfold generateRefreshToken in H'.
  destruct (negb (truthy (JWT_REFRESH_SECRET env))); [discriminate|].
  apply sign_Ok_secret in H' as (c & s & Hs).
  exists c, s. split; [exact Hs|].
  rewrite (generateRefreshToken_ok env now userId remember c s Hs) in H.
  inversion H. reflexivity.
Qed.

Lemma generateSecureTokens_inv (env : Env) (now : Z) (userId : nat) (remember : bool)
    (fingerprint : option string) (issued : TokenPair) :
  generateSecureTokens env now userId remember fingerprint = Ok issued ->
  exists c s c' s',
    JWT_SECRET env = Some (String c s) /\
    JWT_REFRESH_SECRET env = Some (String c' s') /\
    issued = {| accessToken :=
                  Jwt.Jws (unstamped userId "access" fingerprint now (access_ttl remember))
                          (String c s);
                refreshToken :=
                  Jwt.Jws (unstamped userId "refresh" fingerprint now (refresh_ttl remember))
                          (String c' s') |}.
Proof.
  intros H. assert (H' := H). unfold generateSecureTokens in H'.
  destruct (Jwt.sign (claims userId "access" fingerprint now) (JWT_SECRET env) _ now)
    as [a|e] eqn:Ha; [|discriminate].
  destruct (Jwt.sign (claims userId "refresh" fingerprint now) (JWT_REFRESH_SECRET env)
                     _ now) as [r|e] eqn:Hr; [|discriminate].
  apply sign_Ok_secret in Ha as (c & s & Hs).
  apply sign_Ok_secret in Hr as (c' & s' & Hs').
  exists c, s, c', s'. split; [exact Hs|]. split; [exact Hs'|].
  unfold generateSecureTokens, Jwt.sign in H. rewrite Hs, Hs' in H. simpl in H.
  rewrite access_span_ttl, refresh_span_ttl in H. simpl in H.
  unfold unstamped.
  destruct (Z.eqb (now / 1000) 0); inversion H; reflexivity.
Qed.

(** At every mint site the remember-me flag selects the same life times,
    900 s or 7 days for access tokens and 7 or 30 days for refresh tokens,
    and setAuthCookies gives each cookie the life time of that profile in
    milliseconds. *)
Theorem lifetimes_by_profile (env : Env) (now : Z) (userId : nat) (remember : bool)
    (fingerprint : option string) (config : Cookie.Options) :
  (forall a, generateAccessToken env now userId remember = Ok a ->
             lifetime a = Some (access_ttl remember)) /\
  (forall r, generateRefreshToken env now userId remember = Ok r ->
             lifetime r = Some (refresh_ttl remember)) /\
  (forall issued, generateTokens env now userId remember = Ok issued ->
                  lifetime (accessToken issued) = Some (access_ttl remember)
                  /\ lifetime (refreshToken issued) = Some (refresh_ttl remember)) /\
  (forall issued, generateSecureTokens env now userId remember fingerprint = Ok issued ->
                  lifetime (accessToken issued) = Some (access_ttl remember)
                  /\ lifetime (refreshToken issued) = Some (refresh_ttl remember)) /\
  (forall tokens,
      Cookie.maxAge_of "accessToken" (Cookie.setAuthCookies config tokens remember)
      = Some (1000 * access_ttl remember)
      /\ Cookie.maxAge_of "refreshToken" (Cookie.setAuthCookies config tokens remember)
         = Some (1000 * refresh_ttl remember)
      /\ Cookie.maxAge_of "rememberMe" (Cookie.setAuthCookies config tokens remember)
         = Some (1000 * refresh_ttl remember)).
Proof.
  assert (Hlife : forall p ty ttl k,
             lifetime (Jwt.Jws (stamped env p ty now ttl) k) = Some ttl).
  { intros. unfold lifetime. simpl. f_equal. lia. }
  assert (Hlife' : forall p ty f ttl k,
             lifetime (Jwt.Jws (unstamped p ty f now ttl) k) = Some ttl).
  { intros. unfold lifetime. simpl. f_equal. lia. }
  split; [|split; [|split; [|split]]].
  - intros a H. apply generateAccessToken_inv in H as (c & s & _ & ->). apply Hlife.
  - intros r H. apply generateRefreshToken_inv in H as (c & s & _ & ->). apply Hlife.
  - intros issued H. apply generateTokens_inv in H as (c & s & c' & s' & _ & _ & ->).
    simpl. split; apply Hlife.
  - intros issued H.
    apply generateSecureTokens_inv in H as (c & s & c' & s' & _ & _ & ->).
    simpl. split; apply Hlife'.
  - intros tokens. destruct remember; repeat split; reflexivity.
Qed.

Lemma verify_expired (p : Jwt.Payload) (k : string) (o : Jwt.VerifyOptions) (e t : Z)
    (c : ascii) (s : string) :
  k = String c s -> Jwt.nbf p = None -> Jwt.exp p = Some e -> e <= t / 1000 ->
  Jwt.verify (Jwt.Jws p k) (Some k) o t = Throw Jwt.TokenExpiredError.
Proof.
  intros -> Hn He Hle. unfold Jwt.verify. rewrite String.eqb_refl, Hn, He. cbn [negb].
  destruct (Z.leb e (t / 1000)) eqn:E; [reflexivity|].
  apply Z.leb_gt in E. lia.
Qed.

Lemma auth_stamped_access (env : Env) (now t : Z) (rs : RedisState)
    (db : list UserDoc.User) (user : UserDoc.User) (remember : bool) (c0 : ascii)
    (s : string) (c : option Cookies) :
  JWT_SECRET env = Some (String c0 s) ->
  UserDoc.findById db (Some (UserDoc._id user)) = Some user ->
  isTokenBlacklisted rs (Jwt.Jws (stamped env (UserDoc._id user) "access" now
                                          (access_ttl remember)) (String c0 s))
  = Ok false ->
  auth env t rs db
       (bearing (Jwt.Jws (stamped env (UserDoc._id user) "access" now
                                  (access_ttl remember)) (String c0 s)) c)
  = if Z.ltb (t / 1000) (now / 1000 + access_ttl remember)
    then (if UserDoc.isSuspended user then Reply suspended_reply
          else Next (UserDoc.select_safe user)
                    (Jwt.Jws (stamped env (UserDoc._id user) "access" now
                                      (access_ttl remember)) (String c0 s)))
    else Reply expired_reply.
Proof.
  intros Hs Hfind Hlist.
  rewrite (auth_not_listed env t rs db
             (bearing (Jwt.Jws (stamped env (UserDoc._id user) "access" now
                                        (access_ttl remember)) (String c0 s)) c)
             _ eq_refl eq_refl Hlist).
  unfold verifyToken. rewrite Hs. cbn [truthy negb].
  destruct (Z.ltb (t / 1000) (now / 1000 + access_ttl remember)) eqn:E.
  - apply Z.ltb_lt in E. rewrite verify_stamped by exact E.
    cbn [stamped Jwt.type Jwt.id]. rewrite bool_decide_eq_true_2 by reflexivity.
    cbn [negb]. rewrite Hfind. reflexivity.
  - apply Z.ltb_ge in E.
    rewrite (verify_expired _ _ _ (now / 1000 + access_ttl remember) t c0 s)
      by (auto; reflexivity).
    reflexivity.
Qed.

(** The gate honours a token of generateAccessToken for exactly its life
    time: up to the expiry second the holder is let through, or refused
    with 403 ACCOUNT_SUSPENDED when suspended; from the expiry second on
    the answer is 401 TOKEN_EXPIRED. *)
Theorem minted_token_at_the_gate (env : Env) (now t : Z) (rs : RedisState)
    (db : list UserDoc.User) (user : UserDoc.User) (remember : bool) (token : Jwt.Wire)
    (c : option Cookies) :
  generateAccessToken env now (UserDoc._id user) remember = Ok token ->
  UserDoc.findById db (Some (UserDoc._id user)) = Some user ->
  isTokenBlacklisted rs token = Ok false ->
  auth env t rs db (bearing token c)
  = if Z.ltb (t / 1000) (now / 1000 + access_ttl remember)
    then (if UserDoc.isSuspended user then Reply suspended_reply
          else Next (UserDoc.select_safe user) token)
    else Reply expired_reply.
Proof.
  intros Hmint Hfind Hlist.
  apply generateAccessToken_inv in Hmint as (c0 & s & Hs & ->).
  apply auth_stamped_access; assumption.
Qed.

(** ** Fingerprint-bound tokens *)

Lemma verify_unstamped (userId : nat) (ty : string) (f : option string) (now ttl t : Z)
    (c : ascii) (s : string) :
  t / 1000 < now / 1000 + ttl ->
  Jwt.verify (Jwt.Jws (unstamped userId ty f now ttl) (String c s)) (Some (String c s))
             {| Jwt.v_issuer := None; Jwt.v_audience := None |} t
  = Ok (unstamped userId ty f now ttl).
Proof.
  intros Ht. unfold Jwt.verify. rewrite String.eqb_refl. cbn.
  destruct (Z.leb (now / 1000 + ttl) (t / 1000)) eqn:E; [|reflexivity].
  apply Z.leb_le in E. lia.
Qed.

(** A pair minted by generateSecureTokens verifies with
    verifyTokenWithFingerprint under the fingerprint it was minted for,
    each token under its own secret and until its own expiry, and is
    refused under any other fingerprint. *)
Theorem secure_tokens_roundtrip (env : Env) (now t : Z) (userId : nat) (remember : bool)
    (fingerprint other : option string) (issued : TokenPair) :
  generateSecureTokens env now userId remember fingerprint = Ok issued ->
  (t / 1000 < now / 1000 + access_ttl remember ->
   exists decoded,
     verifyTokenWithFingerprint env t (accessToken issued) fingerprint false = Ok decoded
     /\ Jwt.id decoded = Some userId /\ Jwt.type decoded = Some "access"
     /\ Jwt.fp decoded = fingerprint) /\
  (t / 1000 < now / 1000 + refresh_ttl remember ->
   exists decoded,
     verifyTokenWithFingerprint env t (refreshToken issued) fingerprint true = Ok decoded
     /\ Jwt.id decoded = Some userId /\ Jwt.type decoded = Some "refresh"
     /\ Jwt.fp decoded = fingerprint) /\
  (other <> fingerprint ->
   t / 1000 < now / 1000 + access_ttl remember ->
   verifyTokenWithFingerprint env t (accessToken issued) other false
   = Throw (mkError "Error" "Token fingerprint mismatch")).
Proof.
  intros H. apply generateSecureTokens_inv in H as (c & s & c' & s' & Hs & Hs' & ->).
  cbn [accessToken refreshToken].
  split; [|split].
  - intros Ht. eexists. unfold verifyTokenWithFingerprint. rewrite Hs.
    rewrite verify_unstamped by exact Ht. cbn [bind unstamped Jwt.fp].
    rewrite bool_decide_eq_true_2 by reflexivity. cbn [negb].
    split; [reflexivity|]. repeat split; reflexivity.
  - intros Ht. eexists. unfold verifyTokenWithFingerprint. rewrite Hs'.
    rewrite verify_unstamped by exact Ht. cbn [bind unstamped Jwt.fp].
    rewrite bool_decide_eq_true_2 by reflexivity. cbn [negb].
    split; [reflexivity|]. repeat split; reflexivity.
  - intros Hne Ht. unfold verifyTokenWithFingerprint. rewrite Hs.
    rewrite verify_unstamped by exact Ht. cbn [bind unstamped Jwt.fp].
    rewrite bool_decide_eq_false_2 by congruence. reflexivity.
Qed.

Lemma verifyToken_no_audience (env : Env) (t : Z) (p : Jwt.Payload) (k : string)
    (isRefresh : bool) :
  Jwt.aud p = None -> exists e, verifyToken env t (Jwt.Jws p k) isRefresh = Throw e.
Proof.
  intros Haud. unfold verifyToken.
  destruct (negb (truthy (if isRefresh then JWT_REFRESH_SECRET env else JWT_SECRET env)));
    [eauto|].
  unfold Jwt.verify.
  destruct (if isRefresh then JWT_REFRESH_SECRET env else JWT_SECRET env) as [[|c s]|];
    eauto.
  destruct (negb (String.eqb k (String c s))); [eauto|].
  destruct (match Jwt.nbf p with Some n => Z.ltb (t / 1000) n | None => false end);
    [eauto|].
  destruct (match Jwt.exp p with Some e => Z.leb e (t / 1000) | None => false end);
    [eauto|].
  cbn [Jwt.v_audience]. destruct (config_audience_nonempty env) as (ca & sa & Ha).
  rewrite Ha, Haud. cbn [negb]. eauto.
Qed.

(** The session the login of routes/auth-enhanced.js hands out is refused
    by middleware/auth.js and routes/auth.js: at no time does the gate let
    its access token through, refreshTokens throws on its refresh token,
    and the refresh endpoint of routes/auth.js answers its refresh token
    with a 401, mints nothing and leaves the collection unchanged. *)
Theorem enhanced_session_is_refused (env : Env) (now : Z) (db db' : list UserDoc.User)
    (req : Request) (body : LoginBody) (r : Response) :
  login_enhanced env now db req body = (r, db') -> status r = 200 ->
  exists tokens remember,
    cookie_effect r = SetAuthCookies tokens remember /\
    (forall t rs db2 c user tok,
        auth env t rs db2 (bearing (accessToken tokens) c) <> Next user tok) /\
    (forall t db2 remember',
        exists e,
          refreshTokens env t db2 (Some (refreshToken tokens)) remember' = Throw e) /\
    (forall t db2 remember',
        status (fst (refresh env t db2
                             (mkRefreshBody (Some (refreshToken tokens)) remember'))) = 401
        /\ mints (fst (refresh env t db2
                               (mkRefreshBody (Some (refreshToken tokens)) remember')))
           = false
        /\ snd (refresh env t db2 (mkRefreshBody (Some (refreshToken tokens)) remember'))
           = db2).
Proof.
  unfold login_enhanced.
  destruct (l_email body) as [[|c e]|];
    try (intros H Hs; inversion H; subst; discriminate Hs).
  destruct (l_password body) as [[|c' p]|];
    try (intros H Hs; inversion H; subst; discriminate Hs).
  destruct (UserDoc.findOneByEmail db (toLowerCase (String c e))) as [user|];
    [|intros H Hs; inversion H; subst; discriminate Hs].
  destruct (negb (comparePassword user (String c' p)));
    [intros H Hs; inversion H; subst; discriminate Hs|].
  destruct (UserDoc.isSuspended user);
    [intros H Hs; inversion H; subst; discriminate Hs|].
  destruct (generateSecureTokens env now (UserDoc._id user)
              (default_false (l_remember body))
              (Some (generateRequestFingerprint req))) as [tokens|err] eqn:Hgen;
    [|intros H Hs; inversion H; subst; discriminate Hs].
  intros H _. inversion H; subst r db'. clear H.
  exists tokens, (default_false (l_remember body)). split; [reflexivity|].
  apply generateSecureTokens_inv in Hgen as (c0 & s0 & c1 & s1 & _ & Hs' & ->).
  cbn [accessToken refreshToken].
  assert (Hrefresh : forall t, exists err,
             Jwt.verify (Jwt.Jws (unstamped (UserDoc._id user) "refresh"
                                            (Some (generateRequestFingerprint req)) now
                                            (refresh_ttl (default_false (l_remember body))))
                                 (String c1 s1))
                        (JWT_REFRESH_SECRET env)
                        {| Jwt.v_issuer := Some (config_issuer env);
                           Jwt.v_audience := Some (config_audience env) |} t
             = Throw err).
  { intros t.
    destruct (verifyToken_no_audience env t
                (unstamped (UserDoc._id user) "refresh"
                           (Some (generateRequestFingerprint req)) now
                           (refresh_ttl (default_false (l_remember body))))
                (String c1 s1) true eq_refl) as [err He].
    exists err. unfold verifyToken in He. rewrite Hs' in He. cbn [truthy negb] in He.
    rewrite Hs'. exact He. }
  split; [|split].
  - intros t rs db2 ck u tok Hacc.
    apply auth_Next_inv in Hacc as (Hx & _ & _ & decoded & stored & Hv & _).
    unfold bearing, extract_token in Hx. simpl in Hx. inversion Hx; subst tok.
    destruct (verifyToken_no_audience env t
                (unstamped (UserDoc._id user) "access"
                           (Some (generateRequestFingerprint req)) now
                           (access_ttl (default_false (l_remember body))))
                (String c0 s0) false eq_refl) as [err He].
    rewrite He in Hv. discriminate Hv.
  - intros t db2 remember'. unfold refreshTokens. cbn [Jwt.falsy].
    destruct (verifyToken_no_audience env t
                (unstamped (UserDoc._id user) "refresh"
                           (Some (generateRequestFingerprint req)) now
                           (refresh_ttl (default_false (l_remember body))))
                (String c1 s1) true eq_refl) as [err He].
    rewrite He. eexists. reflexivity.
  - intros t db2 remember'. unfold refresh. cbn [r_refreshToken r_remember Jwt.falsy].
    destruct (Hrefresh t) as [err He]. rewrite He.
    destruct (String.eqb (err_name err) "TokenExpiredError"); repeat split; reflexivity.
Qed.

(** ** Logout and revocation *)

Lemma findById_unset (db : list UserDoc.User) (i : nat) (x : option nat) :
  UserDoc.findById (UserDoc.unsetRefreshToken db i) x
  = match UserDoc.findById db x with
    | Some u => Some (if Nat.eqb (UserDoc._id u) i then UserDoc.set_refreshToken u None
                      else u)
    | None => None
    end.
Proof.
  unfold UserDoc.findById, UserDoc.unsetRefreshToken. destruct x as [n|]; [|reflexivity].
  induction db as [|v db IH]; [reflexivity|]. simpl.
  destruct (Nat.eqb (UserDoc._id v) i) eqn:Ei; simpl;
    destruct (Nat.eqb (UserDoc._id v) n) eqn:En; try rewrite Ei; auto.
Qed.

(** The gate does not read the stored refresh token. *)
Lemma auth_after_unset (env : Env) (t : Z) (rs : RedisState) (db : list UserDoc.User)
    (i : nat) (req : Request) :
  auth env t rs (UserDoc.unsetRefreshToken db i) req = auth env t rs db req.
Proof.
  unfold auth.
  destruct (extract_token req) as [tok|]; [|reflexivity].
  destruct (Jwt.falsy (Some tok)); [reflexivity|].
  destruct (match isTokenBlacklisted rs tok with Ok b => b | Throw _ => false end);
    [reflexivity|].
  destruct (verifyToken env t tok false) as [decoded|e]; [|reflexivity].
  destruct (negb (bool_decide (Jwt.type decoded = Some "access"))); [reflexivity|].
  rewrite findById_unset.
  destruct (UserDoc.findById db (Jwt.id decoded)) as [u|]; [|reflexivity].
  destruct (Nat.eqb (UserDoc._id u) i); reflexivity.
Qed.

Lemma refreshTokens_other_string (env : Env) (now : Z) (db : list UserDoc.User)
    (presented : Jwt.Wire) (user : UserDoc.User) (remember : bool) :
  UserDoc.findById db (Some (UserDoc._id user)) = Some user ->
  UserDoc.refreshToken user <> Some presented ->
  (forall p k, presented = Jwt.Jws p k -> Jwt.id p = Some (UserDoc._id user)) ->
  exists e, refreshTokens env now db (Some presented) remember = Throw e.
Proof.
  intros Hf Hne Hsub. unfold refreshTokens.
  destruct (Jwt.falsy (Some presented)); [eauto|].
  destruct (verifyToken env now presented true) as [decoded|err] eqn:Hv; [|simpl; eauto].
  cbn [bind].
  destruct (negb (bool_decide (Jwt.type decoded = Some "refresh"))); [eauto|].
  destruct presented as [text|p k]; [exfalso; eapply verifyToken_Malformed; eauto|].
  unfold verifyToken in Hv.
  destruct (negb (truthy (JWT_REFRESH_SECRET env))); [discriminate|].
  apply verify_payload in Hv. subst decoded.
  rewrite (Hsub p k eq_refl), Hf.
  rewrite (bool_decide_eq_false_2 _ Hne). cbn [negb]. eauto.
Qed.

(** After logout (the helper of middleware/auth.js, which the logout
    route of routes/auth.js amounts to on the collection) the user has no
    stored refresh
    token, and no string presented for that user obtains tokens again, from
    the refresh endpoint or from refreshTokens, until a new login. *)
Theorem logout_ends_refresh (env : Env) (now t : Z) (rs : RedisState)
    (db : list UserDoc.User) (access held : option Jwt.Wire) (user : UserDoc.User)
    (presented : Jwt.Wire) (remember : option bool) (remember' : bool) :
  UserDoc.findById db (Some (UserDoc._id user)) = Some user ->
  (forall p k, presented = Jwt.Jws p k -> Jwt.id p = Some (UserDoc._id user)) ->
  (exists user',
      UserDoc.findById (snd (logout rs now db access held (Some (UserDoc._id user))))
                       (Some (UserDoc._id user)) = Some user'
      /\ UserDoc.refreshToken user' = None) /\
  mints (fst (refresh env t (snd (logout rs now db access held (Some (UserDoc._id user))))
                      (mkRefreshBody (Some presented) remember))) = false /\
  snd (refresh env t (snd (logout rs now db access held (Some (UserDoc._id user))))
               (mkRefreshBody (Some presented) remember))
  = snd (logout rs now db access held (Some (UserDoc._id user))) /\
  (exists e,
      refreshTokens env t (snd (logout rs now db access held (Some (UserDoc._id user))))
                    (Some presented) remember' = Throw e).
Proof.
  intros Hf Hsub. cbn [logout snd].
  assert (Hf' : UserDoc.findById (UserDoc.unsetRefreshToken db (UserDoc._id user))
                                 (Some (UserDoc._id user))
                = Some (UserDoc.set_refreshToken user None)).
  { rewrite findById_unset, Hf, Nat.eqb_refl. reflexivity. }
  split; [eexists; split; [exact Hf'|reflexivity]|].
  destruct (refresh_other_string env t _ presented (UserDoc.set_refreshToken user None)
              remember Hf') as [Hm Hdb]; [discriminate|exact Hsub|].
  split; [exact Hm|]. split; [exact Hdb|].
  apply (refreshTokens_other_string env t _ presented (UserDoc.set_refreshToken user None));
    [exact Hf'|discriminate|exact Hsub].
Qed.

(** The logout route of routes/auth.js does to the collection what the
    helper does for the authenticated user. *)
Lemma logout_route_unsets (env : Env) (now : Z) (rs : RedisState) (db : list UserDoc.User)
    (req : Request) (user : UserDoc.User) (token : Jwt.Wire) :
  auth env now rs db req = Next user token ->
  logout_route env now rs db req
  = (Done 200 "Logged out successfully",
     snd (logout rs now db None None (Some (UserDoc._id user)))).
Proof. intros H. unfold logout_route. rewrite H. reflexivity. Qed.

Lemma blacklist_key_inj (a b : Jwt.Wire) :
  blacklist_key a = blacklist_key b -> hashToken a = hashToken b.
Proof. unfold blacklist_key. intros H. cbv [String.append] in H. congruence. Qed.

(** addToBlacklist issues a SET command exactly when the store is
    reachable and the token is not past its expiry.  The command is keyed
    by jwt-blacklist: and the token's hash and has a positive life time:
    five minutes only for a token that carries no expiry (text that is no
    token, no exp, or exp 0), and otherwise the whole seconds left to its
    expiry; for a token at or past its expiry, and with the store
    unreachable, no command is issued. *)
Theorem blacklist_command (rs : RedisState) (now : Z) (token : Jwt.Wire) :
  (forall key px,
      addToBlacklist rs now token = Some (key, px) ->
      redisAvailable rs = true /\ is_Some (redis rs) /\
      key = "jwt-blacklist:" +:+ hashToken token /\ 0 < px /\
      ((px = 300000
        /\ forall p k, token = Jwt.Jws p k -> Jwt.exp p = None \/ Jwt.exp p = Some 0)
       \/
       exists p k e, token = Jwt.Jws p k /\ Jwt.exp p = Some e /\ e <> 0
                     /\ now / 1000 < e /\ px = (e - now / 1000) * 1000)) /\
  (forall p k e,
      token = Jwt.Jws p k -> Jwt.exp p = Some e -> e <> 0 -> e <= now / 1000 ->
      addToBlacklist rs now token = None) /\
  (redisAvailable rs = false \/ redis rs = None -> addToBlacklist rs now token = None) /\
  (redisAvailable rs = true -> is_Some (redis rs) ->
   (forall p k e, token = Jwt.Jws p k -> Jwt.exp p = Some e -> e <> 0 -> now / 1000 < e) ->
   exists px, addToBlacklist rs now token = Some (blacklist_key token, px)).
Proof.
  unfold addToBlacklist, blacklist_key.
  split; [|split; [|split]].
  - intros key px.
    destruct (redisAvailable rs); [|discriminate].
    destruct (redis rs) as [client|]; [|discriminate].
    destruct token as [text|p k]; simpl.
    + intros H. inversion H. repeat split; eauto; try lia.
      left. split; [reflexivity|]. intros p k Hp. discriminate Hp.
    + destruct (Jwt.exp p) as [e|] eqn:He.
      * destruct (Z.eqb e 0) eqn:E0.
        -- apply Z.eqb_eq in E0. subst e.
           intros H. inversion H. repeat split; eauto; try lia.
           left. split; [reflexivity|]. intros p0 k0 Hp. inversion Hp; subst. auto.
        -- apply Z.eqb_neq in E0.
           destruct (Z.ltb 0 ((e - now / 1000) * 1000)) eqn:E; [|discriminate].
           apply Z.ltb_lt in E. intros H. inversion H; subst.
           repeat split; eauto; try lia.
           right. exists p, k, e. repeat split; auto; lia.
      * intros H. inversion H. repeat split; eauto; try lia.
        left. split; [reflexivity|]. intros p0 k0 Hp. inversion Hp; subst. auto.
  - intros p k e -> He Hne Hle.
    destruct (redisAvailable rs); [|reflexivity].
    destruct (redis rs) as [client|]; [|reflexivity].
    cbn [Jwt.decode]. rewrite He.
    destruct (Z.eqb e 0) eqn:E0; [apply Z.eqb_eq in E0; contradiction|].
    destruct (Z.ltb 0 ((e - now / 1000) * 1000)) eqn:E; [|reflexivity].
    apply Z.ltb_lt in E. lia.
  - intros [H|H]; rewrite H; [reflexivity|]. destruct (redisAvailable rs); reflexivity.
  - intros Hup [client Hc] Hlive. rewrite Hup, Hc.
    destruct token as [text|p k]; cbn [Jwt.decode]; [eauto|].
    destruct (Jwt.exp p) as [e|] eqn:He; [|eauto].
    destruct (Z.eqb e 0) eqn:E0; [eauto|].
    apply Z.eqb_neq in E0. pose proof (Hlive p k e eq_refl He E0) as Hlt.
    destruct (Z.ltb 0 ((e - now / 1000) * 1000)) eqn:E; [eauto|].
    apply Z.ltb_ge in E. lia.
Qed.

(** Logging out with a reachable store revokes the access token for as
    long as it would still verify: until its expiry the store lists it and
    the gate answers 401 TOKEN_INVALIDATED, while tokens with another hash
    are listed or not as before. *)
Theorem logout_revokes_access (env : Env) (now t e : Z) (store : gmap string Z)
    (db : list UserDoc.User) (p : Jwt.Payload) (k : string) (held : option Jwt.Wire)
    (userId : option nat) :
  Jwt.exp p = Some e -> 0 <= now -> now / 1000 < e -> now <= t < e * 1000 ->
  isTokenBlacklisted
    (Redis.connected
       (Redis.apply store now
          (fst (logout (Redis.connected store now) now db (Some (Jwt.Jws p k)) held userId)))
       t)
    (Jwt.Jws p k) = Ok true /\
  (forall req,
      extract_token req = Some (Jwt.Jws p k) ->
      auth env t
           (Redis.connected
              (Redis.apply store now
                 (fst (logout (Redis.connected store now) now db (Some (Jwt.Jws p k)) held
                              userId)))
              t)
           (snd (logout (Redis.connected store now) now db (Some (Jwt.Jws p k)) held userId))
           req
      = Reply invalidated_reply) /\
  (forall other,
      hashToken other <> hashToken (Jwt.Jws p k) ->
      isTokenBlacklisted
        (Redis.connected
           (Redis.apply store now
              (fst (logout (Redis.connected store now) now db (Some (Jwt.Jws p k)) held
                           userId)))
           t)
        other
      = isTokenBlacklisted (Redis.connected store t) other).
Proof.
  intros He Hnow Hlt Ht.
  destruct (addToBlacklist_window (Redis.connected store now) (Redis.client store now)
              now e p k eq_refl eq_refl Hnow He Hlt) as (px & Hcmd & Hpx).
  cbn [logout fst snd Jwt.falsy]. rewrite Hcmd. cbn [Redis.apply].
  assert (Hlisted : isTokenBlacklisted
                      (Redis.connected (<[blacklist_key (Jwt.Jws p k) := now + px]> store) t)
                      (Jwt.Jws p k) = Ok true).
  { unfold isTokenBlacklisted, Redis.connected, Redis.client. simpl.
    rewrite lookup_insert_eq.
    destruct (Z.ltb t (now + px)) eqn:E; [reflexivity|].
    apply Z.ltb_ge in E. lia. }
  split; [exact Hlisted|]. split.
  - intros req Hx. unfold auth. rewrite Hx. cbn [Jwt.falsy]. rewrite Hlisted. reflexivity.
  - intros other Hne. unfold isTokenBlacklisted, Redis.connected, Redis.client. simpl.
    rewrite lookup_insert_ne; [reflexivity|].
    intros Heq. apply Hne. symmetry. apply blacklist_key_inj. exact Heq.
Qed.

(** Logging out while the store is unreachable revokes nothing: no command
    is issued and the gate answers every request as it did before the
    logout, so the access token keeps working until it expires. *)
Theorem logout_without_store (env : Env) (now t : Z) (rs : RedisState)
    (db : list UserDoc.User) (access held : option Jwt.Wire) (userId : option nat)
    (req : Request) :
  redisAvailable rs = false \/ redis rs = None ->
  fst (logout rs now db access held userId) = None /\
  auth env t rs (snd (logout rs now db access held userId)) req = auth env t rs db req.
Proof.
  intros Hdown. cbn [logout fst snd]. split.
  - destruct access as [a|]; [|reflexivity].
    destruct (Jwt.falsy (Some a)); [reflexivity|].
    unfold addToBlacklist. destruct Hdown as [H|H]; rewrite H; [reflexivity|].
    destruct (redisAvailable rs); reflexivity.
  - destruct userId as [i|]; [apply auth_after_unset|reflexivity].
Qed.

(** ** In-memory blacklist: sweeps *)

(** A sweep keeps exactly the entries that have not expired, never grows
    the table, and changes the answer of no lookup made at or after it. *)
Theorem sweep_is_transparent (tokens : gmap string Z) (now t : Z) (token : Jwt.Wire) :
  now <= t ->
  snd (mb_has t (mb_cleanup now tokens) token) = snd (mb_has t tokens token) /\
  (forall h x, mb_cleanup now tokens !! h = Some x <-> tokens !! h = Some x /\ now <= x) /\
  (mb_size (mb_cleanup now tokens) <= mb_size tokens)%nat.
Proof.
  intros Hle.
  assert (Hiff : forall h x, mb_cleanup now tokens !! h = Some x
                             <-> tokens !! h = Some x /\ now <= x).
  { intros h x. unfold mb_cleanup. rewrite map_lookup_filter_Some. simpl.
    destruct (Z.ltb x now) eqn:E; simpl.
    - apply Z.ltb_lt in E. split; [intros [_ H]; discriminate|intros [_ H]; lia].
    - apply Z.ltb_ge in E. split; [intros [H _]; auto|intros [H _]; auto]. }
  split; [|split; [exact Hiff|]].
  - unfold mb_has.
    destruct (tokens !! hashToken token) as [x|] eqn:Hx.
    + destruct (Z.ltb x now) eqn:E.
      * apply Z.ltb_lt in E.
        assert (Hnone : mb_cleanup now tokens !! hashToken token = None).
        { destruct (mb_cleanup now tokens !! hashToken token) as [y|] eqn:Hy;
            [|reflexivity].
          apply Hiff in Hy as [Hy Hy']. rewrite Hx in Hy. inversion Hy; subst. lia. }
        rewrite Hnone. simpl.
        destruct (Z.eqb x 0); [reflexivity|].
        destruct (Z.ltb x t) eqn:E'; [reflexivity|]. apply Z.ltb_ge in E'. lia.
      * apply Z.ltb_ge in E.
        rewrite (proj2 (Hiff _ x) (conj Hx E)).
        destruct (Z.eqb x 0); [reflexivity|]. destruct (Z.ltb x t); reflexivity.
    + destruct (mb_cleanup now tokens !! hashToken token) as [y|] eqn:Hy; [|reflexivity].
      apply Hiff in Hy as [Hy _]. rewrite Hx in Hy. discriminate Hy.
  - unfold mb_size, mb_cleanup. apply map_subseteq_size, map_filter_subseteq.
Qed.

(** ** Sessions: login, refresh, password reset *)

Lemma findById_unique (db : list UserDoc.User) (u : UserDoc.User) :
  NoDup (List.map UserDoc._id db) -> In u db ->
  UserDoc.findById db (Some (UserDoc._id u)) = Some u.
Proof.
  unfold UserDoc.findById. induction db as [|v db IH]; intros Hnd Hin; [destruct Hin|].
  simpl in Hnd. inversion Hnd as [|? ? Hnotin Hnd']; subst. simpl.
  destruct Hin as [->|Hin]; [rewrite Nat.eqb_refl; reflexivity|].
  destruct (Nat.eqb (UserDoc._id v) (UserDoc._id u)) eqn:E; [|apply IH; assumption].
  apply Nat.eqb_eq in E. exfalso. apply Hnotin. rewrite E.
  apply list_elem_of_In, in_map. exact Hin.
Qed.

Lemma findOneByEmail_In (db : list UserDoc.User) (e : string) (u : UserDoc.User) :
  UserDoc.findOneByEmail db e = Some u -> In u db /\ UserDoc.email u = e.
Proof.
  unfold UserDoc.findOneByEmail. intros H. apply find_some in H as [H1 H2].
  apply String.eqb_eq in H2. auto.
Qed.

(** What a 200 from the login of routes/auth.js tells. *)
Lemma login_ok_inv (env : Env) (now : Z) (db db' : list UserDoc.User) (body : LoginBody)
    (r : Response) :
  login env now db body = (r, db') -> status r = 200 ->
  exists e p user issued,
    l_email body = Some e /\ l_password body = Some p /\
    UserDoc.findOneByEmail db (toLowerCase e) = Some user /\
    UserDoc.isVerified user = true /\
    correctPassword p (UserDoc.password user) = true /\
    generateTokens env now (UserDoc._id user) (default_false (l_remember body)) = Ok issued /\
    json r = JSession None
               (buildSafeUser (UserDoc.touch_login
                                 (UserDoc.set_refreshToken user (Some (refreshToken issued)))
                                 now))
               issued (access_span (default_false (l_remember body))) None /\
    db' = UserDoc.save db
            (UserDoc.touch_login
               (UserDoc.set_refreshToken user (Some (refreshToken issued))) now).
Proof.
  unfold login.
  destruct (l_email body) as [[|c e]|];
    try (intros H Hs; inversion H; subst; discriminate Hs).
  destruct (l_password body) as [[|c' p]|];
    try (intros H Hs; inversion H; subst; discriminate Hs).
  destruct (UserDoc.findOneByEmail db (toLowerCase (String c e))) as [user|] eqn:Hf;
    [|intros H Hs; inversion H; subst; discriminate Hs].
  destruct (UserDoc.isVerified user) eqn:Hv; cbn [negb];
    [|intros H Hs; inversion H; subst; discriminate Hs].
  destruct (correctPassword (String c' p) (UserDoc.password user)) eqn:Hp; cbn [negb];
    [|intros H Hs; inversion H; subst; discriminate Hs].
  destruct (generateTokens env now (UserDoc._id user) (default_false (l_remember body)))
    as [issued|err] eqn:Hgen;
    [|intros H Hs; inversion H; subst; discriminate Hs].
  intros H _. inversion H; subst.
  exists (String c e), (String c' p), user, issued. repeat split; auto.
Qed.

(** A successful login of routes/auth.js opens a usable session: the
    issued refresh token becomes the user's stored one and the login is
    counted; until the access token expires the gate lets its bearer
    through as that user, and until the refresh token expires the refresh
    endpoint accepts it (a suspended user is signed in alike, but is then
    refused 403 by both). *)
Theorem login_opens_session (env : Env) (now : Z) (db db' : list UserDoc.User)
    (body : LoginBody) (r : Response) :
  NoDup (List.map UserDoc._id db) ->
  login env now db body = (r, db') -> status r = 200 ->
  exists user issued,
    In user db /\
    (exists view message,
        json r = JSession message view issued
                          (access_span (default_false (l_remember body))) None
        /\ s_id view = UserDoc._id user) /\
    (exists user',
        UserDoc.findById db' (Some (UserDoc._id user)) = Some user'
        /\ UserDoc.refreshToken user' = Some (refreshToken issued)
        /\ UserDoc.lastLogin user' = Some now
        /\ UserDoc.loginCount user'
           = Some (match UserDoc.loginCount user with Some n => n | None => 0 end + 1)) /\
    (forall t rs c,
        isTokenBlacklisted rs (accessToken issued) = Ok false ->
        t / 1000 < now / 1000 + access_ttl (default_false (l_remember body)) ->
        auth env t rs db' (bearing (accessToken issued) c)
        = if UserDoc.isSuspended user then Reply suspended_reply
          else Next (UserDoc.select_safe
                       (UserDoc.touch_login
                          (UserDoc.set_refreshToken user (Some (refreshToken issued))) now))
                    (accessToken issued)) /\
    (forall t remember',
        t / 1000 < now / 1000 + refresh_ttl (default_false (l_remember body)) ->
        status (fst (refresh env t db'
                             (mkRefreshBody (Some (refreshToken issued)) remember')))
        = if UserDoc.isSuspended user then 403 else 200).
Proof.
  intros Hnd Hrun Hst.
  destruct (login_ok_inv env now db db' body r Hrun Hst)
    as (e & p & user & issued & _ & _ & Hfind & _ & _ & Hgen & Hjson & Hdb).
  apply findOneByEmail_In in Hfind as [Hin _].
  pose proof (findById_unique db user Hnd Hin) as Hid.
  set (user' := UserDoc.touch_login
                  (UserDoc.set_refreshToken user (Some (refreshToken issued))) now) in *.
  assert (Hid' : UserDoc.findById db' (Some (UserDoc._id user)) = Some user').
  { rewrite Hdb. apply (findById_save db (UserDoc._id user) user user' Hid). reflexivity. }
  exists user, issued. split; [exact Hin|].
  split; [eexists; eexists; split; [exact Hjson|reflexivity]|].
  split; [exists user'; repeat split; auto|].
  pose proof Hgen as Hgen'.
  apply generateTokens_inv in Hgen' as (c0 & s0 & c1 & s1 & Hs & Hs' & Hissued).
  split.
  - intros t rs c Hlist Ht.
    rewrite Hissued in Hlist |- *. cbn [accessToken] in Hlist |- *.
    change (UserDoc._id user) with (UserDoc._id user') in Hlist |- * at 1.
    rewrite (auth_stamped_access env now t rs db' user' _ c0 s0 c Hs Hid' Hlist).
    apply Z.ltb_lt in Ht. rewrite Ht. reflexivity.
  - intros t remember' Ht.
    unfold refresh. rewrite Hissued. cbn [r_refreshToken r_remember refreshToken Jwt.falsy].
    rewrite Hs'. rewrite verify_stamped by exact Ht.
    cbn [stamped Jwt.type Jwt.id]. rewrite bool_decide_eq_true_2 by reflexivity.
    cbn [negb]. rewrite Hid'.
    assert (Hstored : UserDoc.refreshToken user'
                      = Some (Jwt.Jws (stamped env (UserDoc._id user) "refresh" now
                                         (refresh_ttl (default_false (l_remember body))))
                                      (String c1 s1))).
    { unfold user'. rewrite Hissued. reflexivity. }
    rewrite Hstored. cbn [Jwt.falsy orb]. rewrite bool_decide_eq_true_2 by reflexivity.
    cbn [negb]. change (UserDoc.isSuspended user') with (UserDoc.isSuspended user).
    destruct (UserDoc.isSuspended user); [reflexivity|].
    change (UserDoc._id user') with (UserDoc._id user).
    rewrite (generateTokens_ok env t (UserDoc._id user) (default_false remember')
               c0 c1 s0 s1 Hs Hs').
    reflexivity.
Qed.

(** The refresh endpoint of routes/auth.js and the helper refreshTokens
    succeed on the same inputs, with the same pair and the same collection
    afterwards, whenever both secrets are configured. *)
Theorem refresh_paths_agree (env : Env) (now : Z) (db db' : list UserDoc.User)
    (tok : Jwt.Wire) (remember : bool) (issued : TokenPair) :
  env_ready env = true ->
  (refreshTokens env now db (Some tok) remember = Ok (issued, db') <->
   refresh env now db (mkRefreshBody (Some tok) (Some remember))
   = ({| status := 200;
         json := JRefreshed (accessToken issued) (refreshToken issued)
                            (access_span remember);
         cookie_effect := NoCookies |}, db')).
Proof.
  intros Hready. unfold env_ready in Hready. apply andb_true_iff in Hready as [Ha Hr].
  destruct (truthy_Some _ Ha) as (c & s & Hs).
  destruct (truthy_Some _ Hr) as (c' & s' & Hs').
  unfold refreshTokens, refresh, verifyToken.
  cbn [r_refreshToken r_remember default_false]. rewrite Hr. cbn [negb].
  destruct (Jwt.falsy (Some tok)) eqn:Hfalsy; [split; discriminate|].
  destruct (Jwt.verify tok (JWT_REFRESH_SECRET env) _ now) as [decoded|err]; cbn [bind].
  2:{ destruct (String.eqb (err_name err) "TokenExpiredError"); split; discriminate. }
  destruct (negb (bool_decide (Jwt.type decoded = Some "refresh")));
    [split; discriminate|].
  destruct (UserDoc.findById db (Jwt.id decoded)) as [user|]; [|split; discriminate].
  destruct (bool_decide (UserDoc.refreshToken user = Some tok)) eqn:Hst; cbn [negb].
  2:{ rewrite orb_true_r. split; discriminate. }
  apply bool_decide_eq_true in Hst. rewrite Hst, Hfalsy. cbn [orb].
  destruct (UserDoc.isSuspended user); [split; discriminate|].
  rewrite (generateAccessToken_ok env now (UserDoc._id user) remember c s Hs).
  rewrite (generateRefreshToken_ok env now (UserDoc._id user) remember c' s' Hs').
  rewrite (generateTokens_ok env now (UserDoc._id user) remember c c' s s' Hs Hs').
  cbn [bind accessToken refreshToken].
  destruct issued as [ia ir]. cbn [accessToken refreshToken].
  split; intros H; inversion H; subst; reflexivity.
Qed.

Lemma verify_reset_claims (env : Env) (userId : nat) (now t : Z) (c : ascii) (s : string) :
  t / 1000 < now / 1000 + 3600 ->
  Jwt.verify (Jwt.Jws (reset_claims env userId now) (String c s)) (Some (String c s))
             {| Jwt.v_issuer := Some (config_issuer env);
                Jwt.v_audience := Some (config_audience env) |} t
  = Ok (reset_claims env userId now).
Proof.
  intros Ht. unfold Jwt.verify. rewrite String.eqb_refl. cbn [negb].
  destruct (config_issuer_nonempty env) as (ci & si & Hi).
  destruct (config_audience_nonempty env) as (ca & sa & Ha).
  cbn [Jwt.nbf Jwt.exp Jwt.aud Jwt.iss Jwt.v_audience Jwt.v_issuer reset_claims].
  rewrite Hi, Ha. rewrite !String.eqb_refl. cbn [negb].
  destruct (Z.leb (now / 1000 + 3600) (t / 1000)) eqn:E; [|reflexivity].
  apply Z.leb_le in E. lia.
Qed.

Lemma forgot_password_mail (env : Env) (now : Z) (db : list UserDoc.User) (c : ascii)
    (e : string) (c0 : ascii) (s0 : string) :
  JWT_SECRET env = Some (String c0 s0) ->
  forgot_password env now db (Some (String c e))
  = (reset_link_sent,
     match UserDoc.findOneByEmail db (toLowerCase (String c e)) with
     | Some user =>
         Some (mkMail (String c e) "MarketSphere - Reset Your Password"
                      (Jwt.Jws (reset_claims env (UserDoc._id user) now) (String c0 s0)))
     | None => None
     end).
Proof.
  intros Hs. unfold forgot_password.
  destruct (UserDoc.findOneByEmail db (toLowerCase (String c e))) as [user|]; [|reflexivity].
  unfold Jwt.sign. rewrite Hs. reflexivity.
Qed.

(** forgot-password answers a known and an unknown address with the same
    200 message; a mail goes out exactly when the address belongs to a
    user, and carries a token for that user that lives one hour. *)
Theorem forgot_password_is_uniform (env : Env) (now : Z) (db other : list UserDoc.User)
    (c : ascii) (e : string) :
  truthy (JWT_SECRET env) = true ->
  fst (forgot_password env now db (Some (String c e))) = reset_link_sent /\
  fst (forgot_password env now db (Some (String c e)))
  = fst (forgot_password env now other (Some (String c e))) /\
  (snd (forgot_password env now db (Some (String c e))) = None
   <-> UserDoc.findOneByEmail db (toLowerCase (String c e)) = None) /\
  (forall m,
      snd (forgot_password env now db (Some (String c e))) = Some m ->
      exists user,
        UserDoc.findOneByEmail db (toLowerCase (String c e)) = Some user
        /\ mail_to m = String c e
        /\ Jwt.id <$> Jwt.decode (mail_resetToken m) = Some (Some (UserDoc._id user))
        /\ lifetime (mail_resetToken m) = Some 3600).
Proof.
  intros Hsec. destruct (truthy_Some _ Hsec) as (c0 & s0 & Hs).
  rewrite !(forgot_password_mail env now _ c e c0 s0 Hs). cbn [fst snd].
  split; [reflexivity|]. split; [reflexivity|]. split.
  - destruct (UserDoc.findOneByEmail db (toLowerCase (String c e)));
      split; intros H; try discriminate; reflexivity.
  - intros m. destruct (UserDoc.findOneByEmail db (toLowerCase (String c e))) as [user|];
      [|discriminate].
    intros H. inversion H; subst m. exists user. split; [reflexivity|].
    split; [reflexivity|]. split; [reflexivity|].
    unfold lifetime. simpl. f_equal. lia.
Qed.

(** The mailed token resets the password within the hour and is answered
    "Reset token has expired" from then on; the reset changes the password
    only, so the stored refresh token and the sessions built on it survive;
    and the gate never takes the mailed token for an access token. *)
Theorem password_reset_roundtrip (env : Env) (now t : Z) (db : list UserDoc.User)
    (c c' : ascii) (e pw : string) (m : Mail) :
  NoDup (List.map UserDoc._id db) ->
  forgot_password env now db (Some (String c e)) = (reset_link_sent, Some m) ->
  exists user,
    In user db /\
    (t / 1000 < now / 1000 + 3600 ->
     reset_password env t db (Some (mail_resetToken m)) (Some (String c' pw))
     = (password_reset_done, UserDoc.save db (with_password user (String c' pw)))
     /\ exists user',
          UserDoc.findById (UserDoc.save db (with_password user (String c' pw)))
                           (Some (UserDoc._id user)) = Some user'
          /\ UserDoc.password user' = Some (String c' pw)
          /\ UserDoc.refreshToken user' = UserDoc.refreshToken user) /\
    (now / 1000 + 3600 <= t / 1000 ->
     reset_password env t db (Some (mail_resetToken m)) (Some (String c' pw))
     = (Refused (reply 400 "Reset token has expired" None None), db)) /\
    (forall rs req u tok,
        extract_token req = Some (mail_resetToken m) ->
        auth env t rs db req <> Next u tok).
Proof.
  intros Hnd Hmail.
  assert (Hsec : exists c0 s0, JWT_SECRET env = Some (String c0 s0)).
  { unfold forgot_password in Hmail.
    destruct (UserDoc.findOneByEmail db (toLowerCase (String c e))); [|discriminate].
    match type of Hmail with
    | context [Jwt.sign ?p ?k ?o ?n] => destruct (Jwt.sign p k o n) as [w|err] eqn:Hsig
    end; [|discriminate].
    apply sign_Ok_secret in Hsig. exact Hsig. }
  destruct Hsec as (c0 & s0 & Hs).
  rewrite (forgot_password_mail env now db c e c0 s0 Hs) in Hmail.
  destruct (UserDoc.findOneByEmail db (toLowerCase (String c e))) as [user|] eqn:Hfind;
    [|discriminate].
  inversion Hmail; subst m. cbn [mail_resetToken].
  apply findOneByEmail_In in Hfind as [Hin _].
  pose proof (findById_unique db user Hnd Hin) as Hid.
  exists user. split; [exact Hin|]. split; [|split].
  - intros Ht. split.
    + unfold reset_password. cbn [Jwt.falsy]. rewrite Hs.
      rewrite verify_reset_claims by exact Ht. cbn [reset_claims Jwt.id]. rewrite Hid.
      reflexivity.
    + eexists. split; [apply (findById_save db (UserDoc._id user) user); auto|].
      split; reflexivity.
  - intros Ht. unfold reset_password. cbn [Jwt.falsy]. rewrite Hs.
    rewrite (verify_expired _ _ _ (now / 1000 + 3600) t c0 s0) by (auto; reflexivity).
    reflexivity.
  - intros rs req u tok Hx Hacc.
    apply auth_Next_inv in Hacc as (Hx' & _ & _ & decoded & stored & Hv & Hty & _).
    rewrite Hx in Hx'. inversion Hx'; subst tok.
    unfold verifyToken in Hv.
    destruct (negb (truthy (JWT_SECRET env))); [discriminate|].
    apply verify_payload in Hv. subst decoded. discriminate Hty.
Qed.

(** reset-password checks no token type: an unexpired access token of a
    user is enough to set that user's password. *)
Theorem access_token_resets_password (env : Env) (now t : Z) (db : list UserDoc.User)
    (user : UserDoc.User) (remember : bool) (a : Jwt.Wire) (c : ascii) (pw : string) :
  generateAccessToken env now (UserDoc._id user) remember = Ok a ->
  UserDoc.findById db (Some (UserDoc._id user)) = Some user ->
  t / 1000 < now / 1000 + access_ttl remember ->
  reset_password env t db (Some a) (Some (String c pw))
  = (password_reset_done, UserDoc.save db (with_password user (String c pw))).
Proof.
  intros Hmint Hfind Ht.
  apply generateAccessToken_inv in Hmint as (c0 & s0 & Hs & ->).
  unfold reset_password. cbn [Jwt.falsy]. rewrite Hs.
  rewrite verify_stamped by exact Ht. cbn [stamped Jwt.id]. rewrite Hfind. reflexivity.
Qed.

(** ** OAuth login, one request at a time *)

Lemma count_email_app (db : list UserDoc.User) (u : UserDoc.User) (em : string) :
  count_email (db ++ [u])%list em
  = (count_email db em + if String.eqb (UserDoc.email u) em then 1 else 0)%nat.
Proof.
  unfold count_email. rewrite List.filter_app, length_app. simpl.
  destruct (String.eqb (UserDoc.email u) em); reflexivity.
Qed.

Lemma count_email_map (f : UserDoc.User -> UserDoc.User) (db : list UserDoc.User)
    (em : string) :
  (forall v, In v db -> UserDoc.email (f v) = UserDoc.email v) ->
  count_email (List.map f db) em = count_email db em.
Proof.
  unfold count_email. induction db as [|v db IH]; intros H; [reflexivity|].
  simpl. rewrite (H v (or_introl eq_refl)).
  destruct (String.eqb (UserDoc.email v) em); simpl; rewrite IH; auto;
    intros w Hw; apply H; right; exact Hw.
Qed.

Lemma find_none_count (db : list UserDoc.User) (em : string) :
  UserDoc.findOneByEmail db em = None ->
  count_email db em = 0%nat
  /\ existsb (fun v => String.eqb (UserDoc.email v) em) db = false.
Proof.
  unfold UserDoc.findOneByEmail, count_email.
  induction db as [|v db IH]; [auto|]. simpl.
  destruct (String.eqb (UserDoc.email v) em); [discriminate|]. exact IH.
Qed.

Lemma find_some_count (db : list UserDoc.User) (em : string) (u : UserDoc.User) :
  UserDoc.findOneByEmail db em = Some u -> (1 <= count_email db em)%nat.
Proof.
  unfold UserDoc.findOneByEmail, count_email.
  induction db as [|v db IH]; [discriminate|]. simpl.
  destruct (String.eqb (UserDoc.email v) em); simpl; [lia|]. exact IH.
Qed.

Lemma same_id_same_user (db : list UserDoc.User) (u v : UserDoc.User) :
  NoDup (List.map UserDoc._id db) -> In u db -> In v db ->
  UserDoc._id v = UserDoc._id u -> v = u.
Proof.
  intros Hnd Hu Hv Hid.
  pose proof (findById_unique db u Hnd Hu) as H1.
  pose proof (findById_unique db v Hnd Hv) as H2.
  rewrite Hid in H2. congruence.
Qed.

Lemma store_session_email (now : Z) (db : list UserDoc.User) (i : nat) (r : Jwt.Wire)
    (em : string) :
  count_email (store_session now db i r) em = count_email db em
  /\ length (store_session now db i r) = length db.
Proof.
  unfold store_session. split; [|apply length_map].
  apply count_email_map. intros v _. destruct (Nat.eqb (UserDoc._id v) i); reflexivity.
Qed.

(** With no other request in between, router.post('/google') finds or
    creates: when it answers 200 the collection holds one user with the
    address if it held none before and as many as before otherwise, it has
    grown by exactly the user created, and [isNewUser] says which case it
    was. *)
Theorem google_find_or_create (env : Env) (now : Z) (db db' : list UserDoc.User)
    (req : GoogleReq) (r : Response) :
  NoDup (List.map UserDoc._id db) ->
  google_route env now db req = (GR_done r, db') -> status r = 200 ->
  exists payload c e,
    g_ticket req = Ok (Some payload) /\ g_email payload = Some (String c e) /\
    count_email db' (toLowerCase (String c e))
    = Nat.max 1 (count_email db (toLowerCase (String c e))) /\
    length db'
    = (if Nat.eqb (count_email db (toLowerCase (String c e))) 0
       then S (length db) else length db) /\
    exists message view issued,
      json r = JSession message view issued (access_span (g_remember req))
                        (Some (Nat.eqb (count_email db (toLowerCase (String c e))) 0))
      /\ s_email view = toLowerCase (String c e)
      /\ s_isVerified view = true.
Proof.
  intros Hnd. unfold google_route. cbn [steps google_route_step].
  destruct (negb (truthy (g_token req)));
    [cbn; intros H Hs; inversion H; subst; discriminate Hs|].
  destruct (g_ticket req) as [[payload|]|err] eqn:Htk;
    try (cbn; intros H Hs; inversion H; subst; discriminate Hs).
  destruct (g_email payload) as [[|c e]|] eqn:Hem;
    try (cbn; intros H Hs; inversion H; subst; discriminate Hs).
  set (em := toLowerCase (String c e)).
  destruct (UserDoc.findOneByEmail db em) as [user|] eqn:Hfind.
  - (* an existing user is updated *)
    cbn [google_route_step].
    set (user' := UserDoc.touch_login (with_google user _ _) now).
    destruct (generateTokens env now (UserDoc._id user') (g_remember req))
      as [issued|err] eqn:Hgen;
      [|intros H Hs; inversion H; subst; discriminate Hs].
    intros H _. inversion H; subst r db'. clear H.
    exists payload, c, e. split; [reflexivity|]. split; [exact Hem|].
    pose proof (find_some_count db em user Hfind) as Hcount.
    apply findOneByEmail_In in Hfind as [Hin Hmail].
    assert (Hsave : count_email (UserDoc.save db user') em = count_email db em).
    { unfold UserDoc.save. apply count_email_map. intros v Hv.
      destruct (Nat.eqb (UserDoc._id v) (UserDoc._id user')) eqn:E; [|reflexivity].
      apply Nat.eqb_eq in E.
      rewrite (same_id_same_user db user v Hnd Hin Hv E). reflexivity. }
    destruct (store_session_email now (UserDoc.save db user') (UserDoc._id user)
                (refreshToken issued) em) as [Hc Hl].
    unfold em in *. rewrite Hc, Hsave, Hl.
    split; [lia|]. split.
    { unfold UserDoc.save. rewrite length_map.
      destruct (Nat.eqb (count_email db (toLowerCase (String c e))) 0) eqn:E;
        [|reflexivity].
      apply Nat.eqb_eq in E. lia. }
    eexists. eexists. eexists. split.
    { replace (Nat.eqb (count_email db (toLowerCase (String c e))) 0) with false;
        [reflexivity|].
      symmetry. apply Nat.eqb_neq. lia. }
    split; [exact Hmail|reflexivity].
  - (* a new user is created *)
    cbn [google_route_step].
    destruct (find_none_count db em Hfind) as [Hzero Hex].
    unfold insert. cbn [new_google_user UserDoc.email]. rewrite Hex, andb_false_r.
    cbn [steps google_route_step].
    match goal with
    | |- context [generateTokens env now ?i ?b] =>
        destruct (generateTokens env now i b) as [issued|err] eqn:Hgen
    end; [|intros H Hs; inversion H; subst; discriminate Hs].
    intros H _. inversion H; subst r db'. clear H.
    exists payload, c, e. split; [reflexivity|]. split; [exact Hem|].
    match goal with
    | |- context [store_session now ?d ?i ?w] =>
        destruct (store_session_email now d i w em) as [Hc Hl]
    end.
    unfold em in *. rewrite Hc, Hl, count_email_app, length_app, Hzero.
    cbn [UserDoc.email]. rewrite String.eqb_refl. simpl.
    split; [reflexivity|]. split; [lia|].
    eexists. eexists. eexists. split; [reflexivity|]. split; reflexivity.
Qed.

(** router.post('/google') never reads Google's [email_verified] flag: the
    answer and the collection are the same whatever it says, and the
    account is marked verified either way, whereas googleLogin refuses an
    unverified address before it touches the collection. *)
Theorem google_route_ignores_email_verified (env : Env) (now : Z)
    (db : list UserDoc.User) (req : GoogleReq) (flag : bool) (payload : GooglePayload) :
  truthy (g_token req) = true ->
  g_ticket req = Ok (Some payload) ->
  google_route env now db (with_email_verified req flag) = google_route env now db req /\
  google_helper_step env now db (GH_start (with_email_verified req false))
  = (GH_done (Throw (mkError "Error" "Google email not verified")), db).
Proof.
  intros Htok Htk. split.
  - unfold google_route, with_email_verified. cbn [steps google_route_step g_token g_ticket].
    rewrite Htok, Htk. cbn [negb g_email g_name g_sub g_picture].
    destruct (g_email payload) as [[|c e]|]; try reflexivity.
    destruct (UserDoc.findOneByEmail db (toLowerCase (String c e))) as [user|].
    + cbn [google_route_step g_remember g_randomPassword].
      destruct (generateTokens env now _ (g_remember req)); reflexivity.
    + cbn [google_route_step g_remember g_randomPassword].
      destruct (insert db _) as [db1|err]; [|reflexivity].
      cbn [steps google_route_step g_remember].
      destruct (generateTokens env now _ (g_remember req)); reflexivity.
  - unfold with_email_verified. cbn [google_helper_step g_token g_ticket].
    rewrite Htok, Htk. reflexivity.
Qed.

(** ** Client: storage, reducer, coordinator *)

(** What setAuthTokens stores is what getStoredTokens reads back, under
    the same remember-me flag and with the matching Authorization header,
    while the other storage is left empty; clearAllTokens leaves nothing
    to read. *)
Theorem storage_roundtrip (b : Client.Browser) (c c' : ascii) (a r : string)
    (remember : bool) :
  Client.getStoredTokens
    (Client.setAuthTokens b (Some (String c a)) (Some (String c' r)) remember)
  = (Some (String c a), Some (String c' r), remember) /\
  Client.defaultAuthorization
    (Client.setAuthTokens b (Some (String c a)) (Some (String c' r)) remember)
  = Some ("Bearer " +:+ String c a) /\
  (if remember
   then Client.sessionStorage
          (Client.setAuthTokens b (Some (String c a)) (Some (String c' r)) remember)
   else Client.localStorage
          (Client.setAuthTokens b (Some (String c a)) (Some (String c' r)) remember))
  = Client.mkWebStorage None None None /\
  Client.getStoredTokens (Client.setAuthTokens b None None remember)
  = (None, None, remember) /\
  Client.getStoredTokens (Client.clearAllTokens b) = (None, None, false) /\
  Client.defaultAuthorization (Client.clearAllTokens b) = None.
Proof. destruct remember; repeat split; reflexivity. Qed.

Lemma authReducer_honest (s : Reducer.State) (a : Reducer.Action) :
  honest s -> honest (Reducer.authReducer s a).
Proof.
  unfold honest. intros H.
  destruct a as [|[p|]|f| | |u|m| | |f| | |f|ty]; simpl; try exact H; try discriminate.
  destruct (Reducer.p_tokens p); [discriminate|discriminate].
Qed.

(** Whatever actions are dispatched from the initial state, the reducer
    reports [isAuthenticated] only while it holds tokens; LOGOUT drops user,
    tokens and the remember-me flag from any state, and LOGIN_FAIL ends the
    authentication but keeps the tokens it held. *)
Theorem reducer_is_honest (actions : list Reducer.Action) (s : Reducer.State)
    (message : option string) :
  honest (Reducer.dispatch_all Reducer.initialState actions) /\
  (Reducer.user (Reducer.authReducer s Reducer.LOGOUT) = None
   /\ Reducer.tokens (Reducer.authReducer s Reducer.LOGOUT) = None
   /\ Reducer.isAuthenticated (Reducer.authReducer s Reducer.LOGOUT) = false
   /\ Reducer.rememberMe (Reducer.authReducer s Reducer.LOGOUT) = false) /\
  (Reducer.isAuthenticated (Reducer.authReducer s (Reducer.LOGIN_FAIL message)) = false
   /\ Reducer.tokens (Reducer.authReducer s (Reducer.LOGIN_FAIL message))
      = Reducer.tokens s).
Proof.
  split; [|repeat split; reflexivity].
  unfold Reducer.dispatch_all.
  assert (H : forall l st, honest st -> honest (fold_left Reducer.authReducer l st)).
  { induction l as [|a l IH]; intros st Hst; [exact Hst|].
    simpl. apply IH. apply authReducer_honest. exact Hst. }
  apply H. unfold honest. simpl. discriminate.
Qed.

Lemma times_app (c : nat) (l1 l2 : list nat) :
  times c (l1 ++ l2)%list = (times c l1 + times c l2)%nat.
Proof. unfold times. rewrite List.filter_app, length_app. reflexivity. Qed.

Lemma map_fst_processQueue (q : list nat) (e : option JsError) (t : option string) :
  List.map fst (Client.processQueue q e t) = q.
Proof.
  unfold Client.processQueue. induction q as [|x q IH]; [reflexivity|].
  simpl. rewrite IH. destruct e; reflexivity.
Qed.

Lemma take_pending_times (c caller : nat) (l rest : list Client.Pending)
    (p : Client.Pending) :
  Client.take_pending caller l = Some (p, rest) ->
  Client.owner p = caller /\
  times c (List.map Client.owner l)
  = (times c [Client.owner p] + times c (List.map Client.owner rest))%nat.
Proof.
  revert rest. induction l as [|q l IH]; intros rest; simpl; [discriminate|].
  destruct (Nat.eqb (Client.owner q) caller) eqn:E.
  - intros H. inversion H; subst. apply Nat.eqb_eq in E. split; [exact E|].
    change (Client.owner p :: List.map Client.owner rest)
      with ([Client.owner p] ++ List.map Client.owner rest)%list.
    apply times_app.
  - destruct (Client.take_pending caller l) as [[p' rest']|]; [|discriminate].
    intros H. inversion H; subst.
    destruct (IH rest' eq_refl) as [Ho Ht]. split; [exact Ho|].
    simpl.
    change (Client.owner q :: List.map Client.owner l)
      with ([Client.owner q] ++ List.map Client.owner l)%list.
    change (Client.owner q :: List.map Client.owner rest')
      with ([Client.owner q] ++ List.map Client.owner rest')%list.
    rewrite !times_app, Ht. lia.
Qed.

Lemma accounted_resume (c : nat) (s : Client.Coordinator) (p : Client.Pending)
    (rest : list Client.Pending) (r : Client.HttpResult) :
  times c (accounted (Client.resume s p rest r))
  = (times c (List.map fst (Client.settled s)) + times c (Client.failedQueue s)
     + times c [Client.owner p] + times c (List.map Client.owner rest))%nat.
Proof.
  unfold accounted.
  destruct (resume_spec s p rest r) as (_ & H2 & H3 & _ & H5).
  rewrite H2, H3, H5. rewrite !map_app, List.map_map. simpl.
  rewrite List.map_id. rewrite !times_app. simpl. lia.
Qed.

Lemma accounted_step (c : nat) (s s' : Client.Coordinator) (e : Client.Event) :
  Client.step s e = Some s' ->
  times c (accounted s') = (times c (accounted s) + times c (invoked [e]))%nat.
Proof.
  destruct e as [caller|caller r|]; simpl.
  - intros H. inversion H; subst s'. clear H. unfold Client.invoke.
    destruct (Client.isRefreshing s).
    + unfold accounted. simpl. rewrite !times_app. simpl. lia.
    + destruct (Client.getStoredTokens (Client.browser s)) as [[a rt] rem].
      destruct rt as [[|c0 t]|]; unfold accounted; simpl;
        rewrite ?map_app, ?map_fst_processQueue, ?times_app; simpl; lia.
  - destruct (Client.take_pending caller (Client.inflight s)) as [[p rest]|] eqn:Ht;
      [|discriminate].
    intros H. inversion H; subst s'. clear H.
    rewrite accounted_resume.
    destruct (take_pending_times c caller _ _ _ Ht) as [_ Hc].
    unfold accounted. rewrite !times_app, Hc. unfold times. simpl. lia.
  - destruct (Client.logoutsPending s); [discriminate|].
    intros H. inversion H; subst s'. unfold accounted, times. simpl. lia.
Qed.

Lemma invoked_cons (e : Client.Event) (es : list Client.Event) :
  invoked (e :: es) = (invoked [e] ++ invoked es)%list.
Proof. destruct e; reflexivity. Qed.

Lemma accounted_run (c : nat) (es : list Client.Event) :
  forall s s', Client.run s es = Some s' ->
               times c (accounted s') = (times c (accounted s) + times c (invoked es))%nat.
Proof.
  induction es as [|e es IH]; intros s s' Hrun.
  - simpl in Hrun. inversion Hrun. unfold times. simpl. lia.
  - simpl in Hrun. destruct (Client.step s e) as [s1|] eqn:Hs; [|discriminate].
    rewrite (IH s1 s' Hrun), (accounted_step c s s1 e Hs).
    rewrite (invoked_cons e es), times_app. lia.
Qed.

(** No caller of refreshAccessToken is lost or answered twice: in every
    state reached from Idle, each caller has, for every invocation it
    made, exactly one place among the answers given, the queue and the call
    in flight; once the coordinator is Idle again every invocation has its
    answer. *)
Theorem every_caller_is_answered_once (b : Client.Browser) (es : list Client.Event)
    (s : Client.Coordinator) (c : nat) :
  Client.run (Client.idle b) es = Some s ->
  (times c (List.map fst (Client.settled s)) + times c (Client.failedQueue s)
   + times c (List.map Client.owner (Client.inflight s)))%nat
  = times c (invoked es) /\
  (Client.isRefreshing s = false ->
   times c (List.map fst (Client.settled s)) = times c (invoked es)).
Proof.
  intros Hrun.
  pose proof (accounted_run c es _ _ Hrun) as H.
  unfold accounted in H. rewrite !times_app in H. simpl in H.
  split; [unfold times in *; simpl in *; lia|].
  intros Hidle.
  destruct (run_coherent es _ _ (coherent_idle b) Hrun) as [_ Hoff].
  destruct (Hoff Hidle) as [Hin Hq]. rewrite Hin, Hq in H.
  unfold times in *. simpl in *. lia.
Qed.

(** What a settled refresh leaves behind: on success the new access token
    and the new refresh token (the one sent, if the server returned none)
    are what the storage reads back; on failure the storage reads back
    nothing, so the next caller issues no refresh call, is answered with
    null and starts a logout. *)
Theorem settlement_and_storage (s s' : Client.Coordinator) (c : nat)
    (r : Client.HttpResult) :
  Client.step s (Client.Settle c r) = Some s' ->
  (forall c0 a newRefresh,
      r = Client.HttpOk (Some (String c0 a)) newRefresh ->
      exists p,
        In p (Client.inflight s) /\ Client.owner p = c /\
        let kept := if truthy newRefresh then newRefresh
                    else Some (Client.sentRefreshToken p) in
        Client.getStoredTokens (Client.browser s')
        = (Some (String c0 a), (if truthy kept then kept else None),
           Client.sentRemember p)) /\
  (forall e,
      r = Client.HttpError e ->
      Client.getStoredTokens (Client.browser s') = (None, None, false) /\
      forall c2,
        Client.refreshCalls (Client.invoke s' c2) = Client.refreshCalls s' /\
        Client.inflight (Client.invoke s' c2) = Client.inflight s' /\
        Client.isRefreshing (Client.invoke s' c2) = false /\
        Client.logoutCalls (Client.invoke s' c2) = S (Client.logoutCalls s') /\
        Client.settled (Client.invoke s' c2)
        = (Client.settled s' ++ [(c2, Client.Resolved None)])%list).
Proof.
  simpl. destruct (Client.take_pending c (Client.inflight s)) as [[p rest]|] eqn:Ht;
    [|discriminate].
  intros H. inversion H; subst s'. clear H.
  assert (Hp : In p (Client.inflight s) /\ Client.owner p = c).
  { clear -Ht. revert rest Ht. induction (Client.inflight s) as [|q l IH]; intros rest;
      simpl; [discriminate|].
    destruct (Nat.eqb (Client.owner q) c) eqn:E.
    - intros H. inversion H; subst. apply Nat.eqb_eq in E. auto.
    - destruct (Client.take_pending c l) as [[p' rest']|]; [|discriminate].
      intros H. inversion H; subst. destruct (IH rest' eq_refl). auto. }
  split.
  - intros c0 a newRefresh ->. exists p. destruct Hp as [Hin Ho].
    split; [exact Hin|]. split; [exact Ho|].
    cbn [Client.resume Client.browser].
    destruct newRefresh as [[|c1 n]|]; destruct (Client.sentRefreshToken p) as [|c2 m];
      destruct (Client.sentRemember p); reflexivity.
  - intros e ->. cbn [Client.resume Client.browser]. split; [reflexivity|].
    intros c2. unfold Client.invoke.
    cbn [Client.isRefreshing Client.browser Client.failedQueue Client.refreshCalls
         Client.logoutCalls Client.logoutsPending Client.settled Client.inflight].
    change (Client.getStoredTokens (Client.clearAllTokens (Client.browser s)))
      with (@None string, @None string, false).
    cbn. repeat split; reflexivity.
Qed.

(** ** Password rules, reconnection policy, fingerprint *)

Lemma has_char_app (f : ascii -> bool) (p q : string) :
  has_char f (p +:+ q) = (has_char f p || has_char f q)%bool.
Proof.
  induction p as [|c p IH]; [reflexivity|].
  simpl. rewrite IH. apply orb_assoc.
Qed.

Lemma length_app_string (p q : string) :
  String.length (p +:+ q) = (String.length p + String.length q)%nat.
Proof. induction p as [|c p IH]; [reflexivity|]. simpl. rewrite IH. reflexivity. Qed.

Lemma password_valid_iff (p : string) :
  isValid (validatePasswordStrength p) = true <->
  (8 <= String.length p)%nat /\ has_char is_upper p = true
  /\ has_char is_lower p = true /\ has_char is_digit p = true
  /\ has_char is_special p = true.
Proof.
  unfold validatePasswordStrength. cbn [isValid].
  destruct (Nat.ltb (String.length p) 8) eqn:El;
    [apply Nat.ltb_lt in El|apply Nat.ltb_ge in El];
    destruct (has_char is_upper p); destruct (has_char is_lower p);
    destruct (has_char is_digit p); destruct (has_char is_special p);
    cbn; split; try discriminate; try (intros (? & ? & ? & ? & ?); try discriminate; lia);
    intros _; repeat split; auto.
Qed.

(** validatePasswordStrength accepts a password exactly when it has at
    least eight characters and one character of each of the four classes,
    and then reports no issue; it never reports more than five; there is
    no upper bound on the length and no forbidden character, so whatever is
    put before or after an accepted password is accepted too. *)
Theorem password_rules (p q : string) :
  (isValid (validatePasswordStrength p) = true <->
   (8 <= String.length p)%nat /\ has_char is_upper p = true
   /\ has_char is_lower p = true /\ has_char is_digit p = true
   /\ has_char is_special p = true) /\
  (isValid (validatePasswordStrength p) = true <->
   issues (validatePasswordStrength p) = []) /\
  (length (issues (validatePasswordStrength p)) <= 5)%nat /\
  (isValid (validatePasswordStrength p) = true ->
   isValid (validatePasswordStrength (p +:+ q)) = true
   /\ isValid (validatePasswordStrength (q +:+ p)) = true).
Proof.
  split; [apply password_valid_iff|]. split; [|split].
  - unfold validatePasswordStrength. cbn [isValid issues].
    match goal with |- Nat.eqb (length ?l) 0 = true <-> _ => destruct l end;
      cbn; split; congruence.
  - unfold validatePasswordStrength. cbn [issues].
    destruct (Nat.ltb (String.length p) 8); destruct (has_char is_upper p);
      destruct (has_char is_lower p); destruct (has_char is_digit p);
      destruct (has_char is_special p); cbn; lia.
  - intros H. apply password_valid_iff in H. destruct H as (Hl & Hu & Hw & Hd & Hs).
    split; apply password_valid_iff; rewrite length_app_string, !has_char_app,
      Hu, Hw, Hd, Hs, ?orb_true_r; repeat split; auto; lia.
Qed.

(** The reconnection policy of the Redis client: a fourth attempt is
    never scheduled and marks the store unavailable; the first three are
    delayed by one second per attempt, so the cap of five seconds written
    in the source is never reached, and they leave the availability flag as
    it was. The per-command retryDelay grows by 50 ms per attempt up to its
    cap at the fortieth. *)
Theorem redis_retry_policy (available : bool) (attempt : Z) :
  (3 < attempt -> retryStrategy available attempt = (None, false)) /\
  (attempt <= 3 ->
   retryStrategy available attempt = (Some (attempt * 1000), available)
   /\ attempt * 1000 < 5000) /\
  (attempt <= 40 -> retryDelay attempt = attempt * 50) /\
  (40 <= attempt -> retryDelay attempt = 2000).
Proof.
  unfold retryStrategy, retryDelay. repeat split.
  - intros H. apply Z.ltb_lt in H. rewrite H. reflexivity.
  - assert (E : Z.ltb 3 attempt = false) by (apply Z.ltb_ge; lia).
    rewrite E. f_equal. f_equal. lia.
  - lia.
  - intros H. lia.
  - intros H. lia.
Qed.

(** The fingerprint does not record which component a value came from:
    missing and empty components are dropped before the join, so requests
    that differ in where a value sits get the same fingerprint; and the
    join is not injective, a bar inside one component reads as a
    separator. The Authorization header and the cookies play no part. *)
Theorem fingerprint_forgets_positions (ca cb : ascii) (a0 b0 : string)
    (h h' : option AuthHeader) (k k' : option Cookies) :
  let a := String ca a0 in
  let b := String cb b0 in
  generateRequestFingerprint (mkRequest (Some a) (Some b) None h k)
  = generateRequestFingerprint (mkRequest None (Some a) (Some b) h' k') /\
  generateRequestFingerprint (mkRequest (Some a) None (Some b) h k)
  = generateRequestFingerprint (mkRequest (Some a) (Some b) (Some "") h' k') /\
  generateRequestFingerprint (mkRequest (Some (a +:+ "|" +:+ b)) None None h k)
  = generateRequestFingerprint (mkRequest (Some a) (Some b) None h' k') /\
  generateRequestFingerprint (mkRequest None None None h k)
  = generateRequestFingerprint (mkRequest (Some "") (Some "") (Some "") h' k').
Proof.
  cbv zeta. unfold generateRequestFingerprint. cbn [ip user_agent accept_language].
  repeat split; reflexivity.
Qed.

End Core.

(** * The properties on concrete runs *)

(** ** OAuth find-or-create under concurrency *)

(** C9, at the failing input. Two sign-ins for the same new address whose
    lookups both run before either write: with router.post('/google'),
    which uses no transaction, both create a user and the collection holds
    two documents for the address (with a unique index on the address the
    second request fails with 500 instead of signing in); run one after the
    other, the second finds the user the first created.  googleLogin, whose
    lookups run outside its transaction, creates two documents under the
    same schedule as well. *)
Theorem concurrent_google_logins :
  (exists ra rb db,
      interleave (google_route_step false "user" sample_env 5000) both_look_first []
                 (GR_start first_login) (GR_start second_login)
      = (GR_done ra, GR_done rb, db)
      /\ status ra = 200 /\ status rb = 200
      /\ count_email db "new@x.com" = 2%nat) /\
  (exists ra rb db,
      interleave (google_route_step true "user" sample_env 5000) both_look_first []
                 (GR_start first_login) (GR_start second_login)
      = (GR_done ra, GR_done rb, db)
      /\ status ra = 200 /\ status rb = 500
      /\ count_email db "new@x.com" = 1%nat) /\
  (exists ra rb db,
      interleave (google_route_step false "user" sample_env 5000) one_after_the_other []
                 (GR_start first_login) (GR_start second_login)
      = (GR_done ra, GR_done rb, db)
      /\ status ra = 200 /\ status rb = 200
      /\ count_email db "new@x.com" = 1%nat) /\
  (exists ja jb db,
      interleave (google_helper_step false "user" sample_env 5000) both_look_first_helper []
                 (GH_start first_login) (GH_start second_login)
      = (GH_done (Ok ja), GH_done (Ok jb), db)
      /\ count_email db "new@x.com" = 2%nat).
Proof.
  split; [|split; [|split]].
  - eexists. eexists. eexists. split; [vm_compute; reflexivity|]. repeat split; reflexivity.
  - eexists. eexists. eexists. split; [vm_compute; reflexivity|]. repeat split; reflexivity.
  - eexists. eexists. eexists. split; [vm_compute; reflexivity|]. repeat split; reflexivity.
  - eexists. eexists. eexists. split; [vm_compute; reflexivity|]. reflexivity.
Qed.

(** ** Counterexamples to the statements as first written *)

(** C1 as stated fails: presented once it has expired, the rotated-out
    token, which is not the stored one, is refused as REFRESH_TOKEN_EXPIRED,
    and text that is no token as INVALID_REFRESH_TOKEN; neither answer is
    REFRESH_TOKEN_MISMATCH. *)
Lemma rotated_out_token_after_expiry :
  status (fst rotated) = 200 /\
  UserDoc.refreshToken <$> UserDoc.findById (snd rotated) (Some 7%nat)
  <> Some (Some alice_refresh) /\
  fst (refresh sample_env 604801000 (snd rotated)
               (mkRefreshBody (Some alice_refresh) None))
  = reply 401 "Refresh token expired" (Some "REFRESH_TOKEN_EXPIRED") None /\
  fst (refresh sample_env 2500 (snd rotated)
               (mkRefreshBody (Some (Jwt.Malformed "not-a-token")) None))
  = reply 401 "Invalid refresh token" (Some "INVALID_REFRESH_TOKEN") None /\
  reply 401 "Refresh token expired" (Some "REFRESH_TOKEN_EXPIRED") None <> mismatch_reply /\
  reply 401 "Invalid refresh token" (Some "INVALID_REFRESH_TOKEN") None <> mismatch_reply.
Proof.
  split; [reflexivity|]. split; [vm_compute; discriminate|].
  split; [reflexivity|]. split; [reflexivity|].
  split; discriminate.
Qed.

(** C5 as stated fails: routes/auth.js tells an unverified account apart
    from an unknown address, whatever password is given. *)
Lemma unverified_account_is_told_apart :
  fst (login plain_correctPassword sample_env 2000 users
             (mkLoginBody (Some "b@x.com") (Some "wrong") None))
  = verify_email_first /\
  fst (login plain_correctPassword sample_env 2000 users
             (mkLoginBody (Some "nobody@x.com") (Some "wrong") None))
  = invalid_credentials /\
  verify_email_first <> invalid_credentials.
Proof. split; [reflexivity|]. split; [reflexivity|]. discriminate. Qed.

(** C7 as stated fails: revoked at 1.5 s, a token that expires at second 10
    gets a Redis entry that lives until 10.5 s. *)
Lemma redis_entry_outlives_token :
  Jwt.exp <$> Jwt.decode expiring_at_10 = Some (Some 10) /\
  addToBlacklist plain_sha256 plain_serialize live_store 1500 expiring_at_10
  = Some ("jwt-blacklist:access-secret.access", 9000) /\
  10 * 1000 < 1500 + 9000.
Proof. split; [reflexivity|]. split; [reflexivity|]. lia. Qed.

(** The login of routes/auth.js has no suspension check: a suspended,
    verified account with the right password is signed in. *)
Example login_ignores_suspension :
  UserDoc.isSuspended carol = true /\
  status (fst (login plain_correctPassword sample_env 2000 users
                     (mkLoginBody (Some "c@x.com") (Some "hunter2") None))) = 200 /\
  mints (fst (login plain_correctPassword sample_env 2000 users
                    (mkLoginBody (Some "c@x.com") (Some "hunter2") None))) = true.
Proof. repeat split; reflexivity. Qed.

(** Tokens minted within the same second with the same profile are the same
    string: a refresh at 1.5 s stores the token [alice] already holds. *)
Example rotation_within_one_second :
  UserDoc.refreshToken
    <$> UserDoc.findById
          (snd (refresh sample_env 1500 users (mkRefreshBody (Some alice_refresh) None)))
          (Some 7%nat)
  = Some (Some alice_refresh).
Proof. reflexivity. Qed.

(** A lookup that fails while the token is good: the gate answers from its
    catch block, 401 AUTH_FAILED, a code outside the eight of an answering
    collection. *)
Example failed_lookup_at_the_gate :
  auth_with_lookup plain_sha256 plain_serialize
                   (fun _ => Throw (mkError "MongoNetworkError" "connection timed out"))
                   sample_env 2000 unreachable_store alice_request
  = Reply (reply 401 "Authentication failed" (Some "AUTH_FAILED")
                 (Some "Unable to authenticate with the provided credentials")) /\
  ~ In "AUTH_FAILED" gate_codes.
Proof.
  split; [reflexivity|].
  simpl. intros H. repeat (destruct H as [H|H]; [discriminate H|]). exact H.
Qed.

(** ** The theorems at concrete inputs *)

Lemma codec_access_roundtrip_witness :
  env_ready sample_env = true /\
  JWT_SECRET sample_env <> JWT_REFRESH_SECRET sample_env /\
  2000 / 1000 < 1000 / 1000 + access_ttl false /\
  exists token,
    generateAccessToken sample_env 1000 7 false = Ok token /\
    (exists decoded, verifyToken sample_env 2000 token false = Ok decoded
                     /\ Jwt.id decoded = Some 7%nat
                     /\ Jwt.type decoded = Some "access") /\
    (forall t', exists e, verifyToken sample_env t' token true = Throw e).
Proof.
  assert (H1 : env_ready sample_env = true) by reflexivity.
  assert (H2 : JWT_SECRET sample_env <> JWT_REFRESH_SECRET sample_env)
    by (simpl; discriminate).
  assert (H3 : 2000 / 1000 < 1000 / 1000 + access_ttl false) by reflexivity.
  split; [exact H1|]. split; [exact H2|]. split; [exact H3|].
  destruct (codec_access_roundtrip plain_sha256 plain_serialize sample_env 1000 2000 7 false
              H1 H2 H3) as (token & Hmint & _ & Hver & Hwrong & _).
  exists token. split; [exact Hmint|]. split; [exact Hver|exact Hwrong].
Defined.

Lemma revocation_check_fails_open_witness :
  store_down plain_sha256 plain_serialize unreachable_store
             (Jwt.Jws (stamped sample_env 7 "access" 1000 (access_ttl false)) "access-secret")
  /\ isTokenBlacklisted plain_sha256 plain_serialize unreachable_store
       (Jwt.Jws (stamped sample_env 7 "access" 1000 (access_ttl false)) "access-secret")
     = Ok false
  /\ auth plain_sha256 plain_serialize sample_env 2000 unreachable_store users alice_request
     = auth plain_sha256 plain_serialize sample_env 2000 empty_store users alice_request.
Proof.
  assert (H : store_down plain_sha256 plain_serialize unreachable_store
                (Jwt.Jws (stamped sample_env 7 "access" 1000 (access_ttl false))
                         "access-secret"))
    by (left; reflexivity).
  split; [exact H|].
  destruct (revocation_check_fails_open plain_sha256 plain_serialize sample_env 2000
              unreachable_store users alice_request _ H) as (Hb & _ & Hauth).
  split; [exact Hb|]. exact (proj1 (Hauth eq_refl)).
Defined.

Lemma revocation_window_witness :
  0 < 1000 /\ 0 <= 9000 /\
  timed 1000 [(2000, MemoryBlacklist.Has alice_refresh); (3000, MemoryBlacklist.Cleanup);
              (4000, MemoryBlacklist.Add alice_refresh 100)] 5000 /\
  Forall (keeps plain_sha256 plain_serialize
                (hashToken plain_sha256 plain_serialize expiring_at_10))
         [(2000, MemoryBlacklist.Has alice_refresh); (3000, MemoryBlacklist.Cleanup);
          (4000, MemoryBlacklist.Add alice_refresh 100)] /\
  snd (mb_has plain_sha256 plain_serialize 5000
         (mb_run plain_sha256 plain_serialize
            (fst (mb_add plain_sha256 plain_serialize 1000 ∅ expiring_at_10 9000))
            [(2000, MemoryBlacklist.Has alice_refresh); (3000, MemoryBlacklist.Cleanup);
             (4000, MemoryBlacklist.Add alice_refresh 100)])
         expiring_at_10) = true.
Proof.
  assert (H1 : 0 < 1000) by lia.
  assert (H2 : 0 <= 9000) by lia.
  assert (H3 : timed 1000 [(2000, MemoryBlacklist.Has alice_refresh);
                           (3000, MemoryBlacklist.Cleanup);
                           (4000, MemoryBlacklist.Add alice_refresh 100)] 5000)
    by (simpl; lia).
  assert (H4 : Forall (keeps plain_sha256 plain_serialize
                         (hashToken plain_sha256 plain_serialize expiring_at_10))
                 [(2000, MemoryBlacklist.Has alice_refresh);
                  (3000, MemoryBlacklist.Cleanup);
                  (4000, MemoryBlacklist.Add alice_refresh 100)]).
  { repeat constructor. unfold keeps. simpl. discriminate. }
  split; [exact H1|]. split; [exact H2|]. split; [exact H3|]. split; [exact H4|].
  apply (proj1 (revocation_window plain_sha256 plain_serialize ∅ expiring_at_10 9000 1000 5000
                  _ H1 H2 H3 H4)).
  lia.
Defined.

Lemma refresh_rotation_witness :
  refresh sample_env 2500 users (mkRefreshBody (Some alice_refresh) None)
  = (fst rotated, snd rotated) /\
  status (fst rotated) = 200 /\
  refresh sample_env 2500 (snd rotated) (mkRefreshBody (Some alice_refresh) None)
  = (mismatch_reply, snd rotated).
Proof.
  assert (H1 : refresh sample_env 2500 users (mkRefreshBody (Some alice_refresh) None)
               = (fst rotated, snd rotated)) by reflexivity.
  assert (H2 : status (fst rotated) = 200) by reflexivity.
  split; [exact H1|]. split; [exact H2|].
  destruct (refresh_rotation sample_env 2500 users (snd rotated)
              (mkRefreshBody (Some alice_refresh) None) (fst rotated) H1 H2)
    as (old & user & issued & key & Hold & _ & _ & _ & _ & _ & _ & _ & _ & _ & Hrot & Hiat).
  simpl in Hold. inversion Hold; subst old.
  apply (Hrot 2500 None); [lia|].
  apply (Hiat _ _ eq_refl). vm_compute. discriminate.
Defined.

Lemma login_rejections_witness :
  UserDoc.findOneByEmail users (toLowerCase "B@x.com") = Some bob /\
  UserDoc.isVerified bob = false /\
  login plain_correctPassword sample_env 2000 users
        (mkLoginBody (Some "B@x.com") (Some "secret") None)
  = (verify_email_first, users) /\
  UserDoc.findOneByEmail users (toLowerCase "c@x.com") = Some carol /\
  plain_comparePassword carol "hunter2" = true /\
  UserDoc.isSuspended carol = true /\
  login_enhanced plain_sha256 plain_comparePassword sample_env 2000 users alice_request
                 (mkLoginBody (Some "c@x.com") (Some "hunter2") None)
  = (account_suspended, users).
Proof.
  assert (H1 : UserDoc.findOneByEmail users (toLowerCase "B@x.com") = Some bob)
    by reflexivity.
  assert (H2 : UserDoc.isVerified bob = false) by reflexivity.
  assert (H3 : UserDoc.findOneByEmail users (toLowerCase "c@x.com") = Some carol)
    by reflexivity.
  assert (H4 : plain_comparePassword carol "hunter2" = true) by reflexivity.
  assert (H5 : UserDoc.isSuspended carol = true) by reflexivity.
  split; [exact H1|]. split; [exact H2|].
  split.
  { destruct (login_rejections plain_sha256 plain_correctPassword plain_comparePassword
                sample_env 2000 users alice_request "B" "s" "@x.com" "ecret" None)
      as (_ & Hunverified & _).
    exact (Hunverified bob H1 H2). }
  split; [exact H3|]. split; [exact H4|]. split; [exact H5|].
  destruct (login_rejections plain_sha256 plain_correctPassword plain_comparePassword
              sample_env 2000 users alice_request "c" "h" "@x.com" "unter2" None)
    as (_ & _ & _ & _ & _ & Hsuspended & _).
  exact (Hsuspended carol H3 H4 H5).
Defined.

Lemma single_flight_witness :
  Client.run (Client.idle signed_in) three_callers = Some two_waiting /\
  Client.isRefreshing two_waiting = true /\
  Client.failedQueue two_waiting = [2%nat; 3%nat] /\
  (length (Client.inflight two_waiting) <= 1)%nat /\
  Client.refreshCalls two_waiting = 1%nat.
Proof.
  assert (H : Client.run (Client.idle signed_in) three_callers = Some two_waiting)
    by reflexivity.
  split; [exact H|]. split; [reflexivity|]. split; [reflexivity|].
  split; [|reflexivity].
  exact (proj1 (single_flight signed_in three_callers two_waiting H)).
Defined.

Lemma gate_ignores_client_context_witness :
  extract_token bound_request = Some bound_token /\
  generateRequestFingerprint plain_sha256
    (mkRequest (Some "192.168.1.9") (Some "curl/8") None (authorization bound_request)
               (cookies bound_request))
  <> generateRequestFingerprint plain_sha256 bound_request /\
  (exists user,
      auth plain_sha256 plain_serialize sample_env 2000 unreachable_store users
           (mkRequest (Some "192.168.1.9") (Some "curl/8") None
                      (authorization bound_request) (cookies bound_request))
      = Next user bound_token) /\
  verifyTokenWithFingerprint sample_env 2000 bound_token
    (Some (generateRequestFingerprint plain_sha256
             (mkRequest (Some "192.168.1.9") (Some "curl/8") None
                        (authorization bound_request) (cookies bound_request))))
    false
  = Throw (mkError "Error" "Token fingerprint mismatch").
Proof.
  assert (H1 : extract_token bound_request = Some bound_token) by reflexivity.
  assert (H2 : generateRequestFingerprint plain_sha256
                 (mkRequest (Some "192.168.1.9") (Some "curl/8") None
                            (authorization bound_request) (cookies bound_request))
               <> generateRequestFingerprint plain_sha256 bound_request)
    by (vm_compute; discriminate).
  split; [exact H1|]. split; [exact H2|].
  destruct (gate_ignores_client_context plain_sha256 plain_serialize sample_env 2000
              unreachable_store users bound_request (Some "192.168.1.9") (Some "curl/8")
              None) as [_ Hbound].
  destruct (Hbound bound_token _ H1 eq_refl eq_refl H2) as (_ & Hsame & _ & Hrefused).
  split; [|exact Hrefused].
  eexists. rewrite Hsame. vm_compute. reflexivity.
Defined.


(** ** The further properties at concrete inputs *)

Lemma gate_accepts_iff_witness :
  auth plain_sha256 plain_serialize sample_env 2000 unreachable_store users alice_request
  = Next (UserDoc.select_safe alice)
         (Jwt.Jws (stamped sample_env 7 "access" 1000 (access_ttl false)) "access-secret").
Proof.
  apply (proj2 (gate_accepts_iff plain_sha256 plain_serialize sample_env 2000
                  unreachable_store users alice_request _ _)).
  split; [reflexivity|]. split; [reflexivity|]. split; [reflexivity|].
  exists (stamped sample_env 7 "access" 1000 (access_ttl false)), alice.
  repeat split; reflexivity.
Defined.


Lemma gate_token_source_witness :
  Jwt.falsy (Some alice_refresh) = false /\
  auth plain_sha256 plain_serialize sample_env 2000 unreachable_store users
       (mkRequest None None None None (Some (mkCookies (Some alice_refresh) None None)))
  = auth plain_sha256 plain_serialize sample_env 2000 unreachable_store users
         (bearing alice_refresh None).
Proof.
  assert (H : Jwt.falsy (Some alice_refresh) = false) by reflexivity.
  split; [exact H|].
  apply (proj1 (proj2 (gate_token_source plain_sha256 plain_serialize sample_env 2000
                         unreachable_store users alice_refresh None None None H))).
  exact I.
Defined.

Lemma admin_gate_witness :
  auth_then_admin plain_sha256 plain_serialize sample_env 2000 unreachable_store users
                  alice_request
  = Reply (reply 403 "Admin access required" (Some "ADMIN_REQUIRED")
                 (Some "This action requires administrator privileges")).
Proof.
  apply (proj2 (admin_gate plain_sha256 plain_serialize sample_env 2000 unreachable_store
                  users alice_request)
           (UserDoc.select_safe alice)
           (Jwt.Jws (stamped sample_env 7 "access" 1000 (access_ttl false)) "access-secret")).
  - reflexivity.
  - simpl. discriminate.
Defined.

Lemma lifetimes_by_profile_witness :
  lifetime (Jwt.Jws (stamped sample_env 7 "access" 1000 (access_ttl true)) "access-secret")
  = Some 604800.
Proof.
  apply (proj1 (lifetimes_by_profile sample_env 1000 7 true None
                  (Cookie.COOKIE_CONFIG None None))).
  reflexivity.
Defined.

Lemma minted_token_at_the_gate_witness :
  generateAccessToken sample_env 1000 (UserDoc._id carol) false
  = Ok (Jwt.Jws (stamped sample_env 9 "access" 1000 (access_ttl false)) "access-secret") /\
  UserDoc.findById users (Some (UserDoc._id carol)) = Some carol /\
  isTokenBlacklisted plain_sha256 plain_serialize empty_store
    (Jwt.Jws (stamped sample_env 9 "access" 1000 (access_ttl false)) "access-secret")
  = Ok false /\
  auth plain_sha256 plain_serialize sample_env 901000 empty_store users
       (bearing (Jwt.Jws (stamped sample_env 9 "access" 1000 (access_ttl false))
                         "access-secret") None)
  = Reply expired_reply.
Proof.
  assert (H1 : generateAccessToken sample_env 1000 (UserDoc._id carol) false
               = Ok (Jwt.Jws (stamped sample_env 9 "access" 1000 (access_ttl false))
                             "access-secret")) by reflexivity.
  assert (H2 : UserDoc.findById users (Some (UserDoc._id carol)) = Some carol)
    by reflexivity.
  assert (H3 : isTokenBlacklisted plain_sha256 plain_serialize empty_store
                 (Jwt.Jws (stamped sample_env 9 "access" 1000 (access_ttl false))
                          "access-secret") = Ok false) by reflexivity.
  split; [exact H1|]. split; [exact H2|]. split; [exact H3|].
  exact (minted_token_at_the_gate plain_sha256 plain_serialize sample_env 1000 901000
           empty_store users carol false _ None H1 H2 H3).
Defined.

Lemma secure_tokens_roundtrip_witness :
  generateSecureTokens sample_env 1000 7 false (Some "fp")
  = Ok {| accessToken := Jwt.Jws (unstamped 7 "access" (Some "fp") 1000 (access_ttl false))
                                 "access-secret";
          refreshToken := Jwt.Jws (unstamped 7 "refresh" (Some "fp") 1000
                                             (refresh_ttl false)) "refresh-secret" |} /\
  Some "other" <> Some "fp" /\
  2000 / 1000 < 1000 / 1000 + access_ttl false /\
  verifyTokenWithFingerprint sample_env 2000
    (Jwt.Jws (unstamped 7 "access" (Some "fp") 1000 (access_ttl false)) "access-secret")
    (Some "other") false
  = Throw (mkError "Error" "Token fingerprint mismatch").
Proof.
  assert (H1 : generateSecureTokens sample_env 1000 7 false (Some "fp")
               = Ok {| accessToken :=
                         Jwt.Jws (unstamped 7 "access" (Some "fp") 1000 (access_ttl false))
                                 "access-secret";
                       refreshToken :=
                         Jwt.Jws (unstamped 7 "refresh" (Some "fp") 1000
                                            (refresh_ttl false)) "refresh-secret" |})
    by reflexivity.
  assert (H2 : Some "other" <> Some "fp") by discriminate.
  assert (H3 : 2000 / 1000 < 1000 / 1000 + access_ttl false) by reflexivity.
  split; [exact H1|]. split; [exact H2|]. split; [exact H3|].
  exact (proj2 (proj2 (secure_tokens_roundtrip sample_env 1000 2000 7 false (Some "fp")
                         (Some "other") _ H1)) H2 H3).
Defined.

Lemma enhanced_session_is_refused_witness :
  login_enhanced plain_sha256 plain_comparePassword sample_env 2000 users alice_request
                 (mkLoginBody (Some "a@x.com") (Some "correct") None)
  = (fst (login_enhanced plain_sha256 plain_comparePassword sample_env 2000 users
                         alice_request (mkLoginBody (Some "a@x.com") (Some "correct") None)),
     snd (login_enhanced plain_sha256 plain_comparePassword sample_env 2000 users
                         alice_request (mkLoginBody (Some "a@x.com") (Some "correct") None)))
  /\ status (fst (login_enhanced plain_sha256 plain_comparePassword sample_env 2000 users
                    alice_request (mkLoginBody (Some "a@x.com") (Some "correct") None)))
     = 200
  /\ exists tokens,
       cookie_effect
         (fst (login_enhanced plain_sha256 plain_comparePassword sample_env 2000 users
                 alice_request (mkLoginBody (Some "a@x.com") (Some "correct") None)))
       = SetAuthCookies tokens false
       /\ forall t, auth plain_sha256 plain_serialize sample_env t unreachable_store users
                         (bearing (accessToken tokens) None)
                    <> Next (UserDoc.select_safe alice) (accessToken tokens).
Proof.
  assert (H1 : login_enhanced plain_sha256 plain_comparePassword sample_env 2000 users
                 alice_request (mkLoginBody (Some "a@x.com") (Some "correct") None)
               = (fst (login_enhanced plain_sha256 plain_comparePassword sample_env 2000
                         users alice_request
                         (mkLoginBody (Some "a@x.com") (Some "correct") None)),
                  snd (login_enhanced plain_sha256 plain_comparePassword sample_env 2000
                         users alice_request
                         (mkLoginBody (Some "a@x.com") (Some "correct") None))))
    by reflexivity.
  assert (H2 : status (fst (login_enhanced plain_sha256 plain_comparePassword sample_env
                              2000 users alice_request
                              (mkLoginBody (Some "a@x.com") (Some "correct") None)))
               = 200) by reflexivity.
  split; [exact H1|]. split; [exact H2|].
  destruct (enhanced_session_is_refused plain_sha256 plain_serialize plain_comparePassword
              sample_env 2000 users _ alice_request _ _ H1 H2)
    as (tokens & remember & Hck & Hgate & _).
  exists tokens. split.
  - rewrite Hck. f_equal. vm_compute in Hck. inversion Hck. reflexivity.
  - intros t. apply Hgate.
Defined.

Lemma logout_ends_refresh_witness :
  UserDoc.findById users (Some (UserDoc._id alice)) = Some alice /\
  mints (fst (refresh sample_env 4000
                (snd (logout plain_sha256 plain_serialize unreachable_store 3000 users
                             None None (Some (UserDoc._id alice))))
                (mkRefreshBody (Some alice_refresh) None))) = false.
Proof.
  assert (H1 : UserDoc.findById users (Some (UserDoc._id alice)) = Some alice)
    by reflexivity.
  assert (H2 : forall p k, alice_refresh = Jwt.Jws p k -> Jwt.id p = Some (UserDoc._id alice)).
  { intros p k H. inversion H. reflexivity. }
  split; [exact H1|].
  exact (proj1 (proj2 (logout_ends_refresh plain_sha256 plain_serialize sample_env 3000 4000
                         unreachable_store users None None alice alice_refresh None false
                         H1 H2))).
Defined.

Lemma blacklist_command_witness :
  addToBlacklist plain_sha256 plain_serialize live_store 1500 expiring_at_10
  = Some (blacklist_key plain_sha256 plain_serialize expiring_at_10, 9000) /\
  redisAvailable live_store = true /\ 0 < 9000.
Proof.
  assert (H : addToBlacklist plain_sha256 plain_serialize live_store 1500 expiring_at_10
              = Some (blacklist_key plain_sha256 plain_serialize expiring_at_10, 9000))
    by reflexivity.
  split; [exact H|].
  destruct (proj1 (blacklist_command plain_sha256 plain_serialize live_store 1500
                     expiring_at_10) _ _ H) as (Hup & _ & _ & Hpos & _).
  split; [exact Hup|exact Hpos].
Defined.

Lemma logout_revokes_access_witness :
  Jwt.exp (stamped sample_env 7 "access" 1000 9) = Some 10 /\
  0 <= 1500 /\ 1500 / 1000 < 10 /\ 1500 <= 5000 < 10 * 1000 /\
  isTokenBlacklisted plain_sha256 plain_serialize
    (Redis.connected
       (Redis.apply ∅ 1500
          (fst (logout plain_sha256 plain_serialize (Redis.connected ∅ 1500) 1500 users
                       (Some expiring_at_10) None (Some 7%nat))))
       5000)
    expiring_at_10 = Ok true.
Proof.
  assert (H1 : Jwt.exp (stamped sample_env 7 "access" 1000 9) = Some 10) by reflexivity.
  assert (H2 : 0 <= 1500) by lia.
  assert (H3 : 1500 / 1000 < 10) by reflexivity.
  assert (H4 : 1500 <= 5000 < 10 * 1000) by lia.
  split; [exact H1|]. split; [exact H2|]. split; [exact H3|]. split; [exact H4|].
  exact (proj1 (logout_revokes_access plain_sha256 plain_serialize sample_env 1500 5000 10 ∅
                  users (stamped sample_env 7 "access" 1000 9) "access-secret" None
                  (Some 7%nat) H1 H2 H3 H4)).
Defined.

Lemma logout_without_store_witness :
  (redisAvailable unreachable_store = false \/ redis unreachable_store = None) /\
  fst (logout plain_sha256 plain_serialize unreachable_store 1500 users
              (Some expiring_at_10) None (Some 7%nat)) = None /\
  auth plain_sha256 plain_serialize sample_env 2000 unreachable_store
       (snd (logout plain_sha256 plain_serialize unreachable_store 1500 users
                    (Some expiring_at_10) None (Some 7%nat)))
       alice_request
  = auth plain_sha256 plain_serialize sample_env 2000 unreachable_store users alice_request.
Proof.
  assert (H : redisAvailable unreachable_store = false \/ redis unreachable_store = None)
    by (left; reflexivity).
  split; [exact H|].
  exact (logout_without_store plain_sha256 plain_serialize sample_env 1500 2000
           unreachable_store users (Some expiring_at_10) None (Some 7%nat) alice_request H).
Defined.

Lemma sweep_is_transparent_witness :
  2000 <= 3000 /\
  snd (mb_has plain_sha256 plain_serialize 3000
         (mb_cleanup 2000
            (fst (mb_add plain_sha256 plain_serialize 1000 ∅ expiring_at_10 500)))
         expiring_at_10)
  = snd (mb_has plain_sha256 plain_serialize 3000
           (fst (mb_add plain_sha256 plain_serialize 1000 ∅ expiring_at_10 500))
           expiring_at_10).
Proof.
  assert (H : 2000 <= 3000) by lia.
  split; [exact H|].
  exact (proj1 (sweep_is_transparent plain_sha256 plain_serialize
                  (fst (mb_add plain_sha256 plain_serialize 1000 ∅ expiring_at_10 500))
                  2000 3000 expiring_at_10 H)).
Defined.

Lemma login_opens_session_witness :
  NoDup (List.map UserDoc._id users) /\
  status (fst (login plain_correctPassword sample_env 2000 users
                     (mkLoginBody (Some "A@x.com") (Some "correct") None))) = 200 /\
  exists user issued,
    In user users /\
    forall t,
      t / 1000 < 2000 / 1000 + refresh_ttl false ->
      status (fst (refresh sample_env t
                     (snd (login plain_correctPassword sample_env 2000 users
                                 (mkLoginBody (Some "A@x.com") (Some "correct") None)))
                     (mkRefreshBody (Some (refreshToken issued)) None)))
      = if UserDoc.isSuspended user then 403 else 200.
Proof.
  assert (H0 : NoDup (List.map UserDoc._id users)).
  { apply (bool_decide_unpack _). vm_compute. exact I. }
  assert (H1 : login plain_correctPassword sample_env 2000 users
                     (mkLoginBody (Some "A@x.com") (Some "correct") None)
               = (fst (login plain_correctPassword sample_env 2000 users
                             (mkLoginBody (Some "A@x.com") (Some "correct") None)),
                  snd (login plain_correctPassword sample_env 2000 users
                             (mkLoginBody (Some "A@x.com") (Some "correct") None))))
    by reflexivity.
  assert (H2 : status (fst (login plain_correctPassword sample_env 2000 users
                                  (mkLoginBody (Some "A@x.com") (Some "correct") None)))
               = 200) by reflexivity.
  split; [exact H0|]. split; [exact H2|].
  destruct (login_opens_session plain_sha256 plain_serialize plain_correctPassword
              sample_env 2000 users _ _ _ H0 H1 H2)
    as (user & issued & Hin & _ & _ & _ & Hrefresh).
  exists user, issued. split; [exact Hin|].
  intros t Ht. apply Hrefresh. exact Ht.
Defined.

Lemma refresh_paths_agree_witness :
  env_ready sample_env = true /\
  refreshTokens sample_env 2500 users (Some alice_refresh) false
  = Ok ({| accessToken := Jwt.Jws (stamped sample_env 7 "access" 2500 (access_ttl false))
                                  "access-secret";
           refreshToken := Jwt.Jws (stamped sample_env 7 "refresh" 2500 (refresh_ttl false))
                                   "refresh-secret" |},
        snd rotated).
Proof.
  assert (H : env_ready sample_env = true) by reflexivity.
  split; [exact H|].
  apply (proj2 (refresh_paths_agree sample_env 2500 users (snd rotated) alice_refresh false
                  _ H)).
  reflexivity.
Defined.

Lemma forgot_password_is_uniform_witness :
  truthy (JWT_SECRET sample_env) = true /\
  fst (forgot_password sample_env 2000 users (Some "a@x.com"))
  = fst (forgot_password sample_env 2000 [] (Some "a@x.com")).
Proof.
  assert (H : truthy (JWT_SECRET sample_env) = true) by reflexivity.
  split; [exact H|].
  exact (proj1 (proj2 (forgot_password_is_uniform sample_env 2000 users [] "a" "@x.com" H))).
Defined.

Lemma password_reset_roundtrip_witness :
  NoDup (List.map UserDoc._id users) /\
  forgot_password sample_env 2000 users (Some "a@x.com")
  = (reset_link_sent,
     Some (mkMail "a@x.com" "MarketSphere - Reset Your Password"
                  (Jwt.Jws (reset_claims sample_env 7 2000) "access-secret"))) /\
  exists user,
    In user users /\
    reset_password sample_env 3602000 users
                   (Some (Jwt.Jws (reset_claims sample_env 7 2000) "access-secret"))
                   (Some "Chosen1!")
    = (Refused (reply 400 "Reset token has expired" None None), users) /\
    reset_password sample_env 3601999 users
                   (Some (Jwt.Jws (reset_claims sample_env 7 2000) "access-secret"))
                   (Some "Chosen1!")
    = (password_reset_done, UserDoc.save users (with_password user "Chosen1!")).
Proof.
  assert (H0 : NoDup (List.map UserDoc._id users)).
  { apply (bool_decide_unpack _). vm_compute. exact I. }
  assert (H1 : forgot_password sample_env 2000 users (Some "a@x.com")
               = (reset_link_sent,
                  Some (mkMail "a@x.com" "MarketSphere - Reset Your Password"
                               (Jwt.Jws (reset_claims sample_env 7 2000) "access-secret"))))
    by reflexivity.
  split; [exact H0|]. split; [exact H1|].
  destruct (password_reset_roundtrip plain_sha256 plain_serialize sample_env 2000 3602000
              users "a" "C" "@x.com" "hosen1!" _ H0 H1) as (user & Hin & _ & Hlate & _).
  destruct (password_reset_roundtrip plain_sha256 plain_serialize sample_env 2000 3601999
              users "a" "C" "@x.com" "hosen1!" _ H0 H1) as (user' & Hin' & Hearly & _).
  exists user'. split; [exact Hin'|]. split.
  - apply Hlate. reflexivity.
  - apply Hearly. reflexivity.
Defined.

Lemma access_token_resets_password_witness :
  generateAccessToken sample_env 1000 (UserDoc._id alice) false
  = Ok (Jwt.Jws (stamped sample_env 7 "access" 1000 (access_ttl false)) "access-secret") /\
  UserDoc.findById users (Some (UserDoc._id alice)) = Some alice /\
  2000 / 1000 < 1000 / 1000 + access_ttl false /\
  reset_password sample_env 2000 users
    (Some (Jwt.Jws (stamped sample_env 7 "access" 1000 (access_ttl false)) "access-secret"))
    (Some "Chosen1!")
  = (password_reset_done, UserDoc.save users (with_password alice "Chosen1!")).
Proof.
  assert (H1 : generateAccessToken sample_env 1000 (UserDoc._id alice) false
               = Ok (Jwt.Jws (stamped sample_env 7 "access" 1000 (access_ttl false))
                             "access-secret")) by reflexivity.
  assert (H2 : UserDoc.findById users (Some (UserDoc._id alice)) = Some alice)
    by reflexivity.
  assert (H3 : 2000 / 1000 < 1000 / 1000 + access_ttl false) by reflexivity.
  split; [exact H1|]. split; [exact H2|]. split; [exact H3|].
  exact (access_token_resets_password sample_env 1000 2000 users alice false _ "C" "hosen1!"
           H1 H2 H3).
Defined.

Lemma google_find_or_create_witness :
  NoDup (List.map UserDoc._id users) /\
  exists r db',
    google_route true "user" sample_env 2000 users first_login = (GR_done r, db') /\
    status r = 200 /\
    count_email db' (toLowerCase "New@x.com") = 1%nat /\
    length db' = 4%nat.
Proof.
  assert (H0 : NoDup (List.map UserDoc._id users)).
  { apply (bool_decide_unpack _). vm_compute. exact I. }
  split; [exact H0|].
  destruct (google_route true "user" sample_env 2000 users first_login) as [g db'] eqn:Hrun.
  destruct g as [req|req em nm gid picture found|req user isNew|r];
    try (vm_compute in Hrun; discriminate Hrun).
  assert (Hst : status r = 200).
  { vm_compute in Hrun. inversion Hrun. reflexivity. }
  exists r, db'. split; [reflexivity|]. split; [exact Hst|].
  destruct (google_find_or_create true "user" sample_env 2000 users db' first_login r
              H0 Hrun Hst) as (payload & c & e & Htk & Hem & Hcount & Hlen & _).
  inversion Htk; subst payload. inversion Hem; subst c e.
  split; [exact Hcount|exact Hlen].
Defined.

Lemma google_route_ignores_email_verified_witness :
  truthy (g_token first_login) = true /\
  g_ticket first_login = Ok (Some newcomer) /\
  google_route true "user" sample_env 2000 users (with_email_verified first_login false)
  = google_route true "user" sample_env 2000 users first_login.
Proof.
  assert (H1 : truthy (g_token first_login) = true) by reflexivity.
  assert (H2 : g_ticket first_login = Ok (Some newcomer)) by reflexivity.
  split; [exact H1|]. split; [exact H2|].
  exact (proj1 (google_route_ignores_email_verified true "user" sample_env 2000 users
                  first_login false newcomer H1 H2)).
Defined.

Lemma every_caller_is_answered_once_witness :
  Client.run (Client.idle signed_in) three_callers = Some two_waiting /\
  (times 2 (List.map fst (Client.settled two_waiting))
   + times 2 (Client.failedQueue two_waiting)
   + times 2 (List.map Client.owner (Client.inflight two_waiting)))%nat
  = times 2 (invoked three_callers).
Proof.
  assert (H : Client.run (Client.idle signed_in) three_callers = Some two_waiting)
    by reflexivity.
  split; [exact H|].
  exact (proj1 (every_caller_is_answered_once signed_in three_callers two_waiting 2 H)).
Defined.

Lemma settlement_and_storage_witness :
  exists s',
    Client.step two_waiting
                (Client.Settle 1 (Client.HttpError (mkError "AxiosError" "401"))) = Some s' /\
    Client.getStoredTokens (Client.browser s') = (None, None, false) /\
    Client.refreshCalls (Client.invoke s' 4) = Client.refreshCalls s'.
Proof.
  destruct (Client.step two_waiting
              (Client.Settle 1 (Client.HttpError (mkError "AxiosError" "401"))))
    as [s'|] eqn:H; [|vm_compute in H; discriminate H].
  exists s'. split; [reflexivity|].
  destruct (proj2 (settlement_and_storage two_waiting s' 1 _ H) _ eq_refl) as [Hst Hnext].
  split; [exact Hst|]. exact (proj1 (Hnext 4%nat)).
Defined.
